(** * Points Tracker: the ledger and the weekly heatmap of [points-tracker.pyw]

    A shallow embedding of the parts of [src/points-tracker.pyw] that the
    specification talks about, with proofs of the properties C1 to C10
    that the specification states about them:

    - the [points] table of [points.db] and the statements [update_points]
      and [update_points_display] run against it;
    - [is_valid_date], that is [datetime.strptime(_, "%Y-%m-%d")];
    - the week anchor of [HeatmapCalendar] with [show_previous_week] and
      [show_next_week];
    - the geometry of [mouseMoveEvent] / [mousePressEvent] and the colour
      computed in [paintEvent].

    Conventions of the embedding.
    - A Python [int] is a [Z]; Python integers do not wrap.
    - A Python [str] is a [string] of [ascii] characters.  The digit class
      of [re] and [str.isdigit] also holds decimal digits outside ASCII;
      those characters are outside this model.
    - The text of a date is the one [strftime] gives on Linux, with
      glibc under CPython 3.11: [%Y] prints the year without padding, so
      a year below 1000 has fewer than four digits.  A C library that
      pads the year gives the same texts from the year 1000 on.
    - A Python [float] is a binary64 number: [spec_float] with the
      operations of [SpecFloat] at precision 53 and [emax] 1024.
    - A [dict] is a [gmap]; the table is a list of rows in rowid order,
      since nothing in the schema makes the [date] column unique.
    - A Python exception that the code does not catch is a result of its
      own ([None], or a constructor of the result type); the state is then
      the one before the call.
    - Failures of the storage itself ([sqlite3.Error]) are not modelled:
      every statement succeeds.  The [INTEGER] column holds 64 bits; the
      amounts come from a spin box that stops at 10000, and totals near
      [2^63] are outside this model. *)

From Stdlib Require Import ZArith String Ascii List Bool Lia SpecFloat.
From stdpp Require Import base option list gmap strings.

Local Open Scope string_scope.
Local Open Scope list_scope.
Local Open Scope Z_scope.

(** ** Python strings *)

Module PyStr.

Definition code (c : ascii) : Z := Z.of_N (N_of_ascii c).

(** [c] lies in the character range [lo-hi] of a regular expression. *)
Definition in_range (lo hi c : ascii) : bool :=
  (code lo <=? code c) && (code c <=? code hi).

Definition is_digit (c : ascii) : bool := in_range "0" "9" c.

Definition digit_value (c : ascii) : Z := code c - 48.

Definition chars (s : string) : list ascii := list_ascii_of_string s.

(** [s.isdigit()]: at least one character, and all of them digits. *)
Definition isdigit (s : string) : bool :=
  match chars s with
  | [] => false
  | cs => forallb is_digit cs
  end.

(** [int(s)] on a sequence of digits, most significant first. *)
Definition int_digits (cs : list ascii) : Z :=
  fold_left (fun acc c => 10 * acc + digit_value c) cs 0.

(** [int(s)] strips surrounding white space before it reads the digits;
    the only white space the callers below can pass is one leading
    blank. *)
Definition int (s : string) : Z :=
  match chars s with
  | " "%char :: cs => int_digits cs
  | cs => int_digits cs
  end.

Definition digit_char (d : Z) : ascii := ascii_of_N (Z.to_N (48 + d)).

(** The decimal digits of [n], least significant first; [fuel] bounds
    the number of digits. *)
Fixpoint rev_digits (fuel : nat) (n : Z) : list ascii :=
  match fuel with
  | O => []
  | S fuel' =>
      if n <? 10 then [digit_char n]
      else digit_char (n mod 10) :: rev_digits fuel' (n / 10)
  end.

(** [str(n)] for [0 <= n]. *)
Definition str (n : Z) : string :=
  string_of_list_ascii (rev (rev_digits (S (Z.to_nat (Z.log2 n))) n)).

(** ["%0<w>d" % n] for [0 <= n]: [str(n)] filled with zeros on the left
    up to width [w]. *)
Definition zfill (w : nat) (n : Z) : string :=
  let s := str n in
  String.append
    (string_of_list_ascii (repeat "0"%char (w - String.length s)%nat)) s.

End PyStr.

(** ** The proleptic Gregorian calendar of [datetime]

    The functions below are those of Python's [datetime] module
    ([_is_leap], [_days_in_month], [_days_before_year], [_ord2ymd], ...):
    day 1 is 0001-01-01 and the last day is 9999-12-31. *)

Module Calendar.

Definition MINYEAR : Z := 1.
Definition MAXYEAR : Z := 9999.

Definition is_leap (year : Z) : bool :=
  (year mod 4 =? 0) && (negb (year mod 100 =? 0) || (year mod 400 =? 0)).

Definition DAYS_IN_MONTH : list Z :=
  [-1; 31; 28; 31; 30; 31; 30; 31; 31; 30; 31; 30; 31].

Definition DAYS_BEFORE_MONTH : list Z :=
  [-1; 0; 31; 59; 90; 120; 151; 181; 212; 243; 273; 304; 334].

Definition table_at (t : list Z) (i : Z) : Z := nth (Z.to_nat i) t 0.

Definition days_in_month (year month : Z) : Z :=
  if (month =? 2) && is_leap year then 29 else table_at DAYS_IN_MONTH month.

Definition days_before_year (year : Z) : Z :=
  let y := year - 1 in y * 365 + y / 4 - y / 100 + y / 400.

Definition days_before_month (year month : Z) : Z :=
  table_at DAYS_BEFORE_MONTH month
  + (if (2 <? month) && is_leap year then 1 else 0).

Definition ymd2ord (year month day : Z) : Z :=
  days_before_year year + days_before_month year month + day.

Definition DI400Y : Z := Eval cbv in days_before_year 401.
Definition DI100Y : Z := Eval cbv in days_before_year 101.
Definition DI4Y : Z := Eval cbv in days_before_year 5.

Definition MAXORDINAL : Z := Eval cbv in ymd2ord 9999 12 31.

(** [_ord2ymd(n)]: the year, month and day of ordinal [n]. *)
Definition ord2ymd (n : Z) : Z * Z * Z :=
  let n := n - 1 in
  let n400 := n / DI400Y in
  let n := n mod DI400Y in
  let year := n400 * 400 + 1 in
  let n100 := n / DI100Y in
  let n := n mod DI100Y in
  let n4 := n / DI4Y in
  let n := n mod DI4Y in
  let n1 := n / 365 in
  let n := n mod 365 in
  let year := year + n100 * 100 + n4 * 4 + n1 in
  if (n1 =? 4) || (n100 =? 4) then (year - 1, 12, 31)
  else
    let leapyear := (n1 =? 3) && (negb (n4 =? 24) || (n100 =? 3)) in
    let month := Z.shiftr (n + 50) 5 in
    let preceding :=
      table_at DAYS_BEFORE_MONTH month
      + (if (2 <? month) && leapyear then 1 else 0) in
    if n <? preceding then
      let month := month - 1 in
      let preceding :=
        preceding
        - (table_at DAYS_IN_MONTH month
           + (if (month =? 2) && leapyear then 1 else 0)) in
      (year, month, n - preceding + 1)
    else (year, month, n - preceding + 1).

(** The constructor [date(year, month, day)] raises [ValueError] unless
    its fields are in range. *)
Definition check_date_fields (year month day : Z) : bool :=
  (MINYEAR <=? year) && (year <=? MAXYEAR)
  && (1 <=? month) && (month <=? 12)
  && (1 <=? day) && (day <=? days_in_month year month).

(** A naive [datetime]: its day, as a proleptic Gregorian ordinal, and
    the time of day, in microseconds since midnight. *)
Record datetime : Type := mk_datetime {
  toordinal : Z;
  time_of_day : Z
}.

Definition US_PER_DAY : Z := 86400 * 1000000.

Definition valid_datetime (dt : datetime) : Prop :=
  1 <= toordinal dt <= MAXORDINAL /\ 0 <= time_of_day dt < US_PER_DAY.

(** [dt + timedelta(days=days)]: [None] stands for the [OverflowError]
    that [datetime.__add__] raises when the day leaves the calendar. *)
Definition add_days (dt : datetime) (days : Z) : option datetime :=
  let d := toordinal dt + days in
  if (0 <? d) && (d <=? MAXORDINAL)
  then Some (mk_datetime d (time_of_day dt))
  else None.

(** [timedelta(weeks=w)] is [7 * w] days. *)
Definition weeks (w : Z) : Z := 7 * w.

(** [dt.weekday()]: Monday is 0. *)
Definition weekday (dt : datetime) : Z := (toordinal dt + 6) mod 7.

(** [dt.strftime("%Y-%m-%d")].  [strftime] leaves the format to the C
    library: with glibc [%Y] is the year as [str] prints it, without
    padding, so that the day 0999-12-30 gives ["999-12-30"]; [%m] and
    [%d] are two digits each. *)
Definition strftime_ymd (dt : datetime) : string :=
  let '(y, m, d) := ord2ymd (toordinal dt) in
  String.append (PyStr.str y)
    (String.append "-"
       (String.append (PyStr.zfill 2 m)
          (String.append "-" (PyStr.zfill 2 d)))).

End Calendar.

(** ** [datetime.strptime(date_str, "%Y-%m-%d")]

    [_strptime] turns the format into the regular expression
    [(?P<Y>\d\d\d\d)-(?P<m>1[0-2]|0[1-9]|[1-9])-(?P<d>3[0-1]|[1-2]\d|0[1-9]|[1-9]| [1-9])],
    matches it at the start of the text, raises [ValueError] when nothing
    matches or when text remains after the match, converts the groups with
    [int] and builds the date, which raises [ValueError] when the fields
    are no calendar date. *)

Module Strptime.

Import PyStr.

(** A way to match a group: the characters it takes and those it leaves. *)
Definition candidate : Type := list ascii * list ascii.

Definition take1 (p : ascii -> bool) (l : list ascii) : list candidate :=
  match l with
  | a :: r => if p a then [([a], r)] else []
  | [] => []
  end.

Definition take2 (p q : ascii -> bool) (l : list ascii) : list candidate :=
  match l with
  | a :: b :: r => if p a && q b then [([a; b], r)] else []
  | _ => []
  end.

Definition is_char (x c : ascii) : bool := code c =? code x.

(** [\d\d\d\d] *)
Definition group_Y (l : list ascii) : list candidate :=
  match l with
  | a :: b :: c :: d :: r =>
      if is_digit a && is_digit b && is_digit c && is_digit d
      then [([a; b; c; d], r)] else []
  | _ => []
  end.

(** [1[0-2]|0[1-9]|[1-9]], the alternatives in the order the matcher
    tries them. *)
Definition group_m (l : list ascii) : list candidate :=
  (take2 (is_char "1") (in_range "0" "2") l
   ++ take2 (is_char "0") (in_range "1" "9") l
   ++ take1 (in_range "1" "9") l)%list.

(** [3[0-1]|[1-2]\d|0[1-9]|[1-9]| [1-9]] *)
Definition group_d (l : list ascii) : list candidate :=
  (take2 (is_char "3") (in_range "0" "1") l
   ++ take2 (in_range "1" "2") is_digit l
   ++ take2 (is_char "0") (in_range "1" "9") l
   ++ take1 (in_range "1" "9") l
   ++ take2 (is_char " ") (in_range "1" "9") l)%list.

(** The literal [-] of the format. *)
Definition dash (l : list ascii) : list (list ascii) :=
  match l with
  | a :: r => if is_char "-" a then [r] else []
  | [] => []
  end.

(** Every match of the expression at the start of [l], in the order of
    the backtracking matcher: the groups and the unconverted rest. *)
Definition matches (l : list ascii)
  : list (list ascii * list ascii * list ascii * list ascii) :=
  '(Y, r1) ← group_Y l;
  r2 ← dash r1;
  '(m, r3) ← group_m r2;
  r4 ← dash r3;
  '(d, r5) ← group_d r4;
  [(Y, m, d, r5)].

(** The year, month and day that [strptime] reads, or [None] for a
    [ValueError]. *)
Definition strptime_ymd (date_str : string) : option (Z * Z * Z) :=
  match matches (chars date_str) with
  | [] => None
  | (Y, m, d, rest) :: _ =>
      match rest with
      | _ :: _ => None
      | [] =>
          let year := int (string_of_list_ascii Y) in
          let month := int (string_of_list_ascii m) in
          let day := int (string_of_list_ascii d) in
          if Calendar.check_date_fields year month day
          then Some (year, month, day)
          else None
      end
  end.

End Strptime.

(** ** [is_valid_date] *)

Definition is_valid_date (date_str : string) : bool :=
  match Strptime.strptime_ymd date_str with
  | Some _ => true
  | None => false
  end.

(** ** The table [points] of [points.db]

    [CREATE TABLE points (id INTEGER PRIMARY KEY, date TEXT NOT NULL,
    points INTEGER NOT NULL)]: rows in rowid order.  No constraint of
    the table says that two rows have different dates. *)

Module Db.

Record row : Type := mk_row {
  row_id : Z;
  row_date : string;
  row_points : Z
}.

Definition table : Type := list row.

Definition has_date (date : string) (r : row) : bool :=
  String.eqb (row_date r) date.

(** [SELECT points FROM points WHERE date = ?] followed by [fetchone()]:
    the first row found, if any. *)
Definition select_points (date : string) (t : table) : option Z :=
  row_points <$> List.find (has_date date) t.

(** [UPDATE points SET points = ? WHERE date = ?] *)
Definition update_points (new_points : Z) (date : string) (t : table) : table :=
  map (fun r => if has_date date r
                then mk_row (row_id r) (row_date r) new_points
                else r) t.

(** [DELETE FROM points WHERE date = ?] *)
Definition delete (date : string) (t : table) : table :=
  List.filter (fun r => negb (has_date date r)) t.

(** The rowid of a new row: one more than the largest in use. *)
Definition next_id (t : table) : Z :=
  1 + fold_right Z.max 0 (map row_id t).

(** [INSERT INTO points (date, points) VALUES (?, ?)] *)
Definition insert (date : string) (points : Z) (t : table) : table :=
  (t ++ [mk_row (next_id t) date points])%list.

(** [SELECT date, points FROM points] followed by [fetchall()]. *)
Definition select_all (t : table) : list (string * Z) :=
  map (fun r => (row_date r, row_points r)) t.

End Db.

(** ** Python numbers: true division, product and truncation *)

Module PyFloat.

Definition prec : Z := 53.
Definition emax : Z := 1024.

(** An integer as an exact, not yet rounded, binary number: [n * 2^0]. *)
Definition exact (n : Z) : spec_float :=
  match n with
  | Z0 => S754_zero false
  | Zpos p => S754_finite false p 0
  | Zneg p => S754_finite true p 0
  end.

(** [float(n)]: the integer rounded to the nearest binary64 number. *)
Definition of_int (n : Z) : spec_float := binary_normalize prec emax n 0 false.

Definition is_finite (x : spec_float) : bool :=
  match x with
  | S754_zero _ | S754_finite _ _ _ => true
  | _ => false
  end.

(** [a / b] on integers: Python divides the integers themselves and
    rounds the quotient once to the nearest binary64 number; below
    [2^53] that is the division of the two integers as floats.  [SFdiv]
    is applied to the exact operands for that reason.  [None] stands for
    [ZeroDivisionError] and for the [OverflowError] of a quotient too
    large for a float. *)
Definition int_truediv (a b : Z) : option spec_float :=
  if b =? 0 then None
  else
    let q := SFdiv prec emax (exact a) (exact b) in
    if is_finite q then Some q else None.

(** [x * n] for a float [x] and an integer [n]: the integer becomes a
    float first. *)
Definition mul_int (x : spec_float) (n : Z) : spec_float :=
  SFmul prec emax x (of_int n).

(** [int(x)]: truncation towards zero; [None] stands for the exception
    raised on an infinity or a NaN. *)
Definition to_int (x : spec_float) : option Z :=
  match x with
  | S754_zero _ => Some 0
  | S754_finite s m e =>
      let a := match e with
               | Zneg k => Z.shiftr (Zpos m) (Zpos k)
               | _ => Z.shiftl (Zpos m) e
               end in
      Some (if s then - a else a)
  | _ => None
  end.

End PyFloat.

(** ** [HeatmapCalendar] *)

Record QMouseEvent : Type := mk_event {
  ev_x : Z;
  ev_y : Z;
  ev_modifiers : Z;
  ev_button : Z
}.

Definition RightButton : Z := 2.

Record HeatmapCalendar : Type := mk_heatmap {
  width : Z;
  height : Z;
  points_data : gmap string Z;
  target_points_per_day : Z;
  current_week_start : Calendar.datetime;
  hovered_square : Z;
  highlight_opacity : Z
}.

Definition set_points_data (d : gmap string Z) (self : HeatmapCalendar)
  : HeatmapCalendar :=
  mk_heatmap (width self) (height self) d (target_points_per_day self)
    (current_week_start self) (hovered_square self) (highlight_opacity self).

Definition set_target_points_per_day (target_points : Z)
  (self : HeatmapCalendar) : HeatmapCalendar :=
  mk_heatmap (width self) (height self) (points_data self) target_points
    (current_week_start self) (hovered_square self) (highlight_opacity self).

Definition set_week_start (week_start : Calendar.datetime)
  (self : HeatmapCalendar) : HeatmapCalendar :=
  mk_heatmap (width self) (height self) (points_data self)
    (target_points_per_day self) week_start
    (hovered_square self) (highlight_opacity self).

Definition set_hover (square opacity : Z) (self : HeatmapCalendar)
  : HeatmapCalendar :=
  mk_heatmap (width self) (height self) (points_data self)
    (target_points_per_day self) (current_week_start self) square opacity.

(** The geometry that [paintEvent], [mouseMoveEvent] and
    [mousePressEvent] each compute from the size of the widget. *)
Definition spacing : Z := 5.

Definition square_size (self : HeatmapCalendar) : Z :=
  Z.min (width self / 6) (height self - 5).

Definition start_x (self : HeatmapCalendar) : Z :=
  (width self - (square_size self * 7 + spacing * 6)) / 2.

Definition band_y (self : HeatmapCalendar) : Z :=
  (height self - square_size self) / 4.

(** The square under the pointer, as both mouse handlers find it:
    [if 0 <= y <= event.y() < y + size] and then
    [square_index = x // adjusted_width], kept [if 0 <= square_index < 7]. *)
Definition square_index_at (self : HeatmapCalendar) (ex ey : Z) : option Z :=
  let size := square_size self in
  let adjusted_width := size + spacing in
  let y := band_y self in
  let x := ex - start_x self in
  if (0 <=? y) && (y <=? ey) && (ey <? y + size) then
    let square_index := x / adjusted_width in
    if (0 <=? square_index) && (square_index <? 7)
    then Some square_index
    else None
  else None.

(** [(self.current_week_start + timedelta(days=i)).strftime("%Y-%m-%d")] *)
Definition day_key (self : HeatmapCalendar) (i : Z) : option string :=
  Calendar.strftime_ymd <$> Calendar.add_days (current_week_start self) i.

(** [self.points_data.get(date, 0)] *)
Definition points_on (self : HeatmapCalendar) (date : string) : Z :=
  default 0 (points_data self !! date).

(** The [color_value] of [paintEvent] for a square with [points > 0]:
    [min(155, int((points / target) * 155))] when the target is
    positive, and 0 otherwise. *)
Definition color_value (points target_points_per_day : Z) : option Z :=
  if 0 <? target_points_per_day then
    q ← PyFloat.int_truediv points target_points_per_day;
    v ← PyFloat.to_int (PyFloat.mul_int q 155);
    Some (Z.min 155 v)
  else Some 0.

(** One square of [paintEvent]: its date, its points and, when the
    points are positive, the colour drawn over the default one. *)
Record cell : Type := mk_cell {
  cell_date : string;
  cell_points : Z;
  cell_color : option Z
}.

Definition paint_cell (self : HeatmapCalendar) (i : Z) : option cell :=
  date ← day_key self i;
  let points := points_on self date in
  if 0 <? points then
    c ← color_value points (target_points_per_day self);
    Some (mk_cell date points (Some c))
  else Some (mk_cell date points None).

(** [paintEvent]: the seven squares it draws, [for i in range(7)]. *)
Definition paintEvent (self : HeatmapCalendar) : option (list cell) :=
  mapM (paint_cell self) [0; 1; 2; 3; 4; 5; 6].

(** What a press on the widget asks of its parent. *)
Inductive press_action : Type :=
| PressNothing
| PressSetDate (date : string)
| PressUpdatePoints (operation : Z) (date : string).

(** [mousePressEvent].  The test [event.modifiers() and Qt.ControlModifier]
    holds as soon as some modifier key is down. *)
Definition mousePressEvent (self : HeatmapCalendar) (event : QMouseEvent)
  : option press_action :=
  match square_index_at self (ev_x event) (ev_y event) with
  | Some square_index =>
      date ← day_key self square_index;
      if negb (ev_modifiers event =? 0) then
        if ev_button event =? RightButton
        then Some (PressUpdatePoints (-1) date)
        else Some (PressUpdatePoints 1 date)
      else Some (PressSetDate date)
  | None => Some PressNothing
  end.

(** [mouseMoveEvent], as far as [hovered_square] and [highlight_opacity]
    go: the tooltip and the fade-in timer are left out. *)
Definition mouseMoveEvent (self : HeatmapCalendar) (event : QMouseEvent)
  : option HeatmapCalendar :=
  match square_index_at self (ev_x event) (ev_y event) with
  | Some square_index =>
      _ ← day_key self square_index;
      if hovered_square self =? square_index then Some self
      else Some (set_hover square_index 0 self)
  | None => Some (set_hover (-1) 0 self)
  end.

(** [fade_in], the slot of the timer that a move onto a square with
    points starts: [highlight_opacity += 30], capped at 255. *)
Definition fade_in (self : HeatmapCalendar) : HeatmapCalendar :=
  let opacity := highlight_opacity self + 30 in
  set_hover (hovered_square self) (if 255 <? opacity then 255 else opacity)
    self.

(** [QRect(x, y, w, h)]. *)
Record QRect : Type := mk_rect {
  rect_x : Z;
  rect_y : Z;
  rect_width : Z;
  rect_height : Z
}.

(** The rectangle that [paintEvent] draws for square [i]:
    [QRect(start_x + i * (size + spacing), y, size, size)]. *)
Definition square_rect (self : HeatmapCalendar) (i : Z) : QRect :=
  let size := square_size self in
  mk_rect (start_x self + i * (size + spacing)) (band_y self) size size.

(** ** [PointsTracker] *)

Record PointsTracker : Type := mk_tracker {
  db : Db.table;
  date_entry : string;
  points_entry : string;
  points_per_day : Z;
  heatmap_calendar : HeatmapCalendar
}.

Definition with_db (t : Db.table) (self : PointsTracker) : PointsTracker :=
  mk_tracker t (date_entry self) (points_entry self) (points_per_day self)
    (heatmap_calendar self).

Definition with_heatmap (h : HeatmapCalendar) (self : PointsTracker)
  : PointsTracker :=
  mk_tracker (db self) (date_entry self) (points_entry self)
    (points_per_day self) h.

(** The user types into the two entries. *)
Definition type_date (text : string) (self : PointsTracker) : PointsTracker :=
  mk_tracker (db self) text (points_entry self) (points_per_day self)
    (heatmap_calendar self).

Definition type_points (text : string) (self : PointsTracker) : PointsTracker :=
  mk_tracker (db self) (date_entry self) text (points_per_day self)
    (heatmap_calendar self).

(** [{row[0]: row[1] for row in rows}]: a later row replaces an earlier
    one with the same date. *)
Definition dict_of_rows (rows : list (string * Z)) : gmap string Z :=
  fold_left (fun m r => <[r.1 := r.2]> m) rows ∅.

(** [update_points_display] *)
Definition update_points_display (self : PointsTracker) : PointsTracker :=
  let rows := Db.select_all (db self) in
  let points_data := dict_of_rows rows in
  with_heatmap
    (set_target_points_per_day (points_per_day self)
       (set_points_data points_data (heatmap_calendar self)))
    self.

(** The message box that [update_points] opens. *)
Inductive message : Type :=
| ErrorInvalidDate
| ErrorInvalidPoints
| InfoUpdated (date : string) (total : Z)
| InfoDeleted (date : string)
| InfoAdded (points : string)
| WarningNoPoints
| NoMessage.

(** [if not date: date = self.date_entry.text()] *)
Definition effective_date (date : option string) (self : PointsTracker)
  : string :=
  match date with
  | None | Some "" => date_entry self
  | Some d => d
  end.

(** [update_points(operation, date=None)] *)
Definition update_points (operation : Z) (date : option string)
  (self : PointsTracker) : message * PointsTracker :=
  let date := effective_date date self in
  let points := points_entry self in
  if negb (is_valid_date date) then (ErrorInvalidDate, self)
  else if PyStr.isdigit points then
    let existing_row := Db.select_points date (db self) in
    let '(box, t) :=
      match existing_row with
      | Some existing =>
          if operation =? 1 then
            let new_points := existing + PyStr.int points in
            (InfoUpdated date new_points,
             Db.update_points new_points date (db self))
          else if operation =? -1 then
            let new_points := existing - PyStr.int points in
            if new_points <=? 0
            then (InfoDeleted date, Db.delete date (db self))
            else (InfoUpdated date new_points,
                  Db.update_points new_points date (db self))
          else (NoMessage, db self)
      | None =>
          if operation =? 1
          then (InfoAdded points, Db.insert date (PyStr.int points) (db self))
          else (WarningNoPoints, db self)
      end in
    (box, update_points_display (with_db t self))
  else (ErrorInvalidPoints, self).

(** [show_previous_week] and [show_next_week]; [None] stands for the
    [OverflowError] of the date arithmetic. *)
Definition show_previous_week (self : PointsTracker) : option PointsTracker :=
  new_week_start ←
    Calendar.add_days (current_week_start (heatmap_calendar self))
      (- Calendar.weeks 1);
  Some (update_points_display
          (with_heatmap (set_week_start new_week_start (heatmap_calendar self))
             self)).

Definition show_next_week (self : PointsTracker) : option PointsTracker :=
  new_week_start ←
    Calendar.add_days (current_week_start (heatmap_calendar self))
      (Calendar.weeks 1);
  Some (update_points_display
          (with_heatmap (set_week_start new_week_start (heatmap_calendar self))
             self)).

(** [HeatmapCalendar.__init__] takes the Monday of the current week:
    [datetime.now() - timedelta(days=datetime.now().weekday())]. *)
Definition initial_week_start (now : Calendar.datetime)
  : option Calendar.datetime :=
  Calendar.add_days now (- Calendar.weekday now).

(** [set_date(date=None)]: without a date the entry takes today's,
    [datetime.now().strftime("%Y-%m-%d")]. *)
Definition set_date (date : option string) (now : Calendar.datetime)
  (self : PointsTracker) : PointsTracker :=
  let date :=
    match date with
    | None | Some "" => Calendar.strftime_ymd now
    | Some d => d
    end in
  mk_tracker (db self) date (points_entry self) (points_per_day self)
    (heatmap_calendar self).

(** [open_preferences], as far as the goal goes: [Some v] is the dialog
    accepted with [v] in its spin box, [None] the dialog cancelled.  The
    theme and the font are left out. *)
Definition open_preferences (dialog : option Z) (self : PointsTracker)
  : PointsTracker :=
  match dialog with
  | Some v =>
      mk_tracker (db self) (date_entry self) (points_entry self) v
        (heatmap_calendar self)
  | None => self
  end.

(** A press on the heatmap, with the calls that [mousePressEvent] makes
    on its parent carried out: [self.parent.update_points(1, date)],
    [self.parent.update_points(-1, date)] or [self.parent.set_date(date)]. *)
Definition press (event : QMouseEvent) (now : Calendar.datetime)
  (self : PointsTracker) : option (message * PointsTracker) :=
  action ← mousePressEvent (heatmap_calendar self) event;
  match action with
  | PressNothing => Some (NoMessage, self)
  | PressSetDate date => Some (NoMessage, set_date (Some date) now self)
  | PressUpdatePoints operation date =>
      Some (update_points operation (Some date) self)
  end.

(** The buttons [<] and [>] under the heatmap. *)
Inductive week_move : Type := PreviousWeek | NextWeek.

Definition show_week (move : week_move) (self : PointsTracker)
  : option PointsTracker :=
  match move with
  | PreviousWeek => show_previous_week self
  | NextWeek => show_next_week self
  end.

(** The buttons pressed one after the other; the first [OverflowError]
    ends the run. *)
Fixpoint show_weeks (moves : list week_move) (self : PointsTracker)
  : option PointsTracker :=
  match moves with
  | [] => Some self
  | move :: moves' => self' ← show_week move self; show_weeks moves' self'
  end.

(** ** The events of the window

    What the user and the timer do to the window, and the handler that
    Qt runs for each: [init_ui] connects the two buttons to
    [update_points(1)] and [update_points(-1)], the buttons [<] and [>]
    to [show_previous_week] and [show_next_week] and the menu entry to
    [open_preferences]; the heatmap receives the mouse and the timer.  A
    tick of the timer is taken at any time, running or not. *)
Inductive ui_event : Type :=
| EditDate (text : string)
| EditPoints (text : string)
| ClickAdd
| ClickRemove
| ClickWeek (move : week_move)
| MousePress (event : QMouseEvent) (now : Calendar.datetime)
| MouseMove (event : QMouseEvent)
| TimerTick
| Preferences (dialog : option Z).

(** The window after the handler of the event; [None] stands for a
    handler that ends in an [OverflowError]. *)
Definition handle (e : ui_event) (self : PointsTracker)
  : option PointsTracker :=
  match e with
  | EditDate text => Some (type_date text self)
  | EditPoints text => Some (type_points text self)
  | ClickAdd => Some (update_points 1 None self).2
  | ClickRemove => Some (update_points (-1) None self).2
  | ClickWeek move => show_week move self
  | MousePress event now => snd <$> press event now self
  | MouseMove event =>
      h ← mouseMoveEvent (heatmap_calendar self) event;
      Some (with_heatmap h self)
  | TimerTick => Some (with_heatmap (fade_in (heatmap_calendar self)) self)
  | Preferences dialog => Some (open_preferences dialog self)
  end.

(** The events one after the other; the first handler that raises ends
    the run. *)
Fixpoint run (events : list ui_event) (self : PointsTracker)
  : option PointsTracker :=
  match events with
  | [] => Some self
  | e :: events' => self' ← handle e self; run events' self'
  end.

(** * The vocabulary of the properties *)

(** ** The ledger *)

(** The dates of the rows, in table order. *)
Definition dates (t : Db.table) : list string := map Db.row_date t.

(** No row of [t] is for [date]. *)
Definition absent (date : string) (t : Db.table) : Prop :=
  date ∉ dates t.

(** The mapping that [update_points_display] reads from the table: the
    [getAll()] of the specification. *)
Definition getAll (self : PointsTracker) : gmap string Z :=
  dict_of_rows (Db.select_all (db self)).

(** The table after [update_points], spelled out case by case. *)
Definition table_after (operation : Z) (date points : string) (t : Db.table)
  : Db.table :=
  match Db.select_points date t with
  | Some existing =>
      if operation =? 1
      then Db.update_points (existing + PyStr.int points) date t
      else if operation =? -1 then
        if existing - PyStr.int points <=? 0
        then Db.delete date t
        else Db.update_points (existing - PyStr.int points) date t
      else t
  | None =>
      if operation =? 1 then Db.insert date (PyStr.int points) t else t
  end.

(** A tracker as it starts on an empty table: the Monday 2024-01-01 as
    week anchor, a goal of 10 points and the spin box at its initial 0. *)
Definition fresh_tracker : PointsTracker :=
  mk_tracker [] "2024-01-01" "0" 10
    (mk_heatmap 350 40 ∅ 10 (Calendar.mk_datetime 738886 0) (-1) 0).

(** The states the program reaches from an empty table: the user types
    into the entries, presses the buttons or clicks a square
    ([update_points]), and moves between weeks. *)
Inductive reachable : PointsTracker -> Prop :=
| reachable_start st :
    db st = [] -> reachable st
| reachable_type_date text st :
    reachable st -> reachable (type_date text st)
| reachable_type_points text st :
    reachable st -> reachable (type_points text st)
| reachable_update_points operation arg st :
    reachable st -> reachable (update_points operation arg st).2
| reachable_previous_week st st' :
    reachable st -> show_previous_week st = Some st' -> reachable st'
| reachable_next_week st st' :
    reachable st -> show_next_week st = Some st' -> reachable st'.

Definition all_positive (t : Db.table) : Prop :=
  Forall (fun r => 0 < Db.row_points r) t.

(** The states reached when the spin box never holds 0 at the moment
    [update_points] runs. *)
Inductive reachable_positive : PointsTracker -> Prop :=
| positive_start st :
    db st = [] -> reachable_positive st
| positive_type_date text st :
    reachable_positive st -> reachable_positive (type_date text st)
| positive_type_points text st :
    reachable_positive st -> reachable_positive (type_points text st)
| positive_update_points operation arg st :
    reachable_positive st -> 0 < PyStr.int (points_entry st) ->
    reachable_positive (update_points operation arg st).2
| positive_previous_week st st' :
    reachable_positive st -> show_previous_week st = Some st' ->
    reachable_positive st'
| positive_next_week st st' :
    reachable_positive st -> show_next_week st = Some st' ->
    reachable_positive st'.

(** ** The week anchor *)

Definition week_anchor (self : PointsTracker) : Calendar.datetime :=
  current_week_start (heatmap_calendar self).

(** A tracker whose week starts on Monday 9999-12-27, the last Monday of
    the calendar. *)
Definition last_week_tracker : PointsTracker :=
  with_heatmap
    (set_week_start (Calendar.mk_datetime 3652055 0)
       (heatmap_calendar fresh_tracker))
    fresh_tracker.

(** A tracker whose week starts on Monday 0999-12-30, which the button
    [<] reaches from the week of 2024-01-01 after 53430 presses. *)
Definition year_999_tracker : PointsTracker :=
  with_heatmap
    (set_week_start (Calendar.mk_datetime 364876 0)
       (heatmap_calendar fresh_tracker))
    fresh_tracker.


(** ** The square under the pointer *)

(** The pointer is right of the seventh square, in the strip of width
    [spacing] that follows it. *)
Definition in_gap_after_last (self : HeatmapCalendar) (ex : Z) : bool :=
  let row_end := start_x self + square_size self * 7 + spacing * 6 in
  (row_end <=? ex) && (ex <? row_end + spacing).

(** The hit test in the words of the specification: the index
    [floor((x - rowStartX) / (size + spacing))], none when it is outside
    [0,7), when [y] is outside the band, or when [x] is in the gap beyond
    the seventh square. *)
Definition hitTest_spec (self : HeatmapCalendar) (ex ey : Z) : option Z :=
  let size := square_size self in
  let index := (ex - start_x self) / (size + spacing) in
  if negb ((band_y self <=? ey) && (ey <? band_y self + size)) then None
  else if negb ((0 <=? index) && (index <? 7)) then None
  else if in_gap_after_last self ex then None
  else Some index.

(** ** The colour of a square *)

(** The intensity in the words of the specification:
    [clamp(round(points / dailyGoal * 155), 0, 155)] for a positive
    goal, rounding a half up, and 0 for the goal 0.  The quotient is
    exact here: [round(x)] is [floor(x + 1/2)]. *)
Definition intensity_spec (points dailyGoal : Z) : Z :=
  if 0 <? dailyGoal
  then Z.max 0 (Z.min 155 ((2 * 155 * points + dailyGoal) / (2 * dailyGoal)))
  else 0.

(** ** Binary rounding *)

(** Where the quotient [N / D] lies between two integers. *)
Definition loc_of (N D : Z) : location :=
  if N mod D =? 0 then loc_Exact else loc_Inexact (2 * (N mod D) ?= D).

(** The record holds the integer part of [N / D] and the place of its
    fraction relative to one half. *)
Definition represents (mrs : shr_record) (N D : Z) : Prop :=
  shr_m mrs = N / D /\ loc_of_shr_record mrs = loc_of N D.

(** ** Dates and their texts *)

(** The month and day that [_ord2ymd] finds for day [n] of a year,
    counted from 0. *)
Definition month_day (leapyear : bool) (n : Z) : Z * Z :=
  let month := Z.shiftr (n + 50) 5 in
  let preceding :=
    Calendar.table_at Calendar.DAYS_BEFORE_MONTH month
    + (if (2 <? month) && leapyear then 1 else 0) in
  if n <? preceding then
    let month := month - 1 in
    let preceding :=
      preceding
      - (Calendar.table_at Calendar.DAYS_IN_MONTH month
         + (if (month =? 2) && leapyear then 1 else 0)) in
    (month, n - preceding + 1)
  else (month, n - preceding + 1).

(** Day [n] of a year falls on a month and a day of that month. *)
Definition month_day_ok (leapyear : bool) (n : Z) : bool :=
  let '(m, d) := month_day leapyear n in
  (1 <=? m) && (m <=? 12) && (1 <=? d)
  && (d <=? (if (m =? 2) && leapyear then 29
             else Calendar.table_at Calendar.DAYS_IN_MONTH m))
  && (Calendar.table_at Calendar.DAYS_BEFORE_MONTH m
      + (if (2 <? m) && leapyear then 1 else 0) + d =? n + 1).

(** The leap years of a cycle of 400 years, as [_ord2ymd] tells them
    from the position [n100], [n4], [n1] in the cycle. *)
Definition leap_flag (n100 n4 n1 : Z) : bool :=
  (n1 =? 3) && (negb (n4 =? 24) || (n100 =? 3)).

Definition leap_flag_ok (k : Z) : bool :=
  let n100 := k / 100 in
  let n4 := (k mod 100) / 4 in
  let n1 := k mod 4 in
  Bool.eqb (Calendar.is_leap (k + 1)) (leap_flag n100 n4 n1).

(** The matches of the expression of [strptime] after the group of the
    year. *)
Definition tail_matches (r1 : list ascii)
  : list (list ascii * list ascii * list ascii) :=
  r2 ← Strptime.dash r1;
  '(m, r3) ← Strptime.group_m r2;
  r4 ← Strptime.dash r3;
  '(d, r5) ← Strptime.group_d r4;
  [(m, d, r5)].

(** The first day of the year 1000, the first year that [strftime]
    prints with four digits. *)
Definition YEAR_1000 : Z := Eval cbv in Calendar.ymd2ord 1000 1 1.

(** [str(y)] is four digits that [int] reads back as [y]. *)
Definition year_text_ok (y : Z) : bool :=
  match PyStr.chars (PyStr.str y) with
  | [a; b; c; d] =>
      PyStr.is_digit a && PyStr.is_digit b && PyStr.is_digit c && PyStr.is_digit d
      && (PyStr.int (string_of_list_ascii [a; b; c; d]) =? y)
  | _ => false
  end.

(** ["-%02d-%02d" % (m, d)] is matched to its end, by groups that [int]
    reads back as [m] and [d]. *)
Definition month_day_text_ok (m d : Z) : bool :=
  match tail_matches
          (PyStr.chars
             (String.append "-"
                (String.append (PyStr.zfill 2 m)
                   (String.append "-" (PyStr.zfill 2 d))))) with
  | (tm, td, []) :: _ =>
      (PyStr.int (string_of_list_ascii tm) =? m)
      && (PyStr.int (string_of_list_ascii td) =? d)
  | _ => false
  end.

(** [str(y)] has fewer than four characters. *)
Definition short_year_text_ok (y : Z) : bool :=
  Nat.leb (length (PyStr.chars (PyStr.str y))) 3.

(** ["-%02d-%02d" % (m, d)] has six characters. *)
Definition month_day_text_six (m d : Z) : bool :=
  Nat.eqb
    (length
       (PyStr.chars
          (String.append "-"
             (String.append (PyStr.zfill 2 m)
                (String.append "-" (PyStr.zfill 2 d))))))
    6.

(** ** The ledger and its display *)

(** The points that the table holds for [date]: those of its row, and 0
    without a row. *)
Definition stored (date : string) (t : Db.table) : Z :=
  default 0 (Db.select_points date t).

(** No row holds a negative number of points. *)
Definition none_negative (t : Db.table) : Prop :=
  Forall (fun r => 0 <= Db.row_points r) t.

(** The heatmap holds the mapping of the table as it is now. *)
Definition in_step (self : PointsTracker) : Prop :=
  points_data (heatmap_calendar self) = getAll self.

(** The weeks that a run of week buttons moves forward. *)
Fixpoint week_shift (moves : list week_move) : Z :=
  match moves with
  | [] => 0
  | PreviousWeek :: moves' => week_shift moves' - 1
  | NextWeek :: moves' => week_shift moves' + 1
  end.

(** ** The squares *)

(** The pixel [(px, py)] lies in the rectangle: a [QRect] of width [w]
    at [x] covers the columns [x] to [x + w - 1]. *)
Definition rect_contains (r : QRect) (px py : Z) : Prop :=
  rect_x r <= px < rect_x r + rect_width r
  /\ rect_y r <= py < rect_y r + rect_height r.

(** The pointer state that [mouseMoveEvent] and [fade_in] keep: no
    square or one of the seven, and an opacity that [QColor] takes. *)
Definition hover_in_range (self : HeatmapCalendar) : Prop :=
  -1 <= hovered_square self <= 6 /\ 0 <= highlight_opacity self <= 255.

(** * Properties *)

(** ** The model on known values *)

Section ModelChecks.

(** The calendar, on values of [datetime]. *)
Example calendar_checks :
  Calendar.ymd2ord 2024 1 5 = 738890
  /\ Calendar.ord2ymd 738890 = (2024, 1, 5)
  /\ Calendar.ord2ymd (Calendar.ymd2ord 2024 2 29) = (2024, 2, 29)
  /\ Calendar.ord2ymd (Calendar.ymd2ord 2023 12 31) = (2023, 12, 31)
  /\ Calendar.ord2ymd 1 = (1, 1, 1)
  /\ Calendar.ord2ymd Calendar.MAXORDINAL = (9999, 12, 31)
  /\ Calendar.weekday (Calendar.mk_datetime 738890 0) = 4
  /\ Calendar.strftime_ymd (Calendar.mk_datetime 738890 0) = "2024-01-05"
  /\ Calendar.ord2ymd 364876 = (999, 12, 30)
  /\ Calendar.weekday (Calendar.mk_datetime 364876 0) = 0
  /\ Calendar.strftime_ymd (Calendar.mk_datetime 364876 0) = "999-12-30"
  /\ Calendar.strftime_ymd (Calendar.mk_datetime 1 0) = "1-01-01".
Proof. repeat split; reflexivity. Qed.

(** [strptime] with ["%Y-%m-%d"]: what it takes and what it refuses. *)
Example is_valid_date_checks :
  is_valid_date "2024-02-29" = true
  /\ is_valid_date "2024-12-31" = true
  /\ is_valid_date "2024-1-5" = true
  /\ is_valid_date "2024-01- 5" = true
  /\ is_valid_date "2024-02-30" = false
  /\ is_valid_date "2023-02-29" = false
  /\ is_valid_date "2024-13-05" = false
  /\ is_valid_date "2024-12-32" = false
  /\ is_valid_date "0000-01-05" = false
  /\ is_valid_date "2024-01-05x" = false
  /\ is_valid_date "2024-011-05" = false
  /\ is_valid_date " 2024-01-05" = false
  /\ is_valid_date "24-01-05" = false
  /\ is_valid_date "999-12-30" = false
  /\ is_valid_date "0999-12-30" = true
  /\ is_valid_date "" = false.
Proof. repeat split; reflexivity. Qed.

(** Binary64 quotients and products, on values of Python floats. *)
Example float_checks :
  PyFloat.int_truediv 1 3 = Some (S754_finite false 6004799503160661 (-54))
  /\ PyFloat.int_truediv 21 31 = Some (S754_finite false 6101651108050349 (-53))
  /\ PyFloat.mul_int (S754_finite false 6101651108050349 (-53)) 155
     = S754_finite false 7388718138654719 (-46)
  /\ PyFloat.int_truediv 1 10000 = Some (S754_finite false 7378697629483821 (-66))
  /\ PyFloat.mul_int (S754_finite false 7378697629483821 (-66)) 155
     = S754_finite false 8935141660703064 (-59)
  /\ PyFloat.int_truediv 10000 9999 = Some (S754_finite false 4504050032373733 (-52))
  /\ PyFloat.int_truediv 1 0 = None.
Proof. repeat split; vm_compute; reflexivity. Qed.

End ModelChecks.

(** ** Amounts and their texts *)

Section Texts.

Import PyStr.

Lemma code_digit_char d : 0 <= d <= 9 -> code (digit_char d) = 48 + d.
Proof.
  intros H. unfold code, digit_char.
  rewrite N_ascii_embedding by lia. lia.
Qed.

Lemma is_digit_digit_char d : 0 <= d <= 9 -> is_digit (digit_char d) = true.
Proof.
  intros H. unfold is_digit, in_range. rewrite code_digit_char by done.
  change (code "0") with 48. change (code "9") with 57.
  apply andb_true_iff. split; apply Z.leb_le; lia.
Qed.

Lemma digit_value_digit_char d : 0 <= d <= 9 -> digit_value (digit_char d) = d.
Proof. intros H. unfold digit_value. rewrite code_digit_char by done. lia. Qed.

Lemma int_digits_snoc cs c :
  int_digits (cs ++ [c]) = 10 * int_digits cs + digit_value c.
Proof. unfold int_digits. by rewrite fold_left_app. Qed.

Lemma rev_digits_spec fuel n :
  0 <= n < 10 ^ Z.of_nat fuel ->
  int_digits (rev (rev_digits fuel n)) = n
  /\ forallb is_digit (rev_digits fuel n) = true.
Proof.
  revert n. induction fuel as [|fuel IH]; intros n Hn.
  - simpl in *. split; [|done]. unfold int_digits. simpl. lia.
  - rewrite Nat2Z.inj_succ, Z.pow_succ_r in Hn by lia.
    cbn [rev_digits]. destruct (n <? 10) eqn:E.
    + apply Z.ltb_lt in E. cbn [rev app forallb].
      rewrite is_digit_digit_char by lia. split; [|done].
      unfold int_digits. cbn [fold_left]. rewrite digit_value_digit_char; lia.
    + apply Z.ltb_ge in E.
      pose proof (Z.mod_pos_bound n 10 ltac:(lia)) as Hmod.
      destruct (IH (n / 10)) as [IH1 IH2].
      { split; [apply Z.div_pos; lia|]. apply Z.div_lt_upper_bound; lia. }
      cbn [rev forallb]. rewrite int_digits_snoc, IH1, IH2.
      rewrite is_digit_digit_char, digit_value_digit_char by lia.
      split; [|done]. pose proof (Z.div_mod n 10 ltac:(lia)). lia.
Qed.

Lemma rev_digits_not_nil fuel n : rev_digits (S fuel) n <> [].
Proof. cbn [rev_digits]. by destruct (n <? 10). Qed.

(** Every amount has a text: [str(p)] consists of digits, and [int]
    reads [p] back from it. *)
Lemma int_str p : 0 <= p -> isdigit (str p) = true /\ int (str p) = p.
Proof.
  intros Hp. unfold str.
  set (fuel := S (Z.to_nat (Z.log2 p))).
  assert (Hfuel : 0 <= p < 10 ^ Z.of_nat fuel).
  { split; [done|]. unfold fuel. rewrite Nat2Z.inj_succ, Z2Nat.id by apply Z.log2_nonneg.
    destruct (Z.eq_dec p 0) as [->|Hne]; [done|].
    pose proof (Z.log2_spec p ltac:(lia)) as [_ Hlt].
    assert (2 ^ Z.succ (Z.log2 p) <= 10 ^ Z.succ (Z.log2 p)).
    { apply Z.pow_le_mono_l. lia. }
    lia. }
  destruct (rev_digits_spec fuel p Hfuel) as [Hint Hdig].
  set (l := rev_digits fuel p) in *.
  assert (Hne : rev l <> []).
  { intros H. apply (f_equal (@rev ascii)) in H. rewrite rev_involutive in H.
    by apply (rev_digits_not_nil (Z.to_nat (Z.log2 p)) p). }
  assert (Hall : forallb is_digit (rev l) = true).
  { rewrite forallb_forall in *. intros c Hc. apply Hdig. by apply in_rev. }
  unfold isdigit, int, chars. rewrite list_ascii_of_string_of_list_ascii.
  destruct (rev l) as [|c cs] eqn:Er; [done|].
  split; [done|].
  destruct (Ascii.eqb c " ") eqn:Ec.
  - apply Ascii.eqb_eq in Ec. subst c. simpl in Hall. discriminate.
  - destruct c as [[] [] [] [] [] [] [] []]; try done.
Qed.

End Texts.

(** ** The table *)

Section TableFacts.

Implicit Types (t : Db.table) (r : Db.row) (date : string).

Lemma has_date_true date r : Db.has_date date r = true <-> Db.row_date r = date.
Proof. unfold Db.has_date. apply String.eqb_eq. Qed.

Lemma has_date_false date r : Db.has_date date r = false <-> Db.row_date r <> date.
Proof. unfold Db.has_date. apply String.eqb_neq. Qed.

Lemma select_points_None date t : Db.select_points date t = None <-> absent date t.
Proof.
  unfold Db.select_points, absent, dates.
  induction t as [|r t IH]; simpl.
  - split; [intros _; apply not_elem_of_nil | done].
  - destruct (Db.has_date date r) eqn:E; simpl.
    + apply has_date_true in E. split; [done|].
      intros H. exfalso. apply H. rewrite E. apply list_elem_of_here.
    + apply has_date_false in E. rewrite IH. rewrite not_elem_of_cons.
      split; [intros H; split; [congruence | done] | intros [_ H]; done].
Qed.

Lemma select_points_Some date t v :
  Db.select_points date t = Some v ->
  exists r, r ∈ t /\ Db.row_date r = date /\ Db.row_points r = v.
Proof.
  unfold Db.select_points. intros H.
  destruct (List.find (Db.has_date date) t) as [r|] eqn:E; [|done].
  simpl in H. injection H as <-.
  apply find_some in E as [Hin Hd].
  exists r. split; [by apply list_elem_of_In|].
  split; [by apply has_date_true | done].
Qed.

Lemma dates_update v date t : dates (Db.update_points v date t) = dates t.
Proof.
  unfold dates, Db.update_points. rewrite map_map.
  apply map_ext. intros r. by destruct (Db.has_date date r).
Qed.

Lemma update_absent v date t : absent date t -> Db.update_points v date t = t.
Proof.
  unfold absent, dates, Db.update_points.
  induction t as [|r t IH]; simpl; [done|].
  rewrite not_elem_of_cons. intros [Hne Hnot].
  destruct (Db.has_date date r) eqn:E.
  - apply has_date_true in E. congruence.
  - by rewrite IH.
Qed.

Lemma delete_absent date t : absent date t -> Db.delete date t = t.
Proof.
  unfold absent, dates, Db.delete.
  induction t as [|r t IH]; simpl; [done|].
  rewrite not_elem_of_cons. intros [Hne Hnot].
  destruct (Db.has_date date r) eqn:E; simpl.
  - apply has_date_true in E. congruence.
  - by rewrite IH.
Qed.

Lemma update_app v date t1 t2 :
  Db.update_points v date (t1 ++ t2)
  = Db.update_points v date t1 ++ Db.update_points v date t2.
Proof. unfold Db.update_points. apply map_app. Qed.

Lemma delete_app date t1 t2 :
  Db.delete date (t1 ++ t2) = Db.delete date t1 ++ Db.delete date t2.
Proof. unfold Db.delete. apply List.filter_app. Qed.

Lemma delete_is_absent date t : absent date (Db.delete date t).
Proof.
  unfold absent, dates, Db.delete. intros H.
  apply list_elem_of_In, in_map_iff in H as (r & Hd & Hin).
  apply filter_In in Hin as [_ Hf].
  apply negb_true_iff, has_date_false in Hf. congruence.
Qed.

Lemma dates_delete_sub date t d : d ∈ dates (Db.delete date t) -> d ∈ dates t.
Proof.
  unfold dates, Db.delete. intros H.
  apply list_elem_of_In, in_map_iff in H as (r & Hd & Hin).
  apply filter_In in Hin as [Hin _].
  apply list_elem_of_In, in_map_iff. by exists r.
Qed.

Lemma NoDup_dates_delete date t : NoDup (dates t) -> NoDup (dates (Db.delete date t)).
Proof.
  unfold dates, Db.delete.
  induction t as [|r t IH]; simpl; [done|].
  rewrite NoDup_cons. intros [Hnot Hnd].
  destruct (Db.has_date date r); simpl; [by apply IH|].
  apply NoDup_cons. split; [|by apply IH].
  intros H. apply Hnot. by apply (dates_delete_sub date).
Qed.

Lemma dates_insert date v t : dates (Db.insert date v t) = dates t ++ [date].
Proof. unfold dates, Db.insert. by rewrite map_app. Qed.

Lemma NoDup_dates_insert date v t :
  absent date t -> NoDup (dates t) -> NoDup (dates (Db.insert date v t)).
Proof.
  intros Ha Hnd. rewrite dates_insert. apply NoDup_app.
  split; [done|]. split; [|apply NoDup_singleton].
  intros x Hx Hx'. apply list_elem_of_singleton in Hx'. by subst.
Qed.

End TableFacts.

(** ** The ledger: [update_points] and [update_points_display] *)

Section LedgerFacts.

Implicit Types (self st : PointsTracker) (d date s : string) (t : Db.table).

Lemma dict_of_rows_snoc rows k v :
  dict_of_rows (rows ++ [(k, v)]) = <[k := v]> (dict_of_rows rows).
Proof. unfold dict_of_rows. by rewrite fold_left_app. Qed.

Lemma select_all_insert date v t :
  Db.select_all (Db.insert date v t) = Db.select_all t ++ [(date, v)].
Proof. unfold Db.select_all, Db.insert. by rewrite map_app. Qed.

Lemma dict_of_rows_absent rows k :
  k ∉ map fst rows -> dict_of_rows rows !! k = None.
Proof.
  induction rows as [|[k' v] rows IH] using rev_ind; intros H.
  - apply lookup_empty.
  - rewrite dict_of_rows_snoc. rewrite map_app in H. simpl in H.
    apply not_elem_of_app in H as [H1 H2].
    apply not_elem_of_cons in H2 as [H2 _].
    rewrite lookup_insert_ne; [by apply IH | congruence].
Qed.

Lemma map_fst_select_all t : map fst (Db.select_all t) = dates t.
Proof. unfold Db.select_all, dates. rewrite map_map. by apply map_ext. Qed.

Lemma getAll_absent st d : absent d (db st) -> getAll st !! d = None.
Proof.
  intros H. unfold getAll. apply dict_of_rows_absent.
  by rewrite map_fst_select_all.
Qed.

Lemma valid_date_not_empty d : is_valid_date d = true -> d <> "".
Proof. intros H ->. discriminate H. Qed.

Lemma effective_date_Some d st : d <> "" -> effective_date (Some d) st = d.
Proof. intros H. by destruct d. Qed.

Lemma effective_date_idem arg st :
  effective_date (Some (effective_date arg st)) st = effective_date arg st.
Proof.
  destruct arg as [[|c d]|]; simpl; try done; by destruct (date_entry st).
Qed.

(** [update_points] looks at its [date] argument through
    [effective_date] only. *)
Lemma update_points_effective op arg st :
  update_points op arg st
  = update_points op (Some (effective_date arg st)) st.
Proof. unfold update_points. by rewrite effective_date_idem. Qed.

Lemma db_update_points_display st : db (update_points_display st) = db st.
Proof. done. Qed.

Lemma points_data_update_points_display st :
  points_data (heatmap_calendar (update_points_display st)) = getAll st.
Proof. done. Qed.

Lemma getAll_update_points_display st :
  getAll (update_points_display st) = getAll st.
Proof. done. Qed.

Lemma db_update_points op arg st :
  db (update_points op arg st).2
  = if is_valid_date (effective_date arg st)
       && PyStr.isdigit (points_entry st)
    then table_after op (effective_date arg st) (points_entry st) (db st)
    else db st.
Proof.
  unfold update_points, table_after.
  destruct (is_valid_date _); simpl; [|done].
  destruct (PyStr.isdigit _); simpl; [|done].
  destruct (Db.select_points _ _); simpl.
  - destruct (op =? 1); [done|]. destruct (op =? -1); [|done].
    by destruct (_ <=? 0).
  - by destruct (op =? 1).
Qed.

(** After a call that passed both checks the heatmap holds what the
    table holds. *)
Lemma points_data_update_points op arg st :
  is_valid_date (effective_date arg st) = true ->
  PyStr.isdigit (points_entry st) = true ->
  points_data (heatmap_calendar (update_points op arg st).2)
  = getAll (update_points op arg st).2.
Proof.
  intros Hd Hs. unfold update_points. rewrite Hd, Hs. simpl.
  by destruct (match Db.select_points _ _ with Some _ => _ | None => _ end).
Qed.

End LedgerFacts.

Section LedgerClaims.

Implicit Types (st : PointsTracker) (d s : string) (t : Db.table).
Implicit Types (arg : option string).

Lemma select_points_app_absent d t t' :
  absent d t -> Db.select_points d (t ++ t') = Db.select_points d t'.
Proof.
  unfold absent, dates, Db.select_points.
  induction t as [|r t IH]; simpl; [done|].
  rewrite not_elem_of_cons. intros [Hne Hnot].
  destruct (Db.has_date d r) eqn:E.
  - apply has_date_true in E. congruence.
  - by apply IH.
Qed.

Lemma has_date_refl d i v : Db.has_date d (Db.mk_row i d v) = true.
Proof. by apply has_date_true. Qed.

Lemma select_points_insert d v t :
  absent d t -> Db.select_points d (Db.insert d v t) = Some v.
Proof.
  intros H. unfold Db.insert. rewrite select_points_app_absent by done.
  unfold Db.select_points. simpl. by rewrite has_date_refl.
Qed.

Lemma table_after_add_absent d s t :
  Db.select_points d t = None ->
  table_after 1 d s t = Db.insert d (PyStr.int s) t.
Proof. intros H. unfold table_after. by rewrite H. Qed.

Lemma table_after_remove_absent d s t :
  Db.select_points d t = None -> table_after (-1) d s t = t.
Proof. intros H. unfold table_after. by rewrite H. Qed.

Lemma update_insert v w d t :
  absent d t -> Db.update_points v d (Db.insert d w t) = Db.insert d v t.
Proof.
  intros H. unfold Db.insert. rewrite update_app, update_absent by done.
  unfold Db.update_points. simpl. by rewrite has_date_refl.
Qed.

Lemma delete_insert d w t : absent d t -> Db.delete d (Db.insert d w t) = t.
Proof.
  intros H. unfold Db.insert. rewrite delete_app, delete_absent by done.
  unfold Db.delete. simpl. rewrite has_date_refl. simpl. apply app_nil_r.
Qed.

Lemma getAll_insert st d v t :
  db st = Db.insert d v t -> getAll st !! d = Some v.
Proof.
  intros H. unfold getAll. rewrite H, select_all_insert, dict_of_rows_snoc.
  apply lookup_insert_eq.
Qed.

Lemma date_entry_update_points op arg st :
  date_entry (update_points op arg st).2 = date_entry st.
Proof.
  unfold update_points.
  destruct (is_valid_date _); simpl; [|done].
  destruct (PyStr.isdigit _); simpl; [|done].
  by destruct (match Db.select_points _ _ with Some _ => _ | None => _ end).
Qed.

Lemma effective_date_ext arg st st' :
  date_entry st' = date_entry st ->
  effective_date arg st' = effective_date arg st.
Proof. intros H. unfold effective_date. by rewrite H. Qed.

(** The table after [update_points], for a date and points that pass the
    checks. *)
Lemma db_update_points_typed op arg d s st :
  effective_date arg st = d ->
  is_valid_date d = true -> PyStr.isdigit s = true ->
  db (update_points op arg (type_points s st)).2 = table_after op d s (db st).
Proof.
  intros He Hd Hs. rewrite db_update_points.
  rewrite (effective_date_ext arg st (type_points s st)) by done.
  rewrite He. simpl. by rewrite Hd, Hs.
Qed.

(** C5: for a valid date [d] that has no row yet and a points text [s]
    that denotes a positive integer [p], adding reports the points as
    added, and the mapping read back from the table ([getAll], which is
    also what the heatmap then holds) contains [d -> p]. *)
Theorem add_then_getAll st arg d s p :
  effective_date arg st = d ->
  is_valid_date d = true ->
  PyStr.isdigit s = true -> PyStr.int s = p -> 0 < p ->
  Db.select_points d (db st) = None ->
  let r := update_points 1 arg (type_points s st) in
  r.1 = InfoAdded s
  /\ getAll r.2 !! d = Some p
  /\ points_data (heatmap_calendar r.2) !! d = Some p.
Proof.
  intros He Hd Hs Hp Hpos Hnone r.
  assert (Hdb : db r.2 = Db.insert d p (db st)).
  { unfold r. rewrite (db_update_points_typed 1 arg d s st) by done.
    rewrite table_after_add_absent by done. by rewrite Hp. }
  assert (He' : effective_date arg (type_points s st) = d) by done.
  split; [|split].
  - unfold r, update_points. rewrite He'. simpl. rewrite Hd, Hs. simpl.
    by rewrite Hnone.
  - by apply (getAll_insert _ _ _ (db st)).
  - unfold r. rewrite points_data_update_points by (by rewrite ?He').
    by apply (getAll_insert _ _ _ (db st)).
Qed.

Lemma add_then_getAll_witness :
  let r := update_points 1 None (type_points "5" fresh_tracker) in
  r.1 = InfoAdded "5"
  /\ getAll r.2 !! "2024-01-01" = Some 5
  /\ points_data (heatmap_calendar r.2) !! "2024-01-01" = Some 5.
Proof.
  apply (add_then_getAll fresh_tracker None "2024-01-01" "5" 5);
    first [reflexivity | lia].
Defined.

(** C6: for a valid date [d] that has no row and a points text [s] of
    digits, removing opens the warning that no points are recorded for
    the date and leaves the table as it was. *)
Theorem remove_without_record st arg d s :
  effective_date arg st = d ->
  is_valid_date d = true ->
  PyStr.isdigit s = true ->
  Db.select_points d (db st) = None ->
  let r := update_points (-1) arg (type_points s st) in
  r.1 = WarningNoPoints /\ db r.2 = db st.
Proof.
  intros He Hd Hs Hnone r. split.
  - unfold r, update_points.
    rewrite (effective_date_ext arg st (type_points s st)) by done.
    rewrite He. simpl. rewrite Hd, Hs. simpl. by rewrite Hnone.
  - unfold r. rewrite (db_update_points_typed (-1) arg d s st) by done.
    by apply table_after_remove_absent.
Qed.

Lemma remove_without_record_witness :
  let r := update_points (-1) None (type_points "3" fresh_tracker) in
  r.1 = WarningNoPoints /\ db r.2 = db fresh_tracker.
Proof.
  apply (remove_without_record fresh_tracker None "2024-01-01" "3");
    reflexivity.
Defined.

(** C7: when the date that [update_points] examines fails
    [is_valid_date], the call opens the error box for an invalid date
    and returns the tracker, table included, exactly as it was. *)
Theorem invalid_date_rejected st operation arg :
  is_valid_date (effective_date arg st) = false ->
  update_points operation arg st = (ErrorInvalidDate, st).
Proof. intros H. unfold update_points. by rewrite H. Qed.

Lemma invalid_date_rejected_witness :
  is_valid_date "2024-02-30" = false
  /\ update_points 1 None (type_points "1" (type_date "2024-02-30" fresh_tracker))
     = (ErrorInvalidDate, type_points "1" (type_date "2024-02-30" fresh_tracker)).
Proof.
  split; [reflexivity|].
  apply (invalid_date_rejected
           (type_points "1" (type_date "2024-02-30" fresh_tracker)) 1 None).
  reflexivity.
Defined.

End LedgerClaims.

Section LedgerRoundTrip.

Implicit Types (st : PointsTracker) (d s : string) (t : Db.table).
Implicit Types (arg : option string).

(** [update_points] on a date and points that pass both checks. *)
Lemma update_points_checked op arg st d :
  effective_date arg st = d ->
  is_valid_date d = true ->
  PyStr.isdigit (points_entry st) = true ->
  update_points op arg st
  = let '(box, t) :=
      match Db.select_points d (db st) with
      | Some existing =>
          if op =? 1 then
            (InfoUpdated d (existing + PyStr.int (points_entry st)),
             Db.update_points (existing + PyStr.int (points_entry st)) d (db st))
          else if op =? -1 then
            if existing - PyStr.int (points_entry st) <=? 0
            then (InfoDeleted d, Db.delete d (db st))
            else (InfoUpdated d (existing - PyStr.int (points_entry st)),
                  Db.update_points (existing - PyStr.int (points_entry st)) d
                    (db st))
          else (NoMessage, db st)
      | None =>
          if op =? 1
          then (InfoAdded (points_entry st),
                Db.insert d (PyStr.int (points_entry st)) (db st))
          else (WarningNoPoints, db st)
      end in
    (box, update_points_display (with_db t st)).
Proof. intros He Hd Hs. unfold update_points. by rewrite He, Hd, Hs. Qed.

(** C1: from a table without a row for the valid date [d], adding [p1]
    and then removing [p2], with [0 < p2 <= p1], leaves one row for [d]
    with [p1 - p2] points when [p2 < p1], and when [p1 = p2] deletes the
    row, which gives back the table the two calls started from. *)
Theorem add_then_remove st arg1 arg2 d s1 s2 p1 p2 :
  effective_date arg1 st = d -> effective_date arg2 st = d ->
  is_valid_date d = true ->
  PyStr.isdigit s1 = true -> PyStr.int s1 = p1 ->
  PyStr.isdigit s2 = true -> PyStr.int s2 = p2 ->
  0 < p2 <= p1 ->
  Db.select_points d (db st) = None ->
  let st1 := (update_points 1 arg1 (type_points s1 st)).2 in
  let r := update_points (-1) arg2 (type_points s2 st1) in
  (p2 < p1 ->
     r.1 = InfoUpdated d (p1 - p2)
     /\ db r.2 = Db.insert d (p1 - p2) (db st)
     /\ Db.select_points d (db r.2) = Some (p1 - p2)
     /\ getAll r.2 !! d = Some (p1 - p2))
  /\ (p1 = p2 ->
     r.1 = InfoDeleted d
     /\ db r.2 = db st
     /\ Db.select_points d (db r.2) = None
     /\ getAll r.2 !! d = None).
Proof.
  intros He1 He2 Hd Hs1 Hp1 Hs2 Hp2 Hle Hnone st1 r.
  assert (Habs : absent d (db st)) by (by apply select_points_None).
  assert (Hdb1 : db st1 = Db.insert d p1 (db st)).
  { unfold st1. rewrite (db_update_points_typed 1 arg1 d s1 st) by done.
    rewrite table_after_add_absent by done. by rewrite Hp1. }
  assert (He2' : effective_date arg2 (type_points s2 st1) = d).
  { rewrite <- He2. apply effective_date_ext. simpl. unfold st1.
    by rewrite date_entry_update_points. }
  assert (Hsel : Db.select_points d (db (type_points s2 st1)) = Some p1).
  { simpl. rewrite Hdb1. by apply select_points_insert. }
  assert (Hr : r = update_points (-1) arg2 (type_points s2 st1)) by done.
  rewrite (update_points_checked _ _ _ d) in Hr by done.
  rewrite Hsel in Hr. simpl in Hr. rewrite Hp2 in Hr.
  split.
  - intros Hlt.
    destruct (p1 - p2 <=? 0) eqn:E; [lia|].
    rewrite Hdb1, update_insert in Hr by done.
    rewrite Hr. simpl.
    split; [done|]. split; [done|].
    split; [by apply select_points_insert|].
    by apply (getAll_insert _ _ _ (db st)).
  - intros Heq.
    destruct (p1 - p2 <=? 0) eqn:E; [|lia].
    rewrite Hdb1, delete_insert in Hr by done.
    rewrite Hr. simpl.
    split; [done|]. split; [done|]. split; [done|].
    by apply getAll_absent.
Qed.

Lemma add_then_remove_witness :
  let st1 := (update_points 1 None (type_points "5" fresh_tracker)).2 in
  let r := update_points (-1) None (type_points "2" st1) in
  (2 < 5 ->
     r.1 = InfoUpdated "2024-01-01" (5 - 2)
     /\ db r.2 = Db.insert "2024-01-01" (5 - 2) (db fresh_tracker)
     /\ Db.select_points "2024-01-01" (db r.2) = Some (5 - 2)
     /\ getAll r.2 !! "2024-01-01" = Some (5 - 2))
  /\ (5 = 2 ->
     r.1 = InfoDeleted "2024-01-01"
     /\ db r.2 = db fresh_tracker
     /\ Db.select_points "2024-01-01" (db r.2) = None
     /\ getAll r.2 !! "2024-01-01" = None).
Proof.
  apply (add_then_remove fresh_tracker None None "2024-01-01" "5" "2" 5 2);
    first [reflexivity | lia].
Defined.

End LedgerRoundTrip.

Section LedgerInvariants.

Implicit Types (st : PointsTracker) (d s : string) (t : Db.table).
Implicit Types (arg : option string).

Lemma table_after_NoDup op d s t :
  NoDup (dates t) -> NoDup (dates (table_after op d s t)).
Proof.
  intros Hnd. unfold table_after.
  destruct (Db.select_points d t) as [existing|] eqn:E.
  - destruct (op =? 1); [by rewrite dates_update|].
    destruct (op =? -1); [|done].
    destruct (_ <=? 0); [by apply NoDup_dates_delete | by rewrite dates_update].
  - destruct (op =? 1); [|done].
    apply NoDup_dates_insert; [by apply select_points_None | done].
Qed.

Lemma db_show_previous_week st st' : show_previous_week st = Some st' -> db st' = db st.
Proof.
  unfold show_previous_week. intros H.
  destruct (Calendar.add_days _ _); simpl in H; [|done].
  by injection H as <-.
Qed.

Lemma db_show_next_week st st' : show_next_week st = Some st' -> db st' = db st.
Proof.
  unfold show_next_week. intros H.
  destruct (Calendar.add_days _ _); simpl in H; [|done].
  by injection H as <-.
Qed.

(** C9: in every state reached from an empty table, no two rows carry
    the same date, although the schema does not ask for it: [INSERT]
    runs only after [SELECT] found no row for the date. *)
Theorem dates_unique st : reachable st -> NoDup (dates (db st)).
Proof.
  induction 1 as [st H| | |op arg st _ IH|st st' _ IH H|st st' _ IH H];
    try done.
  - rewrite H. apply NoDup_nil_2.
  - rewrite db_update_points. destruct (_ && _); [|done].
    by apply table_after_NoDup.
  - by rewrite (db_show_previous_week _ _ H).
  - by rewrite (db_show_next_week _ _ H).
Qed.

Lemma dates_unique_witness :
  NoDup (dates (db (update_points 1 None
                      (type_points "4"
                         (update_points 1 None
                            (type_points "3" fresh_tracker)).2)).2)).
Proof.
  apply dates_unique.
  apply reachable_update_points, reachable_type_points.
  apply reachable_update_points, reachable_type_points.
  apply reachable_start. reflexivity.
Defined.

(** While every amount that is added or removed is positive, the rows
    keep positive points. *)
Lemma table_after_positive op d s t :
  0 < PyStr.int s -> all_positive t -> all_positive (table_after op d s t).
Proof.
  intros Hs Hall. unfold table_after, all_positive in *.
  assert (Hupd : forall v, 0 < v -> Forall (fun r => 0 < Db.row_points r)
                                      (Db.update_points v d t)).
  { intros v Hv. unfold Db.update_points. apply Forall_map.
    eapply Forall_impl; [exact Hall|]. intros r Hr. simpl.
    by destruct (Db.has_date d r). }
  destruct (Db.select_points d t) as [existing|] eqn:E.
  - apply select_points_Some in E as (r & Hin & _ & Hr).
    assert (0 < existing).
    { rewrite <- Hr. rewrite Forall_forall in Hall. by apply Hall. }
    destruct (op =? 1); [apply Hupd; lia|].
    destruct (op =? -1); [|done].
    destruct (_ <=? 0) eqn:E'; [|apply Hupd; lia].
    unfold Db.delete. rewrite Forall_forall in *. intros x Hx.
    apply list_elem_of_In, filter_In in Hx as [Hx _].
    by apply Hall, list_elem_of_In.
  - destruct (op =? 1); [|done].
    unfold Db.insert. apply Forall_app. split; [done|].
    apply Forall_singleton. simpl. lia.
Qed.

Lemma update_points_positive op arg st :
  0 < PyStr.int (points_entry st) ->
  all_positive (db st) -> all_positive (db (update_points op arg st).2).
Proof.
  intros Hs Hall. rewrite db_update_points.
  destruct (_ && _); [|done]. by apply table_after_positive.
Qed.

(** What does hold of C3: as long as no amount is 0, every row has
    positive points. *)
Lemma positive_amounts_positive_rows st :
  reachable_positive st -> all_positive (db st).
Proof.
  induction 1 as [st H| | |op arg st _ IH Hp|st st' _ IH H|st st' _ IH H];
    try done.
  - rewrite H. apply Forall_nil_2.
  - by apply update_points_positive.
  - by rewrite (db_show_previous_week _ _ H).
  - by rewrite (db_show_next_week _ _ H).
Qed.

(** C3 fails on the program as it starts: the spin box holds 0, and
    pressing [Add Points] for a date without a row stores a row with 0
    points. *)
Theorem add_zero_stores_zero :
  let r := update_points 1 None fresh_tracker in
  reachable r.2
  /\ r.1 = InfoAdded "0"
  /\ db r.2 = [Db.mk_row 1 "2024-01-01" 0]
  /\ ~ all_positive (db r.2).
Proof.
  intros r.
  assert (Hdb : db r.2 = [Db.mk_row 1 "2024-01-01" 0]) by reflexivity.
  split; [|split; [|split]]; try reflexivity.
  - apply reachable_update_points, reachable_start. reflexivity.
  - rewrite Hdb. intros H. apply Forall_cons in H as [H _]. simpl in H. lia.
Qed.

End LedgerInvariants.

(** ** The week anchor *)

Section WeekFacts.

Implicit Types (st : PointsTracker) (dt : Calendar.datetime).

Lemma add_days_in_range dt n :
  0 < Calendar.toordinal dt + n <= Calendar.MAXORDINAL ->
  Calendar.add_days dt n
  = Some (Calendar.mk_datetime (Calendar.toordinal dt + n)
            (Calendar.time_of_day dt)).
Proof.
  intros [H1 H2]. unfold Calendar.add_days.
  destruct (0 <? _) eqn:E1; [|lia].
  destruct (_ <=? Calendar.MAXORDINAL) eqn:E2; [done|lia].
Qed.

Lemma add_days_out_of_range dt n :
  Calendar.MAXORDINAL < Calendar.toordinal dt + n ->
  Calendar.add_days dt n = None.
Proof.
  intros H. unfold Calendar.add_days.
  destruct (_ <=? Calendar.MAXORDINAL) eqn:E2; [lia|].
  by rewrite andb_false_r.
Qed.

(** Moving by whole weeks keeps the weekday of the anchor. *)
Lemma weekday_add_weeks dt w dt' :
  Calendar.add_days dt (Calendar.weeks w) = Some dt' ->
  Calendar.weekday dt' = Calendar.weekday dt.
Proof.
  unfold Calendar.add_days. destruct (_ && _); [|done].
  intros [= <-]. unfold Calendar.weekday, Calendar.weeks. simpl.
  replace (Calendar.toordinal dt + 7 * w + 6)
    with (Calendar.toordinal dt + 6 + w * 7) by lia.
  apply Z_mod_plus_full.
Qed.

(** The anchor the widget starts with is a Monday. *)
Lemma initial_week_start_monday now a :
  initial_week_start now = Some a -> Calendar.weekday a = 0.
Proof.
  unfold initial_week_start, Calendar.add_days.
  destruct (_ && _); [|done]. intros [= <-].
  unfold Calendar.weekday. simpl.
  pose proof (Z.div_mod (Calendar.toordinal now + 6) 7 ltac:(lia)) as H.
  replace (Calendar.toordinal now + - ((Calendar.toordinal now + 6) mod 7) + 6)
    with (0 + (Calendar.toordinal now + 6) / 7 * 7) by lia.
  by rewrite Z_mod_plus_full.
Qed.

Lemma week_anchor_update_points_display st :
  week_anchor (update_points_display st) = week_anchor st.
Proof. done. Qed.

(** C8, as the program has it: from a week anchor that lies at least
    seven days before 9999-12-31, the last day of the calendar,
    [show_next_week] and then [show_previous_week] both succeed and give
    back the anchor, time of day included; nothing but the refreshed
    display differs from the first state.  From a later anchor
    [show_next_week] raises [OverflowError]. *)
Theorem next_then_previous_week st :
  1 <= Calendar.toordinal (week_anchor st) ->
  (Calendar.toordinal (week_anchor st) + 7 <= Calendar.MAXORDINAL ->
   exists st1 st2,
     show_next_week st = Some st1
     /\ show_previous_week st1 = Some st2
     /\ week_anchor st2 = week_anchor st
     /\ st2 = update_points_display st)
  /\ (Calendar.MAXORDINAL < Calendar.toordinal (week_anchor st) + 7 ->
      show_next_week st = None).
Proof.
  intros Hlo. split.
  - intros Hhi. unfold show_next_week, show_previous_week.
    fold (week_anchor st).
    rewrite add_days_in_range by (unfold Calendar.weeks; lia).
    eexists. eexists. split; [reflexivity|]. simpl.
    unfold Calendar.add_days. simpl.
    destruct (0 <? _) eqn:E1; [|unfold Calendar.weeks in *; lia].
    destruct (_ <=? Calendar.MAXORDINAL) eqn:E2;
      [|unfold Calendar.weeks in *; lia].
    simpl.
    replace (Calendar.toordinal (week_anchor st) + Calendar.weeks 1
             + - Calendar.weeks 1)
      with (Calendar.toordinal (week_anchor st)) by lia.
    split; [reflexivity|].
    unfold week_anchor. destruct st as [t de pe ppd [w h pd tg [o tod] hs ho]].
    split; reflexivity.
  - intros Hhi. unfold show_next_week. fold (week_anchor st).
    rewrite add_days_out_of_range by (unfold Calendar.weeks; lia).
    reflexivity.
Qed.

Lemma next_then_previous_week_witness :
  (exists st1 st2,
     show_next_week fresh_tracker = Some st1
     /\ show_previous_week st1 = Some st2
     /\ week_anchor st2 = week_anchor fresh_tracker
     /\ st2 = update_points_display fresh_tracker)
  /\ show_next_week
       (with_heatmap
          (set_week_start (Calendar.mk_datetime 3652053 0)
             (heatmap_calendar fresh_tracker))
          fresh_tracker)
     = None.
Proof.
  split.
  - apply (next_then_previous_week fresh_tracker); vm_compute; discriminate.
  - apply next_then_previous_week; vm_compute; first [discriminate | reflexivity].
Defined.

(** The other way round: from an anchor that lies at least seven days
    after 0001-01-01, [show_previous_week] and then [show_next_week] give
    back the anchor. *)
Lemma previous_then_next_week st :
  8 <= Calendar.toordinal (week_anchor st) <= Calendar.MAXORDINAL ->
  exists st1 st2,
    show_previous_week st = Some st1
    /\ show_next_week st1 = Some st2
    /\ week_anchor st2 = week_anchor st
    /\ st2 = update_points_display st.
Proof.
  intros [Hlo Hhi]. unfold show_next_week, show_previous_week.
  fold (week_anchor st).
  rewrite add_days_in_range by (unfold Calendar.weeks; lia).
  eexists. eexists. split; [reflexivity|]. simpl.
  unfold Calendar.add_days. simpl.
  destruct (0 <? _) eqn:E1; [|unfold Calendar.weeks in *; lia].
  destruct (_ <=? Calendar.MAXORDINAL) eqn:E2;
    [|unfold Calendar.weeks in *; lia].
  simpl.
  replace (Calendar.toordinal (week_anchor st) + - Calendar.weeks 1
           + Calendar.weeks 1)
    with (Calendar.toordinal (week_anchor st)) by lia.
  split; [reflexivity|].
  unfold week_anchor. destruct st as [t de pe ppd [w h pd tg [o tod] hs ho]].
  split; reflexivity.
Qed.

(** C8 as stated fails at the end of the calendar: from the last Monday,
    9999-12-27, the next week starts after 9999-12-31 and
    [show_next_week] raises [OverflowError], so no round trip takes
    place. *)
Lemma next_week_fails_in_last_week :
  Calendar.valid_datetime (week_anchor last_week_tracker)
  /\ Calendar.weekday (week_anchor last_week_tracker) = 0
  /\ Calendar.strftime_ymd (week_anchor last_week_tracker) = "9999-12-27"
  /\ show_next_week last_week_tracker = None
  /\ ~ (exists st1 st2,
          show_next_week last_week_tracker = Some st1
          /\ show_previous_week st1 = Some st2
          /\ week_anchor st2 = week_anchor last_week_tracker).
Proof.
  split; [vm_compute; repeat split; discriminate|].
  split; [reflexivity|]. split; [reflexivity|]. split; [reflexivity|].
  intros (st1 & st2 & H & _). discriminate H.
Qed.

End WeekFacts.

(** ** The keys of the heatmap *)

Section KeyFacts.

Lemma append_cons c s1 s2 :
  String.append (String c s1) s2 = String c (String.append s1 s2).
Proof. reflexivity. Qed.

Lemma length_append s1 s2 :
  String.length (String.append s1 s2)
  = (String.length s1 + String.length s2)%nat.
Proof.
  induction s1 as [|c s1 IH]; [reflexivity|].
  rewrite append_cons. simpl. by rewrite IH.
Qed.

Lemma length_string_of_list_ascii (l : list ascii) :
  String.length (string_of_list_ascii l) = length l.
Proof. induction l as [|c l IH]; simpl; [done | by rewrite IH]. Qed.

(** A number printed with ["%0<w>d"] takes at least [w] characters. *)
Lemma length_zfill w n : (w <= String.length (PyStr.zfill w n))%nat.
Proof.
  unfold PyStr.zfill. rewrite length_append, length_string_of_list_ascii.
  rewrite repeat_length. lia.
Qed.

(** A date printed by [strftime("%Y-%m-%d")] is a year, a month of at
    least two characters and a day of at least two characters, with a
    [-] before the month and before the day. *)
Lemma strftime_ymd_shape dt :
  exists Y M D,
    Calendar.strftime_ymd dt
    = String.append Y (String "-" (String.append M (String "-" D)))
    /\ (2 <= String.length M)%nat /\ (2 <= String.length D)%nat.
Proof.
  unfold Calendar.strftime_ymd.
  destruct (Calendar.ord2ymd _) as [[y m] d].
  exists (PyStr.str y), (PyStr.zfill 2 m), (PyStr.zfill 2 d).
  split; [reflexivity|]. split; apply length_zfill.
Qed.


Lemma day_key_in_range h i :
  0 < Calendar.toordinal (current_week_start h) + i <= Calendar.MAXORDINAL ->
  is_Some (day_key h i).
Proof.
  intros H. unfold day_key. rewrite add_days_in_range by done. by eexists.
Qed.

End KeyFacts.



(** ** The square under the pointer *)

Section HitTest.

Implicit Types (h : HeatmapCalendar) (ex ey : Z).

(** The band never starts above the widget: the square is at least five
    pixels lower than the widget is high. *)
Lemma band_y_positive h : 1 <= band_y h.
Proof.
  unfold band_y, square_size.
  apply Z.div_le_lower_bound; lia.
Qed.

(** C4, as the program has it: inside the band the result is the index
    [(x - start_x) // (size + spacing)] when it lies in [0,7); the result
    is none when the index lies outside [0,7) or when [y] lies outside
    the band; and the strip of width [spacing] after a square belongs to
    that square: square [i] answers for every [x] from its left edge up
    to the left edge of the next one, and after the seventh square the
    result is index 6. *)
Theorem square_index_at_cases h ex ey :
  let size := square_size h in
  let index := (ex - start_x h) / (size + spacing) in
  (band_y h <= ey < band_y h + size -> 0 <= index < 7 ->
   square_index_at h ex ey = Some index)
  /\ (~ 0 <= index < 7 -> square_index_at h ex ey = None)
  /\ (~ band_y h <= ey < band_y h + size -> square_index_at h ex ey = None)
  /\ (band_y h <= ey < band_y h + size -> in_gap_after_last h ex = true ->
      square_index_at h ex ey = Some 6)
  /\ (forall i,
        band_y h <= ey < band_y h + size -> 0 <= i < 7 ->
        start_x h + i * (size + spacing) <= ex
        < start_x h + (i + 1) * (size + spacing) ->
        square_index_at h ex ey = Some i).
Proof.
  intros size index. pose proof (band_y_positive h) as Hy.
  assert (Hin : band_y h <= ey < band_y h + size -> 0 <= index < 7 ->
                square_index_at h ex ey = Some index).
  { intros [H1 H2] [H3 H4]. unfold square_index_at.
    fold size. fold index.
    destruct (0 <=? band_y h) eqn:E0; [|lia].
    destruct (band_y h <=? ey) eqn:E1; [|lia].
    destruct (ey <? band_y h + size) eqn:E2; [|lia]. simpl.
    destruct (0 <=? index) eqn:E3; [|lia].
    destruct (index <? 7) eqn:E4; [done|lia]. }
  split; [exact Hin|]. split; [|split; [|split]].
  - intros Hout. unfold square_index_at. fold size. fold index.
    destruct (_ && _ && _); [|done].
    destruct (0 <=? index) eqn:E3; [|done].
    destruct (index <? 7) eqn:E4; [lia|done].
  - intros Hout. unfold square_index_at. fold size.
    destruct (0 <=? band_y h) eqn:E0; [|done].
    destruct (band_y h <=? ey) eqn:E1; [|done].
    destruct (ey <? band_y h + size) eqn:E2; [lia|done].
  - intros Hband Hgap. unfold in_gap_after_last in Hgap. fold size in Hgap.
    apply andb_true_iff in Hgap as [G1 G2].
    assert (Hidx : index = 6).
    { unfold index. symmetry.
      apply (Z.div_unique_pos _ _ 6
               (ex - start_x h - 6 * (size + spacing))); unfold spacing in *; lia. }
    rewrite <- Hidx. apply Hin; [done|lia].
  - intros i Hband Hi Hx.
    assert (Hidx : index = i).
    { unfold index. symmetry.
      apply (Z.div_unique_pos _ _ i
               (ex - start_x h - i * (size + spacing))); lia. }
    rewrite <- Hidx. apply Hin; [done|lia].
Qed.

Lemma square_index_at_cases_witness :
  square_index_at (heatmap_calendar fresh_tracker) 60 10 = Some 0
  /\ square_index_at (heatmap_calendar fresh_tracker) 20 10 = None
  /\ square_index_at (heatmap_calendar fresh_tracker) 60 36 = None
  /\ square_index_at (heatmap_calendar fresh_tracker) 313 10 = Some 6
  /\ square_index_at (heatmap_calendar fresh_tracker) 155 10 = Some 2.
Proof.
  destruct (square_index_at_cases (heatmap_calendar fresh_tracker) 60 10)
    as (H1 & _).
  destruct (square_index_at_cases (heatmap_calendar fresh_tracker) 20 10)
    as (_ & H2 & _).
  destruct (square_index_at_cases (heatmap_calendar fresh_tracker) 60 36)
    as (_ & _ & H3 & _).
  destruct (square_index_at_cases (heatmap_calendar fresh_tracker) 313 10)
    as (_ & _ & _ & H4 & _).
  destruct (square_index_at_cases (heatmap_calendar fresh_tracker) 155 10)
    as (_ & _ & _ & _ & H5).
  split; [apply H1; vm_compute; split; first [discriminate | reflexivity]|].
  split; [apply H2; vm_compute; intros [H _]; apply H; reflexivity|].
  split; [apply H3; vm_compute; intros [_ H]; discriminate H|].
  split; [apply H4; [vm_compute; split; [discriminate | reflexivity]
                    | reflexivity]|].
  apply (H5 2); vm_compute; split; first [discriminate | reflexivity].
Defined.

(** C4 as stated fails right of the seventh square: in a 350 by 40
    widget the squares are 35 wide, the row ends at x = 312, and a press
    at (313, 10), in the gap after the last square, selects square 6
    where the specification says none. *)
Lemma gap_after_last_square_hits :
  square_size (heatmap_calendar fresh_tracker) = 35
  /\ start_x (heatmap_calendar fresh_tracker) = 37
  /\ band_y (heatmap_calendar fresh_tracker) = 1
  /\ in_gap_after_last (heatmap_calendar fresh_tracker) 313 = true
  /\ hitTest_spec (heatmap_calendar fresh_tracker) 313 10 = None
  /\ square_index_at (heatmap_calendar fresh_tracker) 313 10 = Some 6
  /\ square_index_at (heatmap_calendar fresh_tracker) 313 10
     <> hitTest_spec (heatmap_calendar fresh_tracker) 313 10.
Proof. repeat split; try reflexivity. discriminate. Qed.

(** Both handlers act on the square that [square_index_at] finds. *)
Lemma mousePressEvent_outside h event :
  square_index_at h (ev_x event) (ev_y event) = None ->
  mousePressEvent h event = Some PressNothing.
Proof. intros H. unfold mousePressEvent. by rewrite H. Qed.

Lemma mouseMoveEvent_outside h event :
  square_index_at h (ev_x event) (ev_y event) = None ->
  mouseMoveEvent h event = Some (set_hover (-1) 0 h).
Proof. intros H. unfold mouseMoveEvent. by rewrite H. Qed.

Example press_in_gap_selects_sunday :
  mousePressEvent (heatmap_calendar fresh_tracker) (mk_event 313 10 0 1)
  = Some (PressSetDate "2024-01-07").
Proof. reflexivity. Qed.

End HitTest.

(** ** Binary digits *)

Section Digits.

Lemma digits2_pos_size p : digits2_pos p = Pos.size p.
Proof. induction p as [p IH|p IH|]; simpl; congruence. Qed.

Lemma Zdigits2_pos p : Zdigits2 (Zpos p) = Zpos (Pos.size p).
Proof. simpl. by rewrite digits2_pos_size. Qed.

(** A positive number of [d] binary digits lies in [[2^(d-1), 2^d)]. *)
Lemma Zdigits2_bounds m :
  0 < m -> 2 ^ (Zdigits2 m - 1) <= m < 2 ^ Zdigits2 m.
Proof.
  destruct m as [|p|p]; try lia. intros _. rewrite Zdigits2_pos.
  pose proof (Pos.size_gt p) as Hgt. pose proof (Pos.size_le p) as Hle.
  apply Pos2Z.pos_lt_pos in Hgt. apply Pos2Z.pos_le_pos in Hle.
  rewrite Pos2Z.inj_pow in Hgt, Hle.
  change (Z.pos p~0) with (2 * Z.pos p) in Hle.
  split; [|exact Hgt].
  assert (H2 : 2 ^ Z.pos (Pos.size p) = 2 * 2 ^ (Z.pos (Pos.size p) - 1)).
  { rewrite <- Z.pow_succ_r by lia. f_equal. lia. }
  lia.
Qed.

Lemma Zdigits2_unique m d :
  2 ^ (d - 1) <= m < 2 ^ d -> 0 < d -> Zdigits2 m = d.
Proof.
  intros [Hlo Hhi] Hd.
  assert (Hm : 0 < m) by (pose proof (Z.pow_pos_nonneg 2 (d - 1)); lia).
  pose proof (Zdigits2_bounds m Hm) as [Hlo' Hhi'].
  assert (Hpos : 0 < Zdigits2 m) by (destruct m; simpl; lia).
  destruct (Z.lt_trichotomy (Zdigits2 m) d) as [Hlt|[Heq|Hgt]]; [|done|].
  - assert (2 ^ Zdigits2 m <= 2 ^ (d - 1)) by (apply Z.pow_le_mono_r; lia). lia.
  - assert (2 ^ d <= 2 ^ (Zdigits2 m - 1)) by (apply Z.pow_le_mono_r; lia). lia.
Qed.

End Digits.

(** ** Shifting with round and sticky bits *)

Section Shift.

Lemma loc_of_shr_record_of_loc m l :
  loc_of_shr_record (shr_record_of_loc m l) = l.
Proof. by destruct l as [|[]]. Qed.

Lemma shr_m_shr_record_of_loc m l : shr_m (shr_record_of_loc m l) = m.
Proof. by destruct l as [|[]]. Qed.

Lemma represents_of_loc m N D :
  m = N / D -> represents (shr_record_of_loc m (loc_of N D)) N D.
Proof.
  intros ->. split; [apply shr_m_shr_record_of_loc|apply loc_of_shr_record_of_loc].
Qed.

Lemma shr_m_shr_1 mrs : 0 <= shr_m mrs -> shr_m (shr_1 mrs) = shr_m mrs / 2.
Proof.
  destruct mrs as [m r s]. simpl. intros Hm.
  destruct m as [|q|q]; [reflexivity| |lia].
  destruct q as [p|p|]; simpl; [| |reflexivity].
  - change (Z.pos p~1) with (1 + 2 * Z.pos p).
    rewrite (Z.mul_comm 2 (Z.pos p)), Z.div_add by lia. reflexivity.
  - change (Z.pos p~0) with (0 + 2 * Z.pos p).
    rewrite (Z.mul_comm 2 (Z.pos p)), Z.div_add by lia. reflexivity.
Qed.

Lemma shr_1_represents mrs N D :
  0 <= N -> 0 < D -> represents mrs N D -> represents (shr_1 mrs) N (2 * D).
Proof.
  intros HN HD [Hm Hl].
  assert (Hq : N / (2 * D) = (N / D) / 2).
  { rewrite Z.mul_comm, <- Z.div_div by lia. reflexivity. }
  assert (Hr : N mod (2 * D) = N mod D + D * ((N / D) mod 2)).
  { rewrite (Z.mul_comm 2 D). apply Z.rem_mul_r; lia. }
  pose proof (Z.mod_pos_bound N D HD) as Hrho.
  pose proof (Z.div_pos N D HN HD) as Hq0.
  split.
  - rewrite shr_m_shr_1 by lia. by rewrite Hm, Hq.
  - unfold loc_of in *. rewrite Hr.
    assert (Hb : (N / D) mod 2 = 0 \/ (N / D) mod 2 = 1)
      by (pose proof (Z.mod_pos_bound (N / D) 2); lia).
    destruct mrs as [m r s]. simpl in Hm. subst m.
    assert (Hrs : orb r s = false <-> N mod D = 0).
    { simpl in Hl. destruct (N mod D =? 0) eqn:E.
      - apply Z.eqb_eq in E. by destruct r, s.
      - apply Z.eqb_neq in E. destruct r, s; simpl in *; try done. }
    assert (Hbit : shr_1 {| shr_m := N / D; shr_r := r; shr_s := s |}
                   = {| shr_m := N / D / 2;
                        shr_r := negb ((N / D) mod 2 =? 0);
                        shr_s := orb r s |}).
    { simpl. destruct (N / D) as [|q|q] eqn:Eq; [reflexivity| |lia].
      destruct q as [p|p|]; [| |reflexivity].
      - change (Z.pos p~1) with (1 + 2 * Z.pos p).
        rewrite (Z.mul_comm 2 (Z.pos p)), Z.div_add, Z_mod_plus_full by lia.
        reflexivity.
      - change (Z.pos p~0) with (0 + 2 * Z.pos p).
        rewrite (Z.mul_comm 2 (Z.pos p)), Z.div_add, Z_mod_plus_full by lia.
        reflexivity. }
    rewrite Hbit. simpl. destruct Hrs as [Hrs1 Hrs2].
    destruct Hb as [Hb|Hb]; rewrite Hb; simpl.
    + rewrite Z.mul_0_r, Z.add_0_r.
      destruct (N mod D =? 0) eqn:E.
      * apply Z.eqb_eq in E. by rewrite (Hrs2 E).
      * apply Z.eqb_neq in E.
        destruct (orb r s); [|specialize (Hrs1 eq_refl); lia].
        f_equal. symmetry. apply Z.compare_lt_iff. lia.
    + rewrite Z.mul_1_r.
      destruct (N mod D + D =? 0) eqn:E0; [apply Z.eqb_eq in E0; lia|].
      destruct (orb r s).
      * f_equal. symmetry. apply Z.compare_gt_iff.
        assert (N mod D <> 0) by (intros H0; specialize (Hrs2 H0); congruence).
        lia.
      * specialize (Hrs1 eq_refl). f_equal. symmetry.
        apply Z.compare_eq_iff. lia.
Qed.

Lemma iter_pos_nat {A} (f : A -> A) p x :
  SpecFloat.iter_pos f p x = Nat.iter (Pos.to_nat p) f x.
Proof.
  revert x. induction p as [p IH|p IH|]; intros x.
  - change (SpecFloat.iter_pos f p~1 x)
      with (SpecFloat.iter_pos f p (SpecFloat.iter_pos f p (f x))).
    rewrite !IH, Pos2Nat.inj_xI, Nat.iter_succ_r.
    replace (2 * Pos.to_nat p)%nat with (Pos.to_nat p + Pos.to_nat p)%nat by lia.
    by rewrite Nat.iter_add.
  - change (SpecFloat.iter_pos f p~0 x)
      with (SpecFloat.iter_pos f p (SpecFloat.iter_pos f p x)).
    rewrite !IH, Pos2Nat.inj_xO.
    replace (2 * Pos.to_nat p)%nat with (Pos.to_nat p + Pos.to_nat p)%nat by lia.
    by rewrite Nat.iter_add.
  - reflexivity.
Qed.

Lemma iter_shr_1_represents n mrs N D :
  0 <= N -> 0 < D -> represents mrs N D ->
  represents (Nat.iter n shr_1 mrs) N (D * 2 ^ Z.of_nat n).
Proof.
  intros HN HD H. induction n as [|n IH].
  - simpl. by rewrite Z.mul_1_r.
  - rewrite Nat2Z.inj_succ, Z.pow_succ_r by lia. simpl.
    replace (D * (2 * 2 ^ Z.of_nat n)) with (2 * (D * 2 ^ Z.of_nat n)) by lia.
    apply shr_1_represents; [done| |done].
    pose proof (Z.pow_pos_nonneg 2 (Z.of_nat n)). lia.
Qed.

(** [shr] by [n] places divides by [2^n]. *)
Lemma shr_represents mrs e n N D :
  0 <= N -> 0 < D -> 0 <= n -> represents mrs N D ->
  represents (shr mrs e n).1 N (D * 2 ^ n) /\ (shr mrs e n).2 = e + n.
Proof.
  intros HN HD Hn H. destruct n as [|p|p]; try lia; simpl.
  - rewrite Z.mul_1_r, Z.add_0_r. done.
  - split; [|done]. rewrite iter_pos_nat.
    rewrite <- (positive_nat_Z p). by apply iter_shr_1_represents.
Qed.

(** Rounding to nearest moves by at most one half. *)
Lemma round_nearest_even_near mrs N D :
  0 <= N -> 0 < D -> represents mrs N D ->
  let m := round_nearest_even (shr_m mrs) (loc_of_shr_record mrs) in
  N / D <= m <= N / D + 1 /\ Z.abs (2 * m * D - 2 * N) <= D.
Proof.
  intros HN HD [Hm Hl] m. unfold m. rewrite Hm, Hl. unfold loc_of.
  pose proof (Z.mod_pos_bound N D HD) as Hrho.
  pose proof (Z.div_mod N D ltac:(lia)) as Hdm.
  destruct (N mod D =? 0) eqn:E; simpl.
  - apply Z.eqb_eq in E. split; lia.
  - apply Z.eqb_neq in E.
    destruct (2 * (N mod D) ?= D) eqn:C.
    + apply Z.compare_eq_iff in C. destruct (Z.even (N / D)); split; lia.
    + assert (2 * (N mod D) < D) by exact C. split; lia.
    + assert (2 * (N mod D) > D) by exact C. split; lia.
Qed.

End Shift.

(** ** Rounding to binary64 *)

Section Round.

Import PyFloat.

Lemma fexp_binary64 z : fexp prec emax z = Z.max (z - 53) (-1074).
Proof. reflexivity. Qed.

Lemma shr_fexp_represents m e N D :
  0 <= N -> 0 < D -> m = N / D ->
  53 <= Zdigits2 m -> -1074 <= Zdigits2 m + e - 53 ->
  let r := shr_fexp prec emax m e (loc_of N D) in
  represents r.1 N (D * 2 ^ (Zdigits2 m - 53)) /\ r.2 = e + (Zdigits2 m - 53).
Proof.
  intros HN HD Hm Hd He r. unfold r, shr_fexp. rewrite fexp_binary64.
  replace (Z.max (Zdigits2 m + e - 53) (-1074) - e) with (Zdigits2 m - 53) by lia.
  apply shr_represents; [done|done|lia|]. by apply represents_of_loc.
Qed.

(** What [binary_round_aux] returns in the normal range: a number of 53
    digits that lies within half a unit of the last place of the exact
    value [N / D * 2^ex]. *)
Lemma binary_round_aux_normal sx mx ex N D :
  0 <= N -> 0 < D -> mx = N / D ->
  53 <= Zdigits2 mx ->
  -1074 <= Zdigits2 mx + ex - 53 ->
  Zdigits2 mx + ex <= 1023 ->
  exists m e,
    binary_round_aux prec emax sx mx ex (loc_of N D) = S754_finite sx m e
    /\ 2 ^ 52 <= Zpos m < 2 ^ 53
    /\ Zdigits2 mx - 53 <= e - ex <= Zdigits2 mx - 52
    /\ Z.abs (2 * Zpos m * (D * 2 ^ (e - ex)) - 2 * N) <= D * 2 ^ (e - ex).
Proof.
  intros HN HD Hm Hd Hlo Hhi.
  set (n1 := Zdigits2 mx - 53) in *.
  assert (Hn1 : 0 <= n1) by lia.
  pose proof (shr_fexp_represents mx ex N D HN HD Hm Hd Hlo) as [Hrep He1].
  fold n1 in Hrep, He1.
  assert (HD' : 0 < D * 2 ^ n1)
    by (apply Z.mul_pos_pos; [lia | apply Z.pow_pos_nonneg; lia]).
  pose proof (round_nearest_even_near _ N (D * 2 ^ n1) HN HD' Hrep) as [Hm1 Herr].
  unfold binary_round_aux.
  destruct (shr_fexp prec emax mx ex (loc_of N D)) as [mrs' e'] eqn:E1.
  simpl in Hrep, He1, Hm1, Herr.
  set (m1 := round_nearest_even (shr_m mrs') (loc_of_shr_record mrs')) in *.
  (* the shifted mantissa has 53 digits *)
  assert (Hmx : 0 < mx).
  { pose proof (Z.div_pos N D HN HD). destruct mx; simpl in Hd; lia. }
  pose proof (Zdigits2_bounds mx Hmx) as [Hmlo Hmhi].
  assert (Hq : N / (D * 2 ^ n1) = mx / 2 ^ n1).
  { rewrite Hm. rewrite Z.div_div; [done|lia|]. apply Z.pow_pos_nonneg; lia. }
  assert (Hsh : 2 ^ 52 <= mx / 2 ^ n1 < 2 ^ 53).
  { assert (Hp : 0 < 2 ^ n1) by (apply Z.pow_pos_nonneg; lia).
    assert (H1 : 2 ^ (Zdigits2 mx - 1) = 2 ^ 52 * 2 ^ n1).
    { rewrite <- Z.pow_add_r by lia. f_equal. unfold n1. lia. }
    assert (H2 : 2 ^ Zdigits2 mx = 2 ^ 53 * 2 ^ n1).
    { rewrite <- Z.pow_add_r by lia. f_equal. unfold n1. lia. }
    split.
    - apply Z.div_le_lower_bound; lia.
    - apply Z.div_lt_upper_bound; lia. }
  rewrite Hq in Hm1.
  assert (Hm1b : 2 ^ 52 <= m1 <= 2 ^ 53) by lia.
  destruct (Z.eq_dec m1 (2 ^ 53)) as [Htop|Htop].
  - (* the rounding carried into a 54th digit *)
    rewrite Htop.
    assert (E2 : shr_fexp prec emax (2 ^ 53) e' loc_Exact
                 = ({| shr_m := 2 ^ 52; shr_r := false; shr_s := false |},
                    e' + 1)).
    { unfold shr_fexp. rewrite fexp_binary64.
      replace (Z.max (Zdigits2 (2 ^ 53) + e' - 53) (-1074) - e') with 1
        by (change (Zdigits2 (2 ^ 53)) with 54; lia).
      reflexivity. }
    rewrite E2. change (shr_m _) with (Z.pos (2 ^ 52)).
    cbv iota beta.
    destruct (e' + 1 <=? emax - prec) eqn:Efin;
      [|apply Z.leb_gt in Efin; unfold emax, prec in Efin; lia].
    exists (2 ^ 52)%positive, (e' + 1).
    split; [done|]. split; [done|]. split; [lia|].
    replace (e' + 1 - ex) with (n1 + 1) by lia.
    rewrite Z.pow_add_r by lia. rewrite Htop in Herr.
    change (Z.pos (2 ^ 52)) with (2 ^ 52). change (2 ^ 53) with (2 * 2 ^ 52) in Herr.
    change (2 ^ 1) with 2. nia.
  - assert (Hd1 : Zdigits2 m1 = 53) by (apply Zdigits2_unique; simpl; lia).
    assert (E2 : shr_fexp prec emax m1 e' loc_Exact
                 = ({| shr_m := m1; shr_r := false; shr_s := false |}, e')).
    { unfold shr_fexp. rewrite fexp_binary64, Hd1.
      replace (Z.max (53 + e' - 53) (-1074) - e') with 0 by lia.
      reflexivity. }
    rewrite E2. simpl shr_m.
    destruct m1 as [|pm|pm] eqn:Em; try lia.
    destruct (e' <=? emax - prec) eqn:Efin;
      [|apply Z.leb_gt in Efin; unfold emax, prec in Efin; lia].
    exists pm, e'. split; [done|]. split; [lia|]. split; [lia|].
    replace (e' - ex) with n1 by lia. done.
Qed.

End Round.

(** ** Division, product and truncation *)

Section Operations.

Import PyFloat.

Lemma new_location_loc_of N D :
  0 < D -> new_location D (N mod D) = loc_of N D.
Proof.
  intros HD. pose proof (Z.mod_pos_bound N D HD) as Hr.
  unfold new_location, new_location_even, new_location_odd, loc_of.
  destruct (Z.even D) eqn:Ev; [done|].
  destruct (N mod D =? 0); [done|]. f_equal.
  assert (Hodd : D mod 2 = 1).
  { rewrite Zmod_even, Ev. done. }
  assert (Hne : 2 * (N mod D) <> D).
  { intros Heq. rewrite <- Heq in Hodd.
    rewrite Z.mul_comm, Z_mod_mult in Hodd. lia. }
  destruct (2 * (N mod D) + 1 ?= D) eqn:C1.
  - apply Z.compare_eq_iff in C1. symmetry. apply Z.compare_lt_iff. lia.
  - assert (2 * (N mod D) + 1 < D) by exact C1.
    symmetry. apply Z.compare_lt_iff. lia.
  - assert (2 * (N mod D) + 1 > D) by exact C1.
    symmetry. apply Z.compare_gt_iff. lia.
Qed.

Lemma abs_mul_cancel a b c : 0 < a -> Z.abs (a * b) <= a * c -> Z.abs b <= c.
Proof. intros Ha H. rewrite Z.abs_mul in H. rewrite (Z.abs_eq a) in H by lia. nia. Qed.

(** [points / goal] on integers below [2^52]: a binary64 number within
    half a unit of the last place of the quotient. *)
Lemma int_truediv_near p g :
  0 < p < 2 ^ 52 -> 0 < g < 2 ^ 52 ->
  exists m e,
    int_truediv p g = Some (S754_finite false m e)
    /\ 2 ^ 52 <= Zpos m < 2 ^ 53
    /\ -104 <= e <= 0
    /\ Z.abs (2 * Zpos m * g - 2 * p * 2 ^ (- e)) <= g.
Proof.
  intros Hp Hg. unfold int_truediv.
  destruct (g =? 0) eqn:Eg; [apply Z.eqb_eq in Eg; lia|].
  destruct p as [|pp|pp]; try lia. destruct g as [|pg|pg]; try lia.
  cbn [exact SFdiv xorb].
  set (p := Z.pos pp) in *. set (g := Z.pos pg) in *.
  pose proof (Zdigits2_bounds p ltac:(lia)) as [Hp1 Hp2].
  pose proof (Zdigits2_bounds g ltac:(lia)) as [Hg1 Hg2].
  set (d1 := Zdigits2 p) in *. set (d2 := Zdigits2 g) in *.
  assert (Hd1 : 1 <= d1 <= 52).
  { split; [unfold d1, p; simpl; lia|].
    destruct (Z_le_gt_dec d1 52); [done|].
    assert (2 ^ 52 <= 2 ^ (d1 - 1)) by (apply Z.pow_le_mono_r; lia). lia. }
  assert (Hd2 : 1 <= d2 <= 52).
  { split; [unfold d2, g; simpl; lia|].
    destruct (Z_le_gt_dec d2 52); [done|].
    assert (2 ^ 52 <= 2 ^ (d2 - 1)) by (apply Z.pow_le_mono_r; lia). lia. }
  set (s := 53 + d2 - d1).
  assert (Hs : 2 <= s <= 104) by (unfold s; lia).
  assert (Hcore : SFdiv_core_binary prec emax p 0 g 0
                  = ((p * 2 ^ s) / g, - s, loc_of (p * 2 ^ s) g)).
  { unfold SFdiv_core_binary. fold d1 d2. rewrite fexp_binary64.
    replace (Z.min (Z.max (d1 + 0 - (d2 + 0) - 53) (-1074)) (0 - 0)) with (- s)
      by (unfold s; lia).
    replace (0 - 0 - - s) with s by lia.
    destruct s as [|ps|ps] eqn:Es; try lia.
    rewrite Z.shiftl_mul_pow2 by lia.
    unfold Z.div, Z.modulo.
    pose proof (new_location_loc_of (p * 2 ^ Z.pos ps) g ltac:(lia)) as Hloc.
    unfold Z.modulo in Hloc.
    destruct (Z.div_eucl (p * 2 ^ Z.pos ps) g) as [q r]. by rewrite Hloc. }
  rewrite Hcore.
  assert (Hps : 0 < 2 ^ s) by (apply Z.pow_pos_nonneg; lia).
  (* the quotient has 53 or 54 digits *)
  assert (Hq : 2 ^ 52 <= p * 2 ^ s / g < 2 ^ 54).
  { assert (H1 : 2 ^ (d1 - 1) * 2 ^ s = 2 ^ 52 * 2 ^ d2).
    { rewrite <- !Z.pow_add_r by lia. f_equal. unfold s. lia. }
    assert (H2 : 2 ^ d1 * 2 ^ s = 2 ^ 54 * 2 ^ (d2 - 1)).
    { rewrite <- !Z.pow_add_r by lia. f_equal. unfold s. lia. }
    split.
    - apply Z.div_le_lower_bound; [lia|]. nia.
    - apply Z.div_lt_upper_bound; [lia|]. nia. }
  assert (Hdq : 53 <= Zdigits2 (p * 2 ^ s / g) <= 54).
  { pose proof (Zdigits2_bounds (p * 2 ^ s / g) ltac:(lia)) as [Hq1 Hq2].
    set (dq := Zdigits2 (p * 2 ^ s / g)) in *.
    split.
    - destruct (Z_le_gt_dec 53 dq); [done|].
      assert (2 ^ dq <= 2 ^ 52) by (apply Z.pow_le_mono_r; lia). lia.
    - destruct (Z_le_gt_dec dq 54); [done|].
      assert (2 ^ 54 <= 2 ^ (dq - 1)) by (apply Z.pow_le_mono_r; lia). lia. }
  destruct (binary_round_aux_normal false (p * 2 ^ s / g) (- s) (p * 2 ^ s) g)
    as (m & e & Hres & Hm & He & Herr); try lia; try done.
  rewrite Hres. simpl is_finite. cbv iota.
  exists m, e. split; [done|]. split; [done|].
  assert (Hk : 0 <= e + s <= s) by lia.
  split; [lia|].
  replace (e - - s) with (e + s) in Herr by lia.
  assert (Hsplit : 2 ^ s = 2 ^ (e + s) * 2 ^ (- e)).
  { rewrite <- Z.pow_add_r by lia. f_equal. lia. }
  rewrite Hsplit in Herr.
  apply (abs_mul_cancel (2 ^ (e + s))); [apply Z.pow_pos_nonneg; lia|].
  replace (2 ^ (e + s) * (2 * Z.pos m * g - 2 * p * 2 ^ (- e)))
    with (2 * Z.pos m * (g * 2 ^ (e + s)) - 2 * (p * (2 ^ (e + s) * 2 ^ (- e))))
    by ring.
  rewrite (Z.mul_comm (2 ^ (e + s)) g). exact Herr.
Qed.


Lemma of_int_155 : of_int 155 = S754_finite false (155 * 2 ^ 45) (-45).
Proof. reflexivity. Qed.

(** [q * 155] for a positive binary64 number [q = mq * 2^eq]: again
    within half a unit of the last place of the product. *)
Lemma mul_int_155_near mq eq :
  2 ^ 52 <= Zpos mq < 2 ^ 53 -> -104 <= eq <= 0 ->
  exists m e,
    mul_int (S754_finite false mq eq) 155 = S754_finite false m e
    /\ 2 ^ 52 <= Zpos m < 2 ^ 53
    /\ 7 <= e - eq <= 9
    /\ Z.abs (2 * Zpos m * 2 ^ (e - eq) - 310 * Zpos mq) <= 2 ^ (e - eq).
Proof.
  intros Hmq Heq. unfold mul_int. rewrite of_int_155.
  cbn [SFmul xorb].
  set (c := (155 * 2 ^ 45)%positive).
  assert (Hc : Z.pos c = 155 * 2 ^ 45) by reflexivity.
  set (N := Z.pos (mq * c)).
  assert (HN : N = Z.pos mq * (155 * 2 ^ 45)) by (unfold N; by rewrite Pos2Z.inj_mul, Hc).
  assert (Hloc : loc_Exact = loc_of N 1).
  { unfold loc_of. by rewrite Z.mod_1_r. }
  assert (Hdiv : N = N / 1) by (by rewrite Z.div_1_r).
  assert (Hdig : 105 <= Zdigits2 N <= 106).
  { pose proof (Zdigits2_bounds N ltac:(lia)) as [H1 H2].
    set (d := Zdigits2 N) in *.
    assert (Hlo : 2 ^ 104 <= N).
    { rewrite HN. change (2 ^ 104) with (2 ^ 52 * (128 * 2 ^ 45)).
      apply Z.mul_le_mono_nonneg; lia. }
    assert (Hhi : N < 2 ^ 106).
    { rewrite HN. change (2 ^ 106) with (2 ^ 53 * (256 * 2 ^ 45)).
      apply Z.mul_lt_mono_nonneg; lia. }
    split.
    - destruct (Z_le_gt_dec 105 d); [done|].
      assert (2 ^ d <= 2 ^ 104) by (apply Z.pow_le_mono_r; lia). lia.
    - destruct (Z_le_gt_dec d 106); [done|].
      assert (2 ^ 106 <= 2 ^ (d - 1)) by (apply Z.pow_le_mono_r; lia). lia. }
  rewrite Hloc.
  destruct (binary_round_aux_normal false N (eq + -45) N 1)
    as (m & e & Hres & Hm & He & Herr); try lia; try done.
  rewrite Hres. exists m, e. split; [done|]. split; [done|]. split; [lia|].
  set (u := e - eq) in *.
  assert (Hu : 7 <= u <= 9) by lia.
  replace (e - (eq + -45)) with (45 + u) in Herr by lia.
  rewrite Z.mul_1_l, Z.pow_add_r, HN in Herr by lia.
  apply (abs_mul_cancel (2 ^ 45)); [lia|].
  replace (2 ^ 45 * (2 * Z.pos m * 2 ^ u - 310 * Z.pos mq))
    with (2 * Z.pos m * (2 ^ 45 * 2 ^ u) - 2 * (Z.pos mq * (155 * 2 ^ 45)))
    by ring.
  exact Herr.
Qed.

(** [int] of a positive binary64 number. *)
Lemma to_int_finite m e :
  to_int (S754_finite false m e)
  = Some (if e <? 0 then Zpos m / 2 ^ (- e) else Zpos m * 2 ^ e).
Proof.
  unfold to_int. destruct e as [|pe|pe].
  - rewrite Z.shiftl_0_r. change (0 <? 0) with false. cbv iota.
    by rewrite Z.pow_0_r, Z.mul_1_r.
  - rewrite Z.shiftl_mul_pow2 by lia. reflexivity.
  - rewrite Z.shiftr_div_pow2 by lia. reflexivity.
Qed.

End Operations.


(** ** The arithmetic of the truncated product *)

(** In this section [mq * 2^-s] stands for the rounded quotient of [p]
    by [g] and [mr * 2^(u-s)] for the rounded product with 155; the two
    hypotheses on absolute values say that each lies within half a unit
    of its last place of what it rounds. *)

Section TruncatedProduct.

Lemma pow2_le_inv a b : 0 <= a -> 0 <= b -> 2 ^ a <= 2 ^ b -> a <= b.
Proof.
  intros Ha Hb H. destruct (Z_le_gt_dec a b); [assumption|].
  assert (2 ^ b < 2 ^ a) by (apply Z.pow_lt_mono_r; lia). lia.
Qed.

Lemma mul_le_cancel g a b : 0 < g -> a * g <= b * g -> a <= b.
Proof. intros Hg H. nia. Qed.

Lemma mul_lt_cancel g a b : 0 < g -> a * g < b * g -> a < b.
Proof. intros Hg H. nia. Qed.

(** From the goal on, the truncated product is at least 155. *)
Lemma product_at_goal p g mq mr s u :
  0 < p -> 0 < g ->
  2 ^ 52 <= mq -> 2 ^ 52 <= mr ->
  0 <= s -> 7 <= u <= 9 ->
  Z.abs (2 * mq * g - 2 * p * 2 ^ s) <= g ->
  Z.abs (2 * mr * 2 ^ u - 310 * mq) <= 2 ^ u ->
  g <= p ->
  155 <= (if u - s <? 0 then mr / 2 ^ (s - u) else mr * 2 ^ (u - s)).
Proof.
  intros Hp Hg Hmq Hmr Hs Hu Hdiv Hmul Hge.
  assert (H2s : 0 < 2 ^ s) by (apply Z.pow_pos_nonneg; lia).
  assert (H2u : 0 < 2 ^ u) by (apply Z.pow_pos_nonneg; lia).
  assert (Hmq_lo : 2 ^ s <= mq).
  { assert (H1 : g * 2 ^ s <= p * 2 ^ s) by (apply Z.mul_le_mono_nonneg_r; lia).
    assert (H2 : (2 * 2 ^ s - 1) * g <= (2 * mq) * g) by lia.
    apply mul_le_cancel in H2; [lia|lia]. }
  destruct (u - s <? 0) eqn:Eneg.
  - apply Z.ltb_lt in Eneg.
    assert (HW : 0 < 2 ^ (s - u)) by (apply Z.pow_pos_nonneg; lia).
    assert (Hsplit : 2 ^ s = 2 ^ (s - u) * 2 ^ u).
    { rewrite <- Z.pow_add_r by lia. f_equal. lia. }
    apply Z.div_le_lower_bound; [assumption|].
    assert (H3 : (310 * 2 ^ (s - u) - 1) * 2 ^ u <= (2 * mr) * 2 ^ u) by lia.
    apply mul_le_cancel in H3; lia.
  - apply Z.ltb_ge in Eneg.
    assert (1 <= 2 ^ (u - s)) by (pose proof (Z.pow_pos_nonneg 2 (u - s)); lia).
    assert (155 <= mr) by (assert (155 <= 2 ^ 52) by (vm_compute; discriminate); lia).
    assert (mr * 1 <= mr * 2 ^ (u - s)) by (apply Z.mul_le_mono_nonneg_l; lia).
    lia.
Qed.

(** Below the goal, the truncated product is [floor(155 * p / g)];
    only where [g] divides [155 * p] can it be one less instead. *)
Lemma product_below_goal p g mq mr s u :
  0 < p -> 0 < g < 2 ^ 42 ->
  2 ^ 52 <= mq -> 2 ^ 52 <= mr ->
  0 <= s -> 7 <= u <= 9 ->
  Z.abs (2 * mq * g - 2 * p * 2 ^ s) <= g ->
  Z.abs (2 * mr * 2 ^ u - 310 * mq) <= 2 ^ u ->
  p < g ->
  let v0 := if u - s <? 0 then mr / 2 ^ (s - u) else mr * 2 ^ (u - s) in
  let E := 155 * p / g in
  v0 = E \/ (v0 = E - 1 /\ (155 * p) mod g = 0).
Proof.
  intros Hp Hg Hmq Hmr Hs Hu Hdiv Hmul Hlt v0 E.
  assert (H2s : 0 < 2 ^ s) by (apply Z.pow_pos_nonneg; lia).
  assert (H2u : 128 <= 2 ^ u).
  { change 128 with (2 ^ 7). apply Z.pow_le_mono_r; lia. }
  assert (HE : 0 <= E).
  { unfold E. apply Z.div_pos; lia. }
  pose proof (Z.div_mod (155 * p) g ltac:(lia)) as Hdm.
  pose proof (Z.mod_pos_bound (155 * p) g ltac:(lia)) as Hf.
  fold E in Hdm. set (f := (155 * p) mod g) in *.
  assert (Hmq_hi : mq <= 2 ^ s).
  { assert (H1 : p * 2 ^ s <= g * 2 ^ s) by (apply Z.mul_le_mono_nonneg_r; lia).
    assert (H2 : (2 * mq) * g <= (2 * 2 ^ s + 1) * g) by lia.
    apply mul_le_cancel in H2; lia. }
  assert (Hs52 : 52 <= s) by (apply pow2_le_inv; lia).
  assert (Eneg : (u - s <? 0) = true) by (apply Z.ltb_lt; lia).
  unfold v0. rewrite Eneg.
  set (W := 2 ^ (s - u)).
  assert (HW : 2 ^ 43 <= W) by (apply Z.pow_le_mono_r; lia).
  assert (Hsplit : 2 ^ s = W * 2 ^ u).
  { unfold W. rewrite <- Z.pow_add_r by lia. f_equal. lia. }
  assert (Hboth : Z.abs (2 * mr * g - 310 * p * W) <= 3 * g).
  { apply (abs_mul_cancel (2 ^ u)); [lia|].
    assert (H1 : Z.abs (2 * mr * 2 ^ u * g - 310 * mq * g) <= 2 ^ u * g).
    { replace (2 * mr * 2 ^ u * g - 310 * mq * g)
        with (g * (2 * mr * 2 ^ u - 310 * mq)) by ring.
      rewrite Z.abs_mul, (Z.abs_eq g) by lia.
      rewrite (Z.mul_comm (2 ^ u) g). apply Z.mul_le_mono_nonneg_l; lia. }
    assert (H2 : Z.abs (310 * mq * g - 310 * p * 2 ^ s) <= 155 * g).
    { replace (310 * mq * g - 310 * p * 2 ^ s)
        with (155 * (2 * mq * g - 2 * p * 2 ^ s)) by ring.
      rewrite Z.abs_mul. change (Z.abs 155) with 155. lia. }
    rewrite Hsplit in H2.
    replace (2 ^ u * (2 * mr * g - 310 * p * W))
      with ((2 * mr * 2 ^ u * g - 310 * mq * g)
            + (310 * mq * g - 310 * p * (W * 2 ^ u))) by ring.
    assert (155 * g <= 2 * 2 ^ u * g).
    { apply Z.mul_le_mono_nonneg_r; lia. }
    lia. }
  assert (H43 : 2 ^ 43 = 8796093022208) by reflexivity.
  assert (H42 : 2 ^ 42 = 4398046511104) by reflexivity.
  rewrite H43 in HW. rewrite H42 in Hg. clear H43 H42.
  (* in terms of E and f *)
  assert (Hp155 : 310 * p * W = 2 * (g * (E * W)) + 2 * (f * W)).
  { replace (310 * p * W) with (2 * (155 * p) * W) by ring. rewrite Hdm. ring. }
  rewrite Hp155 in Hboth.
  assert (HWpos : 0 < W) by lia.
  destruct (Z.eq_dec f 0) as [Hf0|Hf0].
  - rewrite Hf0 in Hboth. rewrite Z.mul_0_l, Z.mul_0_r, Z.add_0_r in Hboth.
    assert (Hnear : E * W - 1 <= mr <= E * W + 1).
    { assert (H1 : (2 * (E * W) - 3) * g <= (2 * mr) * g) by lia.
      assert (H2 : (2 * mr) * g <= (2 * (E * W) + 3) * g) by lia.
      apply mul_le_cancel in H1; [|lia]. apply mul_le_cancel in H2; [|lia].
      lia. }
    destruct (Z_le_gt_dec (E * W) mr).
    + left. symmetry. apply Z.div_unique with (r := mr - E * W); lia.
    + right. split; [|assumption]. symmetry.
      apply Z.div_unique with (r := mr - (E - 1) * W); lia.
  - left. symmetry. apply Z.div_unique with (r := mr - E * W); [|lia].
    left.
    assert (HfW : 3 * g <= 2 * (f * W)).
    { assert (1 * W <= f * W) by (apply Z.mul_le_mono_nonneg_r; lia). lia. }
    assert (HgfW : 3 * g < 2 * ((g - f) * W)).
    { assert (1 * W <= (g - f) * W) by (apply Z.mul_le_mono_nonneg_r; lia). lia. }
    assert (Hlo : (E * W) * g <= mr * g) by lia.
    assert (Hhi : mr * g < (E * W + W) * g) by lia.
    apply mul_le_cancel in Hlo; [|lia]. apply mul_lt_cancel in Hhi; [|lia].
    lia.
Qed.

End TruncatedProduct.

(** ** The colour of a square *)

Section Colour.

(** C2 as stated fails on its own example: for 5 points and a goal of 10
    the product is 77.5, [int] cuts it to 77, and the program draws 77
    where the specification says 78. *)
Lemma color_value_truncates :
  color_value 5 10 = Some 77
  /\ intensity_spec 5 10 = 78
  /\ color_value 5 10 <> Some (intensity_spec 5 10).
Proof. repeat split; try reflexivity. vm_compute. discriminate. Qed.


Import PyFloat.

Lemma option_bind_Some {A B} (f : A -> option B) (x : A) :
  (Some x ≫= f) = f x.
Proof. reflexivity. Qed.

(** For points below [2^52] and a goal below [2^42] the colour value is
    [min(155, floor(155 * points / goal))] in all cases but some of
    those where [155 * points / goal] is a whole number below 155: the
    quotient is rounded before it is multiplied, and for some of these
    pairs the product lands just under that whole number, which gives
    one less.  For the other pairs of this kind, and for every pair
    whose product is no whole number, the value is the floor. *)
Lemma color_value_near points goal :
  0 < points < 2 ^ 52 -> 0 < goal < 2 ^ 42 ->
  exists v,
    color_value points goal = Some v
    /\ (v = Z.min 155 (155 * points / goal)
        \/ (points < goal /\ (155 * points) mod goal = 0
            /\ v = 155 * points / goal - 1)).
Proof.
  intros Hp Hg. unfold color_value.
  destruct (0 <? goal) eqn:E0; [|apply Z.ltb_ge in E0; lia].
  assert (Hg52 : 0 < goal < 2 ^ 52).
  { assert (2 ^ 42 <= 2 ^ 52) by (apply Z.pow_le_mono_r; lia). lia. }
  destruct (int_truediv_near points goal Hp Hg52)
    as (mq & eq & Hq & Hmq & Heq & Hdiv).
  rewrite Hq, option_bind_Some.
  destruct (mul_int_155_near mq eq Hmq Heq) as (mr & er & Hr & Hmr & Her & Hmul).
  rewrite Hr, to_int_finite, option_bind_Some.
  eexists. split; [reflexivity|].
  set (s := - eq) in *. set (u := er - eq) in *.
  replace er with (u - s) by (unfold u, s; lia).
  replace (- (u - s)) with (s - u) by lia.
  destruct (Z_le_gt_dec goal points) as [Hge|Hlt].
  - left.
    assert (HE : 155 <= 155 * points / goal)
      by (apply Z.div_le_lower_bound; lia).
    pose proof (product_at_goal points goal (Z.pos mq) (Z.pos mr) s u) as Hv.
    specialize (Hv ltac:(lia) ltac:(lia) ltac:(lia) ltac:(lia) ltac:(lia)
                  ltac:(lia) Hdiv Hmul Hge).
    lia.
  - assert (HE : 155 * points / goal < 155)
      by (apply Z.div_lt_upper_bound; lia).
    pose proof (product_below_goal points goal (Z.pos mq) (Z.pos mr) s u) as Hv.
    specialize (Hv ltac:(lia) Hg ltac:(lia) ltac:(lia) ltac:(lia)
                  ltac:(lia) Hdiv Hmul ltac:(lia)).
    simpl in Hv. destruct Hv as [Hv|[Hv Hmod]].
    + left. rewrite Hv. lia.
    + right. rewrite Hv. split; [lia|]. split; [done|]. lia.
Qed.

(** C2, as the program has it: for a positive goal the intensity is
    [min(155, int((points / goal) * 155))], the binary64 product cut
    towards zero and not rounded: 77 for 5 points and a goal of 10, 155
    for 20 points.  For points below [2^52] and a goal below [2^42] that
    is [min(155, floor(155 * points / goal))] whenever
    [155 * points / goal] is no whole number or the points reach the
    goal.  Where [155 * points / goal] is a whole number below 155 the
    intensity is that number or one less, and both occur: 2 points and
    a goal of 10 give 31, the whole number, while 21 points and a goal
    of 31 give 104 and not 105.  For a goal of 0 the intensity is 0
    whatever the points. *)
Theorem color_value_cases :
  (forall points goal, goal <= 0 -> color_value points goal = Some 0)
  /\ color_value 5 10 = Some 77
  /\ color_value 20 10 = Some 155
  /\ (forall points goal,
        0 < points < 2 ^ 52 -> 0 < goal < 2 ^ 42 ->
        exists v,
          color_value points goal = Some v
          /\ (v = Z.min 155 (155 * points / goal)
              \/ (points < goal /\ (155 * points) mod goal = 0
                  /\ v = 155 * points / goal - 1)))
  /\ (color_value 21 31 = Some 104
      /\ 155 * 21 / 31 = 105 /\ (155 * 21) mod 31 = 0)
  /\ (color_value 2 10 = Some 31
      /\ 155 * 2 / 10 = 31 /\ (155 * 2) mod 10 = 0).
Proof.
  split; [|split; [reflexivity|split; [reflexivity|split; [|split]]]].
  - intros p g Hg. unfold color_value. destruct (0 <? g) eqn:E; [lia|done].
  - exact color_value_near.
  - repeat split; reflexivity.
  - repeat split; reflexivity.
Qed.

Lemma color_value_cases_witness :
  color_value 7 0 = Some 0
  /\ exists v,
       color_value 3 7 = Some v
       /\ (v = Z.min 155 (155 * 3 / 7)
           \/ (3 < 7 /\ (155 * 3) mod 7 = 0 /\ v = 155 * 3 / 7 - 1)).
Proof.
  destruct color_value_cases as (H0 & _ & _ & Hnear & _).
  split; [apply (H0 7 0); lia|].
  apply (Hnear 3 7); lia.
Defined.

End Colour.

(** ** Days, dates and their texts *)

Section Ranges.

Lemma forallb_seqZ (f : Z -> bool) (lo len : Z) :
  forallb f (seqZ lo len) = true -> forall n, lo <= n < lo + len -> f n = true.
Proof.
  intros H n Hn. rewrite forallb_forall in H. apply H.
  apply list_elem_of_In, elem_of_seqZ. lia.
Qed.

Lemma month_day_ok_all leapyear n :
  0 <= n < 365 -> month_day_ok leapyear n = true.
Proof.
  intros Hn. destruct leapyear.
  - apply (forallb_seqZ (month_day_ok true) 0 365); [by vm_compute|lia].
  - apply (forallb_seqZ (month_day_ok false) 0 365); [by vm_compute|lia].
Qed.

Lemma leap_flag_ok_all k : 0 <= k < 400 -> leap_flag_ok k = true.
Proof.
  intros Hk. apply (forallb_seqZ leap_flag_ok 0 400); [by vm_compute|lia].
Qed.

End Ranges.

(** Goals with quotients and remainders by constants. *)
Ltac div_mod_lia := Z.div_mod_to_equations; lia.

Section CalendarFacts.

Import Calendar.

Lemma is_leap_cycle a y : is_leap (400 * a + y) = is_leap y.
Proof.
  unfold is_leap.
  assert (H4 : (400 * a + y) mod 4 = y mod 4) by div_mod_lia.
  assert (H100 : (400 * a + y) mod 100 = y mod 100) by div_mod_lia.
  assert (H400 : (400 * a + y) mod 400 = y mod 400) by div_mod_lia.
  by rewrite H4, H100, H400.
Qed.

Lemma is_leap_position a b c e :
  0 <= b <= 3 -> 0 <= c <= 24 -> 0 <= e <= 3 ->
  is_leap (a * 400 + 1 + b * 100 + c * 4 + e) = leap_flag b c e.
Proof.
  intros Hb Hc He.
  set (k := 100 * b + 4 * c + e).
  replace (a * 400 + 1 + b * 100 + c * 4 + e) with (400 * a + (k + 1))
    by (unfold k; lia).
  rewrite is_leap_cycle.
  pose proof (leap_flag_ok_all k ltac:(unfold k; lia)) as Hok.
  unfold leap_flag_ok in Hok. apply Bool.eqb_prop in Hok. rewrite Hok.
  f_equal; unfold k; div_mod_lia.
Qed.

Lemma days_before_year_position a b c e :
  0 <= b <= 3 -> 0 <= c <= 24 -> 0 <= e <= 3 ->
  days_before_year (a * 400 + 1 + b * 100 + c * 4 + e)
  = 146097 * a + 36524 * b + 1461 * c + 365 * e.
Proof. intros Hb Hc He. unfold days_before_year. div_mod_lia. Qed.

Lemma check_date_fields_december_31 y :
  1 <= y <= 9999 -> check_date_fields y 12 31 = true.
Proof.
  intros Hy. unfold check_date_fields, days_in_month, MINYEAR, MAXYEAR.
  change ((12 =? 2) && is_leap y) with false. cbv iota.
  change (table_at DAYS_IN_MONTH 12) with 31.
  repeat (apply andb_true_iff; split); apply Z.leb_le; lia.
Qed.

(** [_ord2ymd] returns a date of the calendar, and [_ymd2ord] leads
    back from it. *)
Lemma ord2ymd_valid n :
  1 <= n <= MAXORDINAL ->
  exists y m d,
    ord2ymd n = (y, m, d)
    /\ check_date_fields y m d = true
    /\ ymd2ord y m d = n.
Proof.
  intros Hn. unfold MAXORDINAL in Hn. unfold ord2ymd.
  change DI400Y with 146097. change DI100Y with 36524. change DI4Y with 1461.
  set (a := (n - 1) / 146097).
  set (r := (n - 1) mod 146097).
  set (b := r / 36524). set (r2 := r mod 36524).
  set (c := r2 / 1461). set (r3 := r2 mod 1461).
  set (e := r3 / 365). set (doy := r3 mod 365).
  assert (Ha : 0 <= a <= 24) by (unfold a; div_mod_lia).
  assert (Hr : n - 1 = 146097 * a + r /\ 0 <= r < 146097) by (unfold a, r; div_mod_lia).
  assert (Hb : r = 36524 * b + r2 /\ 0 <= r2 < 36524 /\ 0 <= b <= 4)
    by (unfold b, r2; div_mod_lia).
  assert (Hc : r2 = 1461 * c + r3 /\ 0 <= r3 < 1461 /\ 0 <= c <= 24)
    by (unfold c, r3; div_mod_lia).
  assert (He : r3 = 365 * e + doy /\ 0 <= doy < 365 /\ 0 <= e <= 4)
    by (unfold e, doy; div_mod_lia).
  clearbody a r b r2 c r3 e doy.
  destruct ((e =? 4) || (b =? 4)) eqn:Elast.
  - (* the last day of a leap year *)
    exists (a * 400 + 1 + b * 100 + c * 4 + e - 1), 12, 31.
    split; [done|].
    apply orb_true_iff in Elast.
    assert (Hcase : (b = 4 /\ c = 0 /\ e = 0 /\ doy = 0)
                    \/ (b <= 3 /\ c <= 23 /\ e = 4 /\ doy = 0)).
    { destruct Elast as [E|E]; apply Z.eqb_eq in E; [right|left]; lia. }
    destruct Hcase as [(-> & -> & -> & ->)|(Hb3 & Hc23 & -> & ->)].
    + replace (a * 400 + 1 + 4 * 100 + 0 * 4 + 0 - 1)
        with (a * 400 + 1 + 3 * 100 + 24 * 4 + 3) by lia.
      split.
      * apply check_date_fields_december_31. lia.
      * unfold ymd2ord, days_before_month.
        rewrite days_before_year_position, is_leap_position by lia.
        change (table_at DAYS_BEFORE_MONTH 12) with 334.
        change (leap_flag 3 24 3) with true. simpl. lia.
    + replace (a * 400 + 1 + b * 100 + c * 4 + 4 - 1)
        with (a * 400 + 1 + b * 100 + c * 4 + 3) by lia.
      split.
      * apply check_date_fields_december_31. lia.
      * unfold ymd2ord, days_before_month.
        rewrite days_before_year_position, is_leap_position by lia.
        change (table_at DAYS_BEFORE_MONTH 12) with 334.
        assert (Hflag : leap_flag b c 3 = true).
        { unfold leap_flag. simpl.
          destruct (c =? 24) eqn:E24; [apply Z.eqb_eq in E24; lia|done]. }
        rewrite Hflag. simpl. lia.
  - apply orb_false_iff in Elast as [Ee Eb].
    apply Z.eqb_neq in Ee. apply Z.eqb_neq in Eb.
    fold (leap_flag b c e).
    pose proof (month_day_ok_all (leap_flag b c e) doy ltac:(lia)) as Hok.
    assert (Hleap : is_leap (a * 400 + 1 + b * 100 + c * 4 + e) = leap_flag b c e)
      by (apply is_leap_position; lia).
    unfold month_day_ok, month_day in Hok. cbv zeta in Hok |- *.
    revert Hok.
    set (month := Z.shiftr (doy + 50) 5).
    set (preceding := table_at DAYS_BEFORE_MONTH month
                      + (if (2 <? month) && leap_flag b c e then 1 else 0)).
    destruct (doy <? preceding); intros Hok;
      (eexists _, _, _; split; [reflexivity|]);
      repeat (apply andb_true_iff in Hok as [Hok ?]);
      repeat match goal with H : (_ <=? _) = true |- _ => apply Z.leb_le in H end;
      match goal with H : (_ =? _) = true |- _ => apply Z.eqb_eq in H end;
      (split;
       [ unfold check_date_fields, days_in_month, MINYEAR, MAXYEAR; rewrite Hleap;
         repeat (apply andb_true_iff; split); apply Z.leb_le; lia
       | unfold ymd2ord, days_before_month;
         rewrite days_before_year_position, Hleap by lia; lia ]).
Qed.

(** The days from 1000-01-01 on are those of the years from 1000 on. *)
Lemma ord2ymd_year n :
  1 <= n <= MAXORDINAL -> YEAR_1000 <= n <-> 1000 <= (ord2ymd n).1.1.
Proof.
  intros Hn. unfold MAXORDINAL in Hn. unfold YEAR_1000, ord2ymd.
  change DI400Y with 146097. change DI100Y with 36524. change DI4Y with 1461.
  set (a := (n - 1) / 146097).
  set (r := (n - 1) mod 146097).
  set (b := r / 36524). set (r2 := r mod 36524).
  set (c := r2 / 1461). set (r3 := r2 mod 1461).
  set (e := r3 / 365). set (doy := r3 mod 365).
  assert (Ha : 0 <= a <= 24) by (unfold a; div_mod_lia).
  assert (Hr : n - 1 = 146097 * a + r /\ 0 <= r < 146097) by (unfold a, r; div_mod_lia).
  assert (Hb : r = 36524 * b + r2 /\ 0 <= r2 < 36524 /\ 0 <= b <= 4)
    by (unfold b, r2; div_mod_lia).
  assert (Hc : r2 = 1461 * c + r3 /\ 0 <= r3 < 1461 /\ 0 <= c <= 24)
    by (unfold c, r3; div_mod_lia).
  assert (He : r3 = 365 * e + doy /\ 0 <= doy < 365 /\ 0 <= e <= 4)
    by (unfold e, doy; div_mod_lia).
  clearbody a r b r2 c r3 e doy.
  destruct ((e =? 4) || (b =? 4)) eqn:Elast.
  - cbn [fst]. apply orb_true_iff in Elast.
    assert (Hcase : (b = 4 /\ c = 0 /\ e = 0 /\ doy = 0)
                    \/ (b <= 3 /\ c <= 23 /\ e = 4 /\ doy = 0)).
    { destruct Elast as [E|E]; apply Z.eqb_eq in E; [right|left]; lia. }
    destruct Hcase as [(-> & -> & -> & ->)|(Hb3 & Hc23 & -> & ->)]; lia.
  - apply orb_false_iff in Elast as [Ee Eb].
    apply Z.eqb_neq in Ee. apply Z.eqb_neq in Eb.
    cbv zeta. destruct (doy <? _); cbn [fst]; lia.
Qed.

End CalendarFacts.

Section RoundTrip.

Import Calendar Strptime PyStr.

Lemma chars_append s1 s2 :
  chars (String.append s1 s2) = chars s1 ++ chars s2.
Proof.
  unfold chars. induction s1 as [|c s1 IH]; [reflexivity|].
  rewrite append_cons. simpl. by rewrite IH.
Qed.

Lemma year_text_ok_all y : 1000 <= y <= 9999 -> year_text_ok y = true.
Proof.
  intros Hy. apply (forallb_seqZ year_text_ok 1000 9000); [by vm_compute|lia].
Qed.

Lemma short_year_text_ok_all y :
  1 <= y <= 999 -> short_year_text_ok y = true.
Proof.
  intros Hy. apply (forallb_seqZ short_year_text_ok 1 999); [by vm_compute|lia].
Qed.

Lemma month_day_text_six_all m d :
  1 <= m <= 12 -> 1 <= d <= 31 -> month_day_text_six m d = true.
Proof.
  intros Hm Hd.
  assert (H : forallb (fun m => forallb (month_day_text_six m) (seqZ 1 31))
                (seqZ 1 12) = true) by (by vm_compute).
  apply (forallb_seqZ _ 1 12) with (n := m) in H; [|lia].
  apply (forallb_seqZ _ 1 31) with (n := d) in H; [done|lia].
Qed.

(** Fewer than four characters before a [-] are no year for the
    expression. *)
Lemma group_Y_short l r :
  (length l <= 3)%nat -> group_Y (l ++ "-"%char :: r) = [].
Proof.
  intros H.
  destruct l as [|a [|b [|c [|? ?]]]]; simpl in H; [| | | |lia];
    destruct r as [|x1 [|x2 [|x3 r]]];
    simpl app; unfold group_Y; try done;
    change (is_digit "-") with false;
    rewrite ?andb_false_r; simpl; done.
Qed.

Lemma month_day_text_ok_all m d :
  1 <= m <= 12 -> 1 <= d <= 31 -> month_day_text_ok m d = true.
Proof.
  intros Hm Hd.
  assert (H : forallb (fun m => forallb (month_day_text_ok m) (seqZ 1 31))
                (seqZ 1 12) = true) by (by vm_compute).
  apply (forallb_seqZ _ 1 12) with (n := m) in H; [|lia].
  apply (forallb_seqZ _ 1 31) with (n := d) in H; [done|lia].
Qed.

Lemma list_fmap_bind_fun {A B C} (f : B -> C) (g : A -> list B) (l : list A) :
  f <$> (l ≫= g) = l ≫= (fun x => f <$> g x).
Proof.
  induction l as [|x l IH]; [done|].
  change ((x :: l) ≫= g) with (g x ++ (l ≫= g)).
  change ((x :: l) ≫= (fun x => f <$> g x))
    with ((f <$> g x) ++ (l ≫= (fun x => f <$> g x))).
  by rewrite fmap_app, IH.
Qed.

Lemma list_bind_ext_fun {A B} (g h : A -> list B) (l : list A) :
  (forall x, g x = h x) -> l ≫= g = l ≫= h.
Proof.
  intros E. induction l as [|x l IH]; [done|].
  change ((x :: l) ≫= g) with (g x ++ (l ≫= g)).
  change ((x :: l) ≫= h) with (h x ++ (l ≫= h)).
  by rewrite E, IH.
Qed.

(** After four digits the expression goes on with the rest of the
    text, whatever the digits are. *)
Lemma matches_after_year a b c d r :
  is_digit a && is_digit b && is_digit c && is_digit d = true ->
  matches (a :: b :: c :: d :: r)
  = (fun t => let '(tm, td, r5) := t in ([a; b; c; d], tm, td, r5))
      <$> tail_matches r.
Proof.
  intros H. unfold matches, tail_matches, group_Y. rewrite H.
  change ([([a; b; c; d], r)] ≫= ?f) with (f ([a; b; c; d], r) ++ []).
  rewrite app_nil_r. cbv beta iota.
  rewrite list_fmap_bind_fun. apply list_bind_ext_fun. intros r2.
  rewrite list_fmap_bind_fun. apply list_bind_ext_fun. intros [tm r3].
  rewrite list_fmap_bind_fun. apply list_bind_ext_fun. intros r4.
  rewrite list_fmap_bind_fun. apply list_bind_ext_fun. intros [td r5].
  reflexivity.
Qed.

Lemma days_in_month_le_31 y m : 1 <= m <= 12 -> days_in_month y m <= 31.
Proof.
  intros Hm. unfold days_in_month.
  destruct ((m =? 2) && is_leap y); [lia|].
  assert (Hcases : m = 1 \/ m = 2 \/ m = 3 \/ m = 4 \/ m = 5 \/ m = 6 \/ m = 7
                   \/ m = 8 \/ m = 9 \/ m = 10 \/ m = 11 \/ m = 12) by lia.
  repeat (destruct Hcases as [->|Hcases]; [by vm_compute|]).
  subst m. by vm_compute.
Qed.

Lemma check_date_fields_bounds y m d :
  check_date_fields y m d = true ->
  1 <= y <= 9999 /\ 1 <= m <= 12 /\ 1 <= d <= 31.
Proof.
  unfold check_date_fields, MINYEAR, MAXYEAR. intros H.
  repeat (apply andb_true_iff in H as [H ?]).
  repeat match goal with H : (_ <=? _) = true |- _ => apply Z.leb_le in H end.
  assert (1 <= m <= 12) as Hm by lia.
  pose proof (days_in_month_le_31 y m Hm). lia.
Qed.

(** [strptime] reads a date of the calendar back from the text that
    ["%Y-%m-%d"] prints for it, when the year has four digits. *)
Lemma strptime_ymd_text y m d :
  check_date_fields y m d = true ->
  1000 <= y ->
  strptime_ymd
    (String.append (str y)
       (String.append "-"
          (String.append (zfill 2 m) (String.append "-" (zfill 2 d)))))
  = Some (y, m, d).
Proof.
  intros Hcheck Hy4.
  destruct (check_date_fields_bounds _ _ _ Hcheck) as (Hy & Hm & Hd).
  pose proof (year_text_ok_all y ltac:(lia)) as HY.
  pose proof (month_day_text_ok_all m d Hm Hd) as HT.
  unfold strptime_ymd. rewrite chars_append.
  unfold year_text_ok in HY. unfold month_day_text_ok in HT.
  destruct (chars (str y)) as [|a [|b [|c [|e [|? ?]]]]]; try done.
  apply andb_true_iff in HY as [Hdig Hint]. apply Z.eqb_eq in Hint.
  change ([a; b; c; e] ++ ?r) with (a :: b :: c :: e :: r).
  rewrite matches_after_year by done.
  destruct (tail_matches _) as [|[[tm td] r5] ts]; [done|].
  destruct r5; [|done].
  apply andb_true_iff in HT as [Hm' Hd'].
  apply Z.eqb_eq in Hm'. apply Z.eqb_eq in Hd'.
  simpl fmap. cbv iota beta zeta. rewrite Hint, Hm', Hd', Hcheck. done.
Qed.

(** [strptime] refuses the text of a year below 1000. *)
Lemma strptime_ymd_short_year y rest :
  1 <= y <= 999 ->
  strptime_ymd (String.append (str y) (String.append "-" rest)) = None.
Proof.
  intros Hy. pose proof (short_year_text_ok_all y Hy) as HS.
  unfold short_year_text_ok in HS. apply Nat.leb_le in HS.
  unfold strptime_ymd. rewrite chars_append.
  change (chars (String.append "-" rest)) with ("-"%char :: chars rest).
  unfold matches. by rewrite group_Y_short.
Qed.

Lemma strptime_strftime dt :
  YEAR_1000 <= toordinal dt <= MAXORDINAL ->
  strptime_ymd (strftime_ymd dt) = Some (ord2ymd (toordinal dt)).
Proof.
  intros Hn.
  assert (Hr : 1 <= toordinal dt <= MAXORDINAL) by (unfold YEAR_1000 in Hn; lia).
  destruct (ord2ymd_valid _ Hr) as (y & m & d & E & Hc & _).
  pose proof (ord2ymd_year _ Hr) as Hy. rewrite E in Hy. cbn [fst] in Hy.
  unfold strftime_ymd. rewrite E. apply strptime_ymd_text; [done|].
  apply Hy. lia.
Qed.

Lemma strptime_strftime_short dt :
  1 <= toordinal dt < YEAR_1000 ->
  strptime_ymd (strftime_ymd dt) = None.
Proof.
  intros Hn.
  assert (Hr : 1 <= toordinal dt <= MAXORDINAL)
    by (unfold YEAR_1000, MAXORDINAL in *; lia).
  destruct (ord2ymd_valid _ Hr) as (y & m & d & E & Hc & _).
  pose proof (ord2ymd_year _ Hr) as Hy. rewrite E in Hy. cbn [fst] in Hy.
  destruct (check_date_fields_bounds _ _ _ Hc) as (Hy1 & _ & _).
  unfold strftime_ymd. rewrite E. apply strptime_ymd_short_year.
  split; [lia|]. destruct (Z_le_gt_dec 1000 y) as [Hge|]; [|lia].
  apply Hy in Hge. lia.
Qed.

(** Two days with the same text are the same day: the last six
    characters are the month and the day, and those before them the
    year. *)
Lemma strftime_ymd_inj dt1 dt2 :
  1 <= toordinal dt1 <= MAXORDINAL ->
  1 <= toordinal dt2 <= MAXORDINAL ->
  strftime_ymd dt1 = strftime_ymd dt2 ->
  toordinal dt1 = toordinal dt2.
Proof.
  intros H1 H2 E.
  destruct (ord2ymd_valid _ H1) as (y1 & m1 & d1 & E1 & C1 & R1).
  destruct (ord2ymd_valid _ H2) as (y2 & m2 & d2 & E2 & C2 & R2).
  unfold strftime_ymd in E. rewrite E1, E2 in E.
  destruct (check_date_fields_bounds _ _ _ C1) as (Hy1 & Hm1 & Hd1).
  destruct (check_date_fields_bounds _ _ _ C2) as (Hy2 & Hm2 & Hd2).
  apply (f_equal chars) in E.
  rewrite (chars_append (str y1)), (chars_append (str y2)) in E.
  pose proof (month_day_text_six_all m1 d1 Hm1 Hd1) as L1.
  pose proof (month_day_text_six_all m2 d2 Hm2 Hd2) as L2.
  apply Nat.eqb_eq in L1. apply Nat.eqb_eq in L2.
  apply app_inj_2 in E as [EY ET]; [|congruence].
  assert (Hy : y1 = y2).
  { destruct (int_str y1 ltac:(lia)) as [_ I1].
    destruct (int_str y2 ltac:(lia)) as [_ I2].
    unfold int in I1, I2. rewrite EY in I1. congruence. }
  pose proof (month_day_text_ok_all m1 d1 Hm1 Hd1) as T1.
  pose proof (month_day_text_ok_all m2 d2 Hm2 Hd2) as T2.
  unfold month_day_text_ok in T1, T2. rewrite ET in T1.
  destruct (tail_matches _) as [|[[tm td] r5] ts]; [done|].
  destruct r5; [|done].
  apply andb_true_iff in T1 as [Tm1 Td1]. apply andb_true_iff in T2 as [Tm2 Td2].
  apply Z.eqb_eq in Tm1, Td1, Tm2, Td2.
  congruence.
Qed.

Lemma is_valid_date_strftime dt :
  YEAR_1000 <= toordinal dt <= MAXORDINAL ->
  is_valid_date (strftime_ymd dt) = true.
Proof. intros H. unfold is_valid_date. by rewrite strptime_strftime. Qed.

Lemma is_valid_date_strftime_short dt :
  1 <= toordinal dt < YEAR_1000 ->
  is_valid_date (strftime_ymd dt) = false.
Proof. intros H. unfold is_valid_date. by rewrite strptime_strftime_short. Qed.

Lemma add_days_Some dt n dt' :
  add_days dt n = Some dt' ->
  toordinal dt' = toordinal dt + n /\ 1 <= toordinal dt' <= MAXORDINAL.
Proof.
  unfold add_days. destruct (_ && _) eqn:E; [|done]. intros [= <-].
  apply andb_true_iff in E as [E1 E2].
  apply Z.ltb_lt in E1. apply Z.leb_le in E2. simpl. lia.
Qed.

End RoundTrip.

(** ** The keys of the squares are dates *)

Section KeysAreDates.

(** X1: the date that [paintEvent], [mouseMoveEvent] and
    [mousePressEvent] compute for a square,
    [(current_week_start + timedelta(days=i)).strftime("%Y-%m-%d")], is
    a text that [is_valid_date] accepts exactly when its day lies in the
    year 1000 or later.  [strftime] prints an earlier year with fewer
    than four digits, and [strptime] asks for four: in the week of
    Monday 0999-12-30, 53430 presses of [<] before the week of
    2024-01-01, the first two squares carry dates that [is_valid_date]
    refuses. *)
Theorem day_key_is_valid_date h i key :
  day_key h i = Some key ->
  is_valid_date key = true
  <-> YEAR_1000 <= Calendar.toordinal (current_week_start h) + i.
Proof.
  unfold day_key. destruct (Calendar.add_days _ _) as [dt|] eqn:E; [|done].
  intros [= <-]. apply add_days_Some in E as [Ho Hr]. rewrite <- Ho.
  destruct (Z_le_gt_dec YEAR_1000 (Calendar.toordinal dt)) as [Hge|Hlt].
  - split; [done|]. intros _. apply is_valid_date_strftime. lia.
  - rewrite is_valid_date_strftime_short by lia. split; [done|lia].
Qed.

Lemma day_key_is_valid_date_witness :
  (is_valid_date "2024-01-05" = true
   <-> YEAR_1000
       <= Calendar.toordinal
            (current_week_start (heatmap_calendar fresh_tracker)) + 4)
  /\ (is_valid_date "999-12-31" = true
      <-> YEAR_1000
          <= Calendar.toordinal
               (current_week_start (heatmap_calendar year_999_tracker)) + 1).
Proof.
  split.
  - apply (day_key_is_valid_date (heatmap_calendar fresh_tracker) 4).
    reflexivity.
  - apply (day_key_is_valid_date (heatmap_calendar year_999_tracker) 1).
    reflexivity.
Defined.

(** X2: two squares with the same date text stand for the same day, also
    across weeks: the day of the anchor plus the index is the same. In
    one widget the seven squares have seven different keys. *)
Theorem day_key_inj h1 h2 i j key :
  day_key h1 i = Some key -> day_key h2 j = Some key ->
  Calendar.toordinal (current_week_start h1) + i
  = Calendar.toordinal (current_week_start h2) + j.
Proof.
  unfold day_key.
  destruct (Calendar.add_days (current_week_start h1) i) as [d1|] eqn:E1; [|done].
  destruct (Calendar.add_days (current_week_start h2) j) as [d2|] eqn:E2; [|done].
  intros [= K1] [= K2].
  apply add_days_Some in E1 as [O1 R1]. apply add_days_Some in E2 as [O2 R2].
  rewrite <- O1, <- O2. apply strftime_ymd_inj; [done|done|congruence].
Qed.

Lemma day_key_inj_witness :
  Calendar.toordinal (current_week_start (heatmap_calendar fresh_tracker)) + 11
  = Calendar.toordinal
      (current_week_start
         (set_week_start (Calendar.mk_datetime 738893 0)
            (heatmap_calendar fresh_tracker))) + 4.
Proof.
  apply (day_key_inj (heatmap_calendar fresh_tracker)
           (set_week_start (Calendar.mk_datetime 738893 0)
              (heatmap_calendar fresh_tracker)) 11 4 "2024-01-12");
    reflexivity.
Defined.

(** X3: [set_date()] without a date, as [init_ui] calls it, fills the
    entry with today's date.  From the year 1000 on that is a text that
    [is_valid_date] accepts, and [update_points] on that entry never
    answers with the message for an invalid date.  Before the year 1000
    [strftime] gives the year fewer than four digits, and
    [update_points] on the entry answers with that message and changes
    nothing. *)
Theorem set_date_today_is_valid now operation st :
  1 <= Calendar.toordinal now <= Calendar.MAXORDINAL ->
  let st' := set_date None now st in
  date_entry st' = Calendar.strftime_ymd now
  /\ (YEAR_1000 <= Calendar.toordinal now ->
      is_valid_date (date_entry st') = true
      /\ (update_points operation None st').1 <> ErrorInvalidDate)
  /\ (Calendar.toordinal now < YEAR_1000 ->
      update_points operation None st' = (ErrorInvalidDate, st')).
Proof.
  intros Hnow st'. split; [done|]. split.
  - intros Hyear.
    assert (Hvalid : is_valid_date (date_entry st') = true).
    { simpl. apply is_valid_date_strftime. lia. }
    split; [done|].
    unfold update_points.
    change (effective_date None st') with (date_entry st').
    rewrite Hvalid. simpl negb. cbv iota.
    destruct (PyStr.isdigit (points_entry st')); [|done].
    destruct (match Db.select_points _ _ with Some _ => _ | None => _ end)
      as [box t] eqn:E.
    simpl. intros ->.
    destruct (Db.select_points _ _); repeat (destruct (_ =? _) in E);
      try destruct (_ <=? _) in E; done.
  - intros Hyear.
    assert (Hinvalid : is_valid_date (date_entry st') = false).
    { simpl. apply is_valid_date_strftime_short. lia. }
    unfold update_points.
    change (effective_date None st') with (date_entry st').
    by rewrite Hinvalid.
Qed.

Lemma set_date_today_is_valid_witness :
  let st' := set_date None (Calendar.mk_datetime 738890 0) fresh_tracker in
  date_entry st' = Calendar.strftime_ymd (Calendar.mk_datetime 738890 0)
  /\ is_valid_date (date_entry st') = true
  /\ (update_points 1 None st').1 <> ErrorInvalidDate.
Proof.
  destruct (set_date_today_is_valid (Calendar.mk_datetime 738890 0) 1
              fresh_tracker) as (H1 & H2 & _).
  - vm_compute. split; discriminate.
  - split; [exact H1|]. apply H2. vm_compute. discriminate.
Defined.

End KeysAreDates.

(** ** The points of a date *)

Section Stored.

Import PyStr.

Lemma int_digits_from_nonneg cs acc :
  0 <= acc -> forallb is_digit cs = true ->
  0 <= fold_left (fun acc c => 10 * acc + digit_value c) cs acc.
Proof.
  revert acc. induction cs as [|c cs IH]; intros acc Hacc H; [done|].
  simpl in H. apply andb_true_iff in H as [Hc Hcs]. simpl.
  apply IH; [|done].
  unfold is_digit, in_range in Hc. apply andb_true_iff in Hc as [H0 H9].
  apply Z.leb_le in H0. unfold digit_value.
  change (code "0") with 48 in H0. lia.
Qed.

(** A text of digits reads as a number that is not negative. *)
Lemma int_nonneg s : isdigit s = true -> 0 <= int s.
Proof.
  unfold isdigit, int. destruct (chars s) as [|c cs] eqn:E; [done|].
  intros H.
  assert (Hc : is_digit c = true) by (simpl in H; by apply andb_true_iff in H as [? _]).
  assert (Hint : 0 <= int_digits (c :: cs))
    by (apply int_digits_from_nonneg; [lia|done]).
  destruct c as [[] [] [] [] [] [] [] []]; try exact Hint; done.
Qed.

Lemma select_points_cons d r t :
  Db.select_points d (r :: t)
  = if Db.has_date d r then Some (Db.row_points r) else Db.select_points d t.
Proof. unfold Db.select_points. simpl. by destruct (Db.has_date d r). Qed.

Lemma has_date_other d d' r :
  d' <> d -> Db.has_date d r = true -> Db.has_date d' r = false.
Proof.
  intros Hne H. apply has_date_true in H. apply has_date_false. congruence.
Qed.

Lemma select_points_update_same v d t :
  Db.select_points d (Db.update_points v d t)
  = match Db.select_points d t with Some _ => Some v | None => None end.
Proof.
  induction t as [|r t IH]; [done|].
  change (Db.update_points v d (r :: t))
    with ((if Db.has_date d r
           then Db.mk_row (Db.row_id r) (Db.row_date r) v else r)
          :: Db.update_points v d t).
  rewrite !select_points_cons.
  destruct (Db.has_date d r) eqn:E.
  - assert (E' : Db.has_date d (Db.mk_row (Db.row_id r) (Db.row_date r) v) = true)
      by exact E.
    by rewrite E'.
  - by rewrite E.
Qed.

Lemma select_points_update_other v d d' t :
  d' <> d ->
  Db.select_points d' (Db.update_points v d t) = Db.select_points d' t.
Proof.
  intros Hne. induction t as [|r t IH]; [done|].
  change (Db.update_points v d (r :: t))
    with ((if Db.has_date d r
           then Db.mk_row (Db.row_id r) (Db.row_date r) v else r)
          :: Db.update_points v d t).
  rewrite !select_points_cons, IH.
  destruct (Db.has_date d r) eqn:E; [|done].
  pose proof (has_date_other d d' r Hne E) as E1.
  assert (E2 : Db.has_date d' (Db.mk_row (Db.row_id r) (Db.row_date r) v) = false)
    by exact E1.
  by rewrite E1, E2.
Qed.

Lemma select_points_delete_same d t :
  Db.select_points d (Db.delete d t) = None.
Proof. apply select_points_None, delete_is_absent. Qed.

Lemma select_points_delete_other d d' t :
  d' <> d -> Db.select_points d' (Db.delete d t) = Db.select_points d' t.
Proof.
  intros Hne. induction t as [|r t IH]; [done|].
  unfold Db.delete in *. simpl.
  destruct (Db.has_date d r) eqn:E; simpl.
  - rewrite IH, select_points_cons. by rewrite (has_date_other d d' r Hne E).
  - by rewrite !select_points_cons, IH.
Qed.

Lemma select_points_app d t t' :
  Db.select_points d (t ++ t')
  = match Db.select_points d t with
    | Some v => Some v
    | None => Db.select_points d t'
    end.
Proof.
  induction t as [|r t IH]; [done|].
  change ((r :: t) ++ t') with (r :: (t ++ t')).
  rewrite !select_points_cons, IH. by destruct (Db.has_date d r).
Qed.

Lemma select_points_insert_other d d' v t :
  d' <> d -> Db.select_points d' (Db.insert d v t) = Db.select_points d' t.
Proof.
  intros Hne. unfold Db.insert. rewrite select_points_app, select_points_cons.
  assert (E : Db.has_date d' (Db.mk_row (Db.next_id t) d v) = false)
    by (apply has_date_false; simpl; congruence).
  rewrite E. by destruct (Db.select_points d' t).
Qed.

(** The points of every date after [update_points] added to [d]. *)
Lemma stored_table_after_add d d' s t :
  stored d' (table_after 1 d s t)
  = if decide (d' = d) then stored d t + int s else stored d' t.
Proof.
  unfold stored, table_after. change (1 =? 1) with true. cbv iota.
  destruct (decide (d' = d)) as [->|Hne].
  - destruct (Db.select_points d t) as [e|] eqn:E.
    + by rewrite select_points_update_same, E.
    + rewrite select_points_insert by (by apply select_points_None). simpl. lia.
  - destruct (Db.select_points d t) as [e|] eqn:E.
    + by rewrite select_points_update_other.
    + by rewrite select_points_insert_other.
Qed.

(** The points of every date after [update_points] removed from [d]. *)
Lemma stored_table_after_remove d d' s t :
  0 <= int s ->
  stored d' (table_after (-1) d s t)
  = if decide (d' = d) then Z.max 0 (stored d t - int s) else stored d' t.
Proof.
  intros Hs. unfold stored, table_after.
  change (-1 =? 1) with false. change (-1 =? -1) with true. cbv iota.
  destruct (decide (d' = d)) as [->|Hne].
  - destruct (Db.select_points d t) as [e|] eqn:E.
    + destruct (e - int s <=? 0) eqn:El.
      * rewrite select_points_delete_same. apply Z.leb_le in El. simpl. lia.
      * rewrite select_points_update_same, E. apply Z.leb_gt in El. simpl. lia.
    + rewrite E. simpl. lia.
  - destruct (Db.select_points d t) as [e|] eqn:E; [|done].
    destruct (e - int s <=? 0).
    + by rewrite select_points_delete_other.
    + by rewrite select_points_update_other.
Qed.

(** With one row for a date at most, the dictionary that
    [update_points_display] builds holds what [SELECT] finds. *)
Lemma dict_of_rows_select_points t d :
  NoDup (dates t) ->
  dict_of_rows (Db.select_all t) !! d = Db.select_points d t.
Proof.
  induction t as [|r t IH] using rev_ind; [done|]. intros Hnd.
  unfold dates in Hnd. rewrite map_app in Hnd. fold (dates t) in Hnd.
  apply NoDup_app in Hnd as (Hnd & Hfresh & _).
  unfold Db.select_all. rewrite map_app. fold (Db.select_all t). simpl map.
  rewrite dict_of_rows_snoc, select_points_app, select_points_cons.
  destruct (decide (Db.row_date r = d)) as [<-|Hne].
  - rewrite lookup_insert_eq.
    assert (Habs : absent (Db.row_date r) t).
    { intros Hin. apply (Hfresh _ Hin). simpl. left. }
    apply select_points_None in Habs. rewrite Habs.
    assert (E : Db.has_date (Db.row_date r) r = true) by (by apply has_date_true).
    by rewrite E.
  - rewrite lookup_insert_ne by done. rewrite IH by done.
    assert (E : Db.has_date d r = false) by (by apply has_date_false).
    rewrite E. by destruct (Db.select_points d t).
Qed.

Lemma points_on_update_points_display st d :
  NoDup (dates (db st)) ->
  points_on (heatmap_calendar (update_points_display st)) d = stored d (db st).
Proof.
  intros Hnd. unfold points_on, stored.
  rewrite points_data_update_points_display. unfold getAll.
  by rewrite dict_of_rows_select_points.
Qed.

End Stored.

(** ** The totals that [update_points] leaves *)

Section Totals.

Import PyStr.

(** X4: [update_points(1)] with a valid date [d] and a text of digits
    raises the points of [d] by the number typed, whether [d] had a row
    or not, and leaves the points of every other date as they were. *)
Theorem update_points_add_totals st arg d d' :
  effective_date arg st = d ->
  is_valid_date d = true ->
  isdigit (points_entry st) = true ->
  stored d' (db (update_points 1 arg st).2)
  = if decide (d' = d) then stored d (db st) + int (points_entry st)
    else stored d' (db st).
Proof.
  intros Hd Hv Hs. rewrite db_update_points, Hd, Hv, Hs. simpl andb. cbv iota.
  apply stored_table_after_add.
Qed.

Lemma update_points_add_totals_witness :
  let st := type_points "4" (update_points 1 None (type_points "3" fresh_tracker)).2 in
  stored "2024-01-01" (db (update_points 1 None st).2)
  = if decide ("2024-01-01" = "2024-01-01")
    then stored "2024-01-01" (db st) + int (points_entry st)
    else stored "2024-01-01" (db st).
Proof.
  apply (update_points_add_totals
           (type_points "4"
              (update_points 1 None (type_points "3" fresh_tracker)).2)
           None "2024-01-01" "2024-01-01"); reflexivity.
Defined.



(** X6: what the message box of [update_points] says is what the table
    holds afterwards. The two error messages leave the window as it was;
    the total of "Updated points" is the points of the row; after "have
    been deleted" no row is left for the date; "Points added" is shown
    for a date that had no row and now has one with the number typed;
    the warning leaves the table as it was. *)
Theorem update_points_reports st operation arg :
  let d := effective_date arg st in
  let r := update_points operation arg st in
  match r.1 with
  | ErrorInvalidDate => is_valid_date d = false /\ r.2 = st
  | ErrorInvalidPoints => isdigit (points_entry st) = false /\ r.2 = st
  | InfoAdded s =>
      s = points_entry st /\ absent d (db st)
      /\ Db.select_points d (db r.2) = Some (int s)
  | InfoUpdated d' total =>
      d' = d /\ is_Some (Db.select_points d (db st))
      /\ Db.select_points d (db r.2) = Some total
  | InfoDeleted d' => d' = d /\ absent d (db r.2)
  | WarningNoPoints => absent d (db st) /\ db r.2 = db st
  | NoMessage => db r.2 = db st
  end.
Proof.
  intros d r. subst r. unfold update_points. fold d.
  destruct (is_valid_date d) eqn:Hv; simpl negb; cbv iota; [|done].
  destruct (isdigit (points_entry st)) eqn:Hs; [|done].
  destruct (Db.select_points d (db st)) as [e|] eqn:E.
  - destruct (operation =? 1).
    + simpl. rewrite select_points_update_same, E. done.
    + destruct (operation =? -1); [|done].
      destruct (_ <=? 0).
      * simpl. split; [done|]. apply delete_is_absent.
      * simpl. rewrite select_points_update_same, E. done.
  - apply select_points_None in E.
    destruct (operation =? 1); [|done].
    simpl. by rewrite select_points_insert.
Qed.

(** After [update_points] went through, the heatmap holds for every
    date the points of its row in the table, and 0 for a date without a
    row, as long as no date has two rows. *)
Lemma points_on_update_points st operation arg date :
  NoDup (dates (db st)) ->
  is_valid_date (effective_date arg st) = true ->
  isdigit (points_entry st) = true ->
  points_on (heatmap_calendar (update_points operation arg st).2) date
  = stored date (db (update_points operation arg st).2).
Proof.
  intros Hnd Hv Hs. unfold points_on, stored.
  rewrite points_data_update_points by done. unfold getAll.
  rewrite dict_of_rows_select_points; [done|].
  rewrite db_update_points, Hv, Hs. simpl andb. cbv iota.
  by apply table_after_NoDup.
Qed.

Lemma update_update v w d t :
  Db.update_points v d (Db.update_points w d t) = Db.update_points v d t.
Proof.
  unfold Db.update_points. rewrite map_map. apply map_ext. intros r.
  destruct (Db.has_date d r) eqn:E; [|by rewrite E].
  assert (E' : Db.has_date d (Db.mk_row (Db.row_id r) (Db.row_date r) w) = true)
    by exact E.
  by rewrite E'.
Qed.

Lemma table_after_add_twice d s1 s2 s3 t :
  int s3 = int s1 + int s2 ->
  table_after 1 d s2 (table_after 1 d s1 t) = table_after 1 d s3 t.
Proof.
  intros H3. unfold table_after at 2 3. change (1 =? 1) with true. cbv iota.
  destruct (Db.select_points d t) as [e|] eqn:E.
  - unfold table_after. rewrite select_points_update_same, E.
    change (1 =? 1) with true. cbv iota.
    rewrite update_update. f_equal. lia.
  - apply select_points_None in E.
    unfold table_after. rewrite select_points_insert by done.
    change (1 =? 1) with true. cbv iota.
    rewrite update_insert by done. f_equal. lia.
Qed.

Lemma effective_date_after_update op arg s st :
  effective_date arg (type_points s (update_points op arg st).2)
  = effective_date arg st.
Proof.
  apply effective_date_ext. simpl. apply date_entry_update_points.
Qed.

(** X7: two additions to a date leave the table that one addition of the
    sum leaves. *)
Theorem add_twice st arg d s1 s2 s3 :
  effective_date arg st = d ->
  is_valid_date d = true ->
  isdigit s1 = true -> isdigit s2 = true -> isdigit s3 = true ->
  int s3 = int s1 + int s2 ->
  let st1 := (update_points 1 arg (type_points s1 st)).2 in
  db (update_points 1 arg (type_points s2 st1)).2
  = db (update_points 1 arg (type_points s3 st)).2.
Proof.
  intros Hd Hv H1 H2 H3 Hsum st1.
  assert (Hd1 : effective_date arg st1 = d).
  { unfold st1. rewrite <- Hd.
    rewrite (update_points_effective 1 arg (type_points s1 st)).
    apply effective_date_ext. rewrite date_entry_update_points. done. }
  rewrite (db_update_points_typed 1 arg d s2 st1) by done.
  rewrite (db_update_points_typed 1 arg d s3 st) by done.
  unfold st1. rewrite (db_update_points_typed 1 arg d s1 st) by done.
  by apply table_after_add_twice.
Qed.

Lemma add_twice_witness :
  let st1 := (update_points 1 None (type_points "3" fresh_tracker)).2 in
  db (update_points 1 None (type_points "4" st1)).2
  = db (update_points 1 None (type_points "7" fresh_tracker)).2.
Proof.
  apply (add_twice fresh_tracker None "2024-01-01" "3" "4" "7"); reflexivity.
Defined.

Lemma update_points_id e d t :
  NoDup (dates t) -> Db.select_points d t = Some e -> Db.update_points e d t = t.
Proof.
  induction t as [|r t IH]; [done|]. intros Hnd.
  apply NoDup_cons in Hnd as [Hfresh Hnd].
  rewrite select_points_cons.
  change (Db.update_points e d (r :: t))
    with ((if Db.has_date d r
           then Db.mk_row (Db.row_id r) (Db.row_date r) e else r)
          :: Db.update_points e d t).
  destruct (Db.has_date d r) eqn:E.
  - intros [= <-]. apply has_date_true in E. subst d.
    rewrite update_absent by exact Hfresh. by destruct r.
  - intros Hsel. by rewrite IH.
Qed.

(** X8: on a date that has a row with a positive number of points,
    adding an amount and removing the same amount gives back the table
    as it was; the message shows the points the row had. *)
Theorem add_then_remove_existing st arg d s e :
  NoDup (dates (db st)) ->
  effective_date arg st = d ->
  is_valid_date d = true ->
  isdigit s = true ->
  Db.select_points d (db st) = Some e -> 0 < e ->
  let st1 := (update_points 1 arg (type_points s st)).2 in
  let r := update_points (-1) arg (type_points s st1) in
  r.1 = InfoUpdated d e /\ db r.2 = db st.
Proof.
  intros Hnd Hd Hv Hs He Hpos st1 r.
  assert (Hd1 : effective_date arg (type_points s st1) = d).
  { rewrite <- Hd. apply effective_date_ext. simpl.
    unfold st1. by rewrite date_entry_update_points. }
  assert (Hdb1 : db st1 = Db.update_points (e + int s) d (db st)).
  { unfold st1. rewrite (db_update_points_typed 1 arg d s st) by done.
    unfold table_after. by rewrite He. }
  assert (Hsel1 : Db.select_points d (db st1) = Some (e + int s))
    by (by rewrite Hdb1, select_points_update_same, He).
  unfold r.
  rewrite (update_points_checked (-1) arg (type_points s st1) d) by done.
  change (db (type_points s st1)) with (db st1).
  change (points_entry (type_points s st1)) with s.
  rewrite Hsel1. change (-1 =? 1) with false. change (-1 =? -1) with true.
  cbv iota.
  replace (e + int s - int s) with e by lia.
  destruct (e <=? 0) eqn:E0; [apply Z.leb_le in E0; lia|].
  simpl. split; [done|].
  rewrite Hdb1, update_update. by apply update_points_id.
Qed.

Lemma add_then_remove_existing_witness :
  let st := (update_points 1 None (type_points "3" fresh_tracker)).2 in
  let st1 := (update_points 1 None (type_points "4" st)).2 in
  let r := update_points (-1) None (type_points "4" st1) in
  r.1 = InfoUpdated "2024-01-01" 3 /\ db r.2 = db st.
Proof.
  apply (add_then_remove_existing
           (update_points 1 None (type_points "3" fresh_tracker)).2
           None "2024-01-01" "4" 3);
    [repeat constructor; set_solver|reflexivity|reflexivity|reflexivity
    |reflexivity|lia].
Defined.

End Totals.

(** ** The events of the window *)

Section Events.

Import PyStr.

(** [update_points] ends in one of two ways: with the window as it was,
    or with the display refreshed over a new table. *)
Lemma update_points_shape op arg st :
  (update_points op arg st).2 = st
  \/ exists t, (update_points op arg st).2 = update_points_display (with_db t st).
Proof.
  unfold update_points.
  destruct (is_valid_date _); simpl negb; cbv iota; [|by left].
  destruct (isdigit _); [|by left].
  destruct (match Db.select_points _ _ with Some _ => _ | None => _ end)
    as [box t].
  right. by exists t.
Qed.

Lemma in_step_update_points_display st : in_step (update_points_display st).
Proof. reflexivity. Qed.

Lemma update_points_in_step op arg st :
  in_step st -> in_step (update_points op arg st).2.
Proof.
  intros H. destruct (update_points_shape op arg st) as [->|[t ->]]; [done|].
  apply in_step_update_points_display.
Qed.

Lemma show_week_shape move st st' :
  show_week move st = Some st' ->
  exists w dt,
    Calendar.add_days (week_anchor st) (Calendar.weeks w) = Some dt
    /\ (w = 1 \/ w = -1)
    /\ st' = update_points_display
               (with_heatmap (set_week_start dt (heatmap_calendar st)) st).
Proof.
  destruct move; simpl; unfold show_previous_week, show_next_week, week_anchor.
  - destruct (Calendar.add_days _ (- Calendar.weeks 1)) as [dt|] eqn:E; [|done].
    simpl. intros [= <-]. exists (-1), dt. split; [exact E|]. split; [by right|done].
  - destruct (Calendar.add_days _ (Calendar.weeks 1)) as [dt|] eqn:E; [|done].
    simpl. intros [= <-]. exists 1, dt. split; [exact E|]. split; [by left|done].
Qed.

(** What a press does to the window: nothing, a new text in the date
    entry, or what [update_points] does. *)
Lemma press_shape event now st box st' :
  press event now st = Some (box, st') ->
  st' = st
  \/ (exists date, st' = set_date (Some date) now st)
  \/ (exists op date, st' = (update_points op (Some date) st).2).
Proof.
  unfold press.
  destruct (mousePressEvent (heatmap_calendar st) event) as [[|date|op date]|];
    simpl; [| | |done].
  - intros [= _ <-]. by left.
  - intros [= _ <-]. right. left. by exists date.
  - intros H. right. right. exists op, date.
    by destruct (update_points op (Some date) st); injection H as _ <-.
Qed.

Lemma mouseMoveEvent_shape h event h' :
  mouseMoveEvent h event = Some h' ->
  h' = h
  \/ (exists i, 0 <= i < 7 /\ h' = set_hover i 0 h)
  \/ h' = set_hover (-1) 0 h.
Proof.
  unfold mouseMoveEvent.
  destruct (square_index_at h (ev_x event) (ev_y event)) as [i|] eqn:E.
  - destruct (day_key h i); simpl; [|done].
    destruct (hovered_square h =? i); intros [= <-]; [by left|].
    right. left. exists i. split; [|done].
    unfold square_index_at in E.
    destruct (_ && _ && _); [|done].
    destruct ((0 <=? _) && (_ <? 7)) eqn:E'; [|done].
    injection E as <-. apply andb_true_iff in E' as [E1 E2].
    apply Z.leb_le in E1. apply Z.ltb_lt in E2. lia.
  - intros [= <-]. by right; right.
Qed.

(** Once the heatmap holds the mapping of the table, it holds it
    after every event: whatever writes the table also refreshes the
    display, and nothing else touches either. *)
Lemma handle_keeps_in_step e st st' :
  in_step st -> handle e st = Some st' -> in_step st'.
Proof.
  intros Hin. destruct e as [text|text| | |move|event now|event| |dialog];
    simpl.
  - by intros [= <-].
  - by intros [= <-].
  - intros [= <-]. by apply update_points_in_step.
  - intros [= <-]. by apply update_points_in_step.
  - intros H. apply show_week_shape in H as (w & dt & _ & _ & ->).
    apply in_step_update_points_display.
  - destruct (press event now st) as [[box st1]|] eqn:E; simpl; [|done].
    intros [= <-].
    apply press_shape in E as [->|[[date ->]|(op & date & ->)]];
      [done|done|by apply update_points_in_step].
  - destruct (mouseMoveEvent _ _) as [h|] eqn:E; simpl; [|done].
    intros [= <-].
    by apply mouseMoveEvent_shape in E as [->|[(i & _ & ->)| ->]].
  - by intros [= <-].
  - intros [= <-]. by destruct dialog.
Qed.

Lemma table_after_none_negative op d s t :
  0 <= int s -> none_negative t -> none_negative (table_after op d s t).
Proof.
  intros Hs Hall. unfold table_after, none_negative in *.
  assert (Hupd : forall v, 0 <= v -> Forall (fun r => 0 <= Db.row_points r)
                                       (Db.update_points v d t)).
  { intros v Hv. unfold Db.update_points. apply Forall_map.
    eapply Forall_impl; [exact Hall|]. intros r Hr. simpl.
    by destruct (Db.has_date d r). }
  destruct (Db.select_points d t) as [existing|] eqn:E.
  - apply select_points_Some in E as (r & Hin & _ & Hr).
    assert (0 <= existing).
    { rewrite <- Hr. rewrite Forall_forall in Hall. by apply Hall. }
    destruct (op =? 1); [apply Hupd; lia|].
    destruct (op =? -1); [|done].
    destruct (_ <=? 0) eqn:E'; [|apply Hupd; apply Z.leb_gt in E'; lia].
    unfold Db.delete. rewrite Forall_forall in *. intros x Hx.
    apply list_elem_of_In, filter_In in Hx as [Hx _].
    by apply Hall, list_elem_of_In.
  - destruct (op =? 1); [|done].
    unfold Db.insert. apply Forall_app. split; [done|].
    by apply Forall_singleton.
Qed.

Lemma update_points_none_negative op arg st :
  none_negative (db st) -> none_negative (db (update_points op arg st).2).
Proof.
  intros H. rewrite db_update_points.
  destruct (is_valid_date _); [|done].
  destruct (isdigit (points_entry st)) eqn:Hs; [|done]. simpl.
  apply table_after_none_negative; [by apply int_nonneg|done].
Qed.

(** The table after an event is the table before it, or the table that
    [update_points] leaves. *)
Lemma db_handle e st st' :
  handle e st = Some st' ->
  db st' = db st \/ exists op arg, db st' = db (update_points op arg st).2.
Proof.
  destruct e as [text|text| | |move|event now|event| |dialog]; simpl.
  - intros [= <-]. by left.
  - intros [= <-]. by left.
  - intros [= <-]. right. by exists 1, None.
  - intros [= <-]. right. by exists (-1), None.
  - intros H. apply show_week_shape in H as (w & dt & _ & _ & ->). by left.
  - destruct (press event now st) as [[box st1]|] eqn:E; simpl; [|done].
    intros [= <-].
    apply press_shape in E as [->|[[date ->]|(op & date & ->)]];
      [by left|by left|].
    right. by exists op, (Some date).
  - destruct (mouseMoveEvent _ _) as [h|] eqn:E; simpl; [|done].
    intros [= <-]. by left.
  - intros [= <-]. by left.
  - intros [= <-]. left. by destruct dialog.
Qed.

(** No event brings a negative number of points into the table:
    an amount is a text of digits, a removal that would leave nothing or
    less deletes the row, and nothing but [update_points] writes. *)
Lemma handle_none_negative e st st' :
  none_negative (db st) -> handle e st = Some st' -> none_negative (db st').
Proof.
  intros Hnn H. apply db_handle in H as [->|(op & arg & ->)]; [done|].
  by apply update_points_none_negative.
Qed.

(** X9: the table changes only through the two buttons and through a
    press on the heatmap with a modifier key down: typing, a plain
    press, moving the pointer, the timer, the preferences and the week
    buttons leave it as it is. *)
Theorem handle_writes e st st' :
  handle e st = Some st' ->
  db st' <> db st ->
  match e with
  | ClickAdd | ClickRemove => True
  | MousePress event _ => ev_modifiers event <> 0
  | _ => False
  end.
Proof.
  destruct e as [text|text| | |move|event now|event| |dialog]; simpl;
    try done.
  - by intros [= <-].
  - by intros [= <-].
  - intros H. apply show_week_shape in H as (w & dt & _ & _ & ->). done.
  - unfold press, mousePressEvent.
    destruct (square_index_at _ _ _) as [i|]; simpl; [|by intros [= <-]].
    destruct (day_key _ i) as [date|]; simpl; [|done].
    destruct (ev_modifiers event =? 0) eqn:E; simpl.
    + by intros [= <-].
    + intros _ _. by apply Z.eqb_neq.
  - destruct (mouseMoveEvent _ _) as [h|] eqn:E; simpl; [|done].
    by intros [= <-].
  - by intros [= <-].
  - intros [= <-]. by destruct dialog.
Qed.

Lemma handle_writes_witness :
  ev_modifiers (mk_event 60 10 1 1) <> 0.
Proof.
  apply (handle_writes
           (MousePress (mk_event 60 10 1 1) (Calendar.mk_datetime 738886 0))
           (type_points "3" fresh_tracker)
           (update_points 1 (Some "2024-01-01") (type_points "3" fresh_tracker)).2);
    [reflexivity|discriminate].
Defined.

(** No event changes the day of the week on which the shown week
    starts: the week buttons move it by seven days, and nothing else
    moves it.  The week that [HeatmapCalendar.__init__] starts on a
    Monday stays a week from Monday to Sunday. *)
Lemma handle_keeps_weekday e st st' :
  handle e st = Some st' ->
  Calendar.weekday (week_anchor st') = Calendar.weekday (week_anchor st).
Proof.
  destruct e as [text|text| | |move|event now|event| |dialog]; simpl.
  - by intros [= <-].
  - by intros [= <-].
  - intros [= <-].
    by destruct (update_points_shape 1 None st) as [->|[t ->]].
  - intros [= <-].
    by destruct (update_points_shape (-1) None st) as [->|[t ->]].
  - intros H. apply show_week_shape in H as (w & dt & Hadd & _ & ->).
    rewrite week_anchor_update_points_display.
    change (week_anchor (with_heatmap (set_week_start dt (heatmap_calendar st)) st))
      with dt.
    by apply weekday_add_weeks in Hadd.
  - destruct (press event now st) as [[box st1]|] eqn:E; simpl; [|done].
    intros [= <-].
    apply press_shape in E as [->|[[date ->]|(op & date & ->)]]; [done|done|].
    by destruct (update_points_shape op (Some date) st) as [->|[t ->]].
  - destruct (mouseMoveEvent _ _) as [h|] eqn:E; simpl; [|done].
    intros [= <-].
    by apply mouseMoveEvent_shape in E as [->|[(i & _ & ->)| ->]].
  - by intros [= <-].
  - intros [= <-]. by destruct dialog.
Qed.

Lemma fade_in_in_range h : hover_in_range h -> hover_in_range (fade_in h).
Proof.
  unfold hover_in_range, fade_in. intros [Hs Ho]. simpl.
  split; [done|]. destruct (255 <? _) eqn:E; [lia|].
  apply Z.ltb_ge in E. lia.
Qed.

(** The square under the pointer is always none (-1) or one of the
    seven, and the opacity of its highlight stays between 0 and 255,
    whatever the pointer and the timer do. *)
Lemma handle_hover_in_range e st st' :
  hover_in_range (heatmap_calendar st) ->
  handle e st = Some st' ->
  hover_in_range (heatmap_calendar st').
Proof.
  intros Hin. destruct e as [text|text| | |move|event now|event| |dialog];
    simpl.
  - by intros [= <-].
  - by intros [= <-].
  - intros [= <-].
    by destruct (update_points_shape 1 None st) as [->|[t ->]].
  - intros [= <-].
    by destruct (update_points_shape (-1) None st) as [->|[t ->]].
  - intros H. apply show_week_shape in H as (w & dt & _ & _ & ->). done.
  - destruct (press event now st) as [[box st1]|] eqn:E; simpl; [|done].
    intros [= <-].
    apply press_shape in E as [->|[[date ->]|(op & date & ->)]]; [done|done|].
    by destruct (update_points_shape op (Some date) st) as [->|[t ->]].
  - destruct (mouseMoveEvent _ _) as [h|] eqn:E; simpl; [|done].
    intros [= <-].
    apply mouseMoveEvent_shape in E as [->|[(i & Hi & ->)| ->]]; [done| |].
    + unfold hover_in_range. simpl. lia.
    + unfold hover_in_range. simpl. lia.
  - intros [= <-]. by apply fade_in_in_range.
  - intros [= <-]. by destruct dialog.
Qed.

Lemma update_points_NoDup op arg st :
  NoDup (dates (db st)) -> NoDup (dates (db (update_points op arg st).2)).
Proof.
  intros H. rewrite db_update_points.
  destruct (_ && _); [by apply table_after_NoDup|done].
Qed.

Lemma handle_NoDup e st st' :
  NoDup (dates (db st)) -> handle e st = Some st' -> NoDup (dates (db st')).
Proof.
  intros Hnd H. apply db_handle in H as [->|(op & arg & ->)]; [done|].
  by apply update_points_NoDup.
Qed.

(** What every event keeps, a run of events keeps. *)
Lemma run_invariant (P : PointsTracker -> Prop) :
  (forall e st st', P st -> handle e st = Some st' -> P st') ->
  forall events st st', P st -> run events st = Some st' -> P st'.
Proof.
  intros Hstep events. induction events as [|e events IH]; intros st st' HP.
  - by intros [= <-].
  - simpl. destruct (handle e st) as [st1|] eqn:E; simpl; [|done].
    apply IH. by apply (Hstep e st).
Qed.

(** X10: the heatmap always shows the table. From a window whose heatmap
    holds the mapping of the table, with one row for a date at most,
    whatever the user and the timer do, the points that [paintEvent] and
    the tooltip read for a date are the points of its row, and 0 for a
    date without a row. *)
Theorem run_shows_table events st st' date :
  NoDup (dates (db st)) -> in_step st ->
  run events st = Some st' ->
  points_on (heatmap_calendar st') date = stored date (db st').
Proof.
  intros Hnd Hin Hrun.
  assert (H : NoDup (dates (db st')) /\ in_step st').
  { apply (run_invariant (fun s => NoDup (dates (db s)) /\ in_step s))
      with (events := events) (st := st); [|done|done].
    intros e s s' [H1 H2] He. split.
    - by apply (handle_NoDup e s).
    - by apply (handle_keeps_in_step e s). }
  destruct H as [Hnd' Hin']. unfold points_on, stored.
  rewrite Hin'. unfold getAll. by rewrite dict_of_rows_select_points.
Qed.

Lemma run_shows_table_witness :
  points_on
    (heatmap_calendar
       (update_points 1 None
          (type_points "3" (update_points_display fresh_tracker))).2)
    "2024-01-01"
  = stored "2024-01-01"
      (db (update_points 1 None
             (type_points "3" (update_points_display fresh_tracker))).2).
Proof.
  apply (run_shows_table [EditPoints "3"; ClickAdd]
           (update_points_display fresh_tracker));
    [apply NoDup_nil_2|reflexivity|reflexivity].
Defined.

(** X11: no run of events brings a negative number of points into the
    table: an amount is a text of digits, a removal that would leave
    nothing or less deletes the row, and nothing but [update_points]
    writes. *)
Theorem run_none_negative events st st' :
  none_negative (db st) -> run events st = Some st' -> none_negative (db st').
Proof.
  apply (run_invariant (fun s => none_negative (db s))).
  apply handle_none_negative.
Qed.

Lemma run_none_negative_witness :
  none_negative
    (db (update_points (-1) None
           (type_points "5"
              (update_points 1 None (type_points "3" fresh_tracker)).2)).2).
Proof.
  apply (run_none_negative [EditPoints "3"; ClickAdd; EditPoints "5"; ClickRemove]
           fresh_tracker);
    [apply List.Forall_nil|reflexivity].
Defined.

(** X12: the shown week always starts on the same day of the week: the
    week buttons move it by seven days and nothing else moves it, so the
    week that [HeatmapCalendar.__init__] starts on a Monday stays a week
    from Monday to Sunday. *)
Theorem run_keeps_weekday events st st' :
  run events st = Some st' ->
  Calendar.weekday (week_anchor st') = Calendar.weekday (week_anchor st).
Proof.
  intros Hrun.
  apply (run_invariant
           (fun s => Calendar.weekday (week_anchor s)
                     = Calendar.weekday (week_anchor st)))
    with (events := events) (st := st); [|done|done].
  intros e s s' Hs He. rewrite <- Hs. by apply (handle_keeps_weekday e).
Qed.

Lemma run_keeps_weekday_witness :
  Calendar.weekday
    (week_anchor
       (update_points_display
          (with_heatmap
             (set_week_start (Calendar.mk_datetime 738879 0)
                (heatmap_calendar fresh_tracker))
             fresh_tracker)))
  = Calendar.weekday (week_anchor fresh_tracker).
Proof.
  apply (run_keeps_weekday [ClickWeek PreviousWeek] fresh_tracker).
  reflexivity.
Defined.

(** X13: the square under the pointer is always none (-1) or one of the
    seven, and the opacity of its highlight stays between 0 and 255,
    whatever the pointer and the timer do. *)
Theorem run_hover_in_range events st st' :
  hover_in_range (heatmap_calendar st) ->
  run events st = Some st' ->
  hover_in_range (heatmap_calendar st').
Proof.
  apply (run_invariant (fun s => hover_in_range (heatmap_calendar s))).
  apply handle_hover_in_range.
Qed.

Lemma run_hover_in_range_witness :
  hover_in_range
    (heatmap_calendar
       (with_heatmap
          (fade_in (set_hover 2 0 (heatmap_calendar fresh_tracker)))
          (with_heatmap (set_hover 2 0 (heatmap_calendar fresh_tracker))
             fresh_tracker))).
Proof.
  apply (run_hover_in_range [MouseMove (mk_event 155 10 0 0); TimerTick]
           fresh_tracker);
    [|reflexivity].
  unfold hover_in_range. simpl. lia.
Defined.

End Events.

(** ** A press on a square *)

Section Presses.

Import PyStr.

(** A pointer inside the rectangle that [paintEvent] draws for square
    [i] is on square [i] for the mouse handlers. *)
Lemma square_rect_hit h i px py :
  0 <= i < 7 ->
  rect_contains (square_rect h i) px py ->
  square_index_at h px py = Some i.
Proof.
  intros Hi [[Hx1 Hx2] [Hy1 Hy2]]. simpl in *.
  pose proof (band_y_positive h) as Hy.
  set (size := square_size h) in *.
  assert (Hidx : (px - start_x h) / (size + spacing) = i).
  { symmetry.
    apply (Z.div_unique_pos _ _ i (px - start_x h - i * (size + spacing)));
      unfold spacing in *; lia. }
  unfold square_index_at. fold size. rewrite Hidx.
  destruct (0 <=? band_y h) eqn:E0; [|lia].
  destruct (band_y h <=? py) eqn:E1; [|lia].
  destruct (py <? band_y h + size) eqn:E2; [|lia]. simpl.
  destruct (0 <=? i) eqn:E3; [|lia].
  destruct (i <? 7) eqn:E4; [done|lia].
Qed.

Lemma day_key_update_points op arg st i :
  day_key (heatmap_calendar (update_points op arg st).2) i
  = day_key (heatmap_calendar st) i.
Proof. by destruct (update_points_shape op arg st) as [->|[t ->]]. Qed.

Lemma day_key_valid h i key :
  day_key h i = Some key ->
  YEAR_1000 <= Calendar.toordinal (current_week_start h) + i ->
  is_valid_date key = true.
Proof.
  unfold day_key. destruct (Calendar.add_days _ _) as [dt|] eqn:E; [|done].
  intros [= <-] Hy. apply add_days_Some in E as [Ho Hr].
  apply is_valid_date_strftime. lia.
Qed.

Lemma day_key_invalid h i key :
  day_key h i = Some key ->
  Calendar.toordinal (current_week_start h) + i < YEAR_1000 ->
  is_valid_date key = false.
Proof.
  unfold day_key. destruct (Calendar.add_days _ _) as [dt|] eqn:E; [|done].
  intros [= <-] Hy. apply add_days_Some in E as [Ho Hr].
  apply is_valid_date_strftime_short. lia.
Qed.

Lemma day_key_not_empty h i key : day_key h i = Some key -> key <> "".
Proof.
  unfold day_key. destruct (Calendar.add_days _ _) as [dt|]; [|done].
  simpl. intros [= <-].
  destruct (strftime_ymd_shape dt) as (Y & M & D & -> & _).
  by destruct Y.
Qed.

Lemma press_with_modifier st event now i key :
  square_index_at (heatmap_calendar st) (ev_x event) (ev_y event) = Some i ->
  day_key (heatmap_calendar st) i = Some key ->
  ev_modifiers event <> 0 ->
  press event now st
  = Some (update_points (if ev_button event =? RightButton then -1 else 1)
            (Some key) st).
Proof.
  intros Hhit Hkey Hmod. apply Z.eqb_neq in Hmod.
  unfold press, mousePressEvent. rewrite Hhit, Hkey. simpl.
  rewrite Hmod. simpl. by destruct (ev_button event =? RightButton).
Qed.

(** X14: a press with a modifier key down inside the square that
    [paintEvent] draws for day [i], a day of the year 1000 or later,
    changes the points of that day by the number in the points entry,
    and the heatmap shows the result in the same square: the right
    button removes, down to no points at all, and every other button
    adds.  The points of all other dates stay.  On a day before the
    year 1000 the same press ends in the message for an invalid date
    and changes nothing: [strftime] gave the year fewer than four
    digits. *)
Theorem modifier_press_changes_square st event now i key :
  NoDup (dates (db st)) ->
  0 <= i < 7 ->
  rect_contains (square_rect (heatmap_calendar st) i) (ev_x event) (ev_y event) ->
  ev_modifiers event <> 0 ->
  day_key (heatmap_calendar st) i = Some key ->
  isdigit (points_entry st) = true ->
  let day := Calendar.toordinal (current_week_start (heatmap_calendar st)) + i in
  let amount := int (points_entry st) in
  let total :=
    if ev_button event =? RightButton
    then Z.max 0 (stored key (db st) - amount)
    else stored key (db st) + amount in
  (YEAR_1000 <= day ->
   exists box st',
     press event now st = Some (box, st')
     /\ day_key (heatmap_calendar st') i = Some key
     /\ forall date,
          points_on (heatmap_calendar st') date
          = if decide (date = key) then total else stored date (db st))
  /\ (day < YEAR_1000 -> press event now st = Some (ErrorInvalidDate, st)).
Proof.
  intros Hnd Hi Hrect Hmod Hkey Hs day amount total.
  pose proof (square_rect_hit _ _ _ _ Hi Hrect) as Hhit.
  assert (Heff : effective_date (Some key) st = key)
    by (apply effective_date_Some; exact (day_key_not_empty _ _ _ Hkey)).
  set (op := if ev_button event =? RightButton then -1 else 1).
  pose proof (press_with_modifier st event now i key Hhit Hkey Hmod) as Hpress.
  fold op in Hpress. split.
  - intros Hday.
    pose proof (day_key_valid _ _ _ Hkey Hday) as Hvalid.
    destruct (update_points op (Some key) st) as [box st'] eqn:E.
    assert (Hst' : st' = (update_points op (Some key) st).2) by (by rewrite E).
    exists box, st'. split; [done|]. split.
    + rewrite Hst', day_key_update_points. done.
    + intros date. rewrite Hst'.
      rewrite points_on_update_points by (by rewrite ?Heff).
      rewrite db_update_points, Heff, Hvalid, Hs. simpl andb. cbv iota.
      unfold op, total, amount. destruct (ev_button event =? RightButton).
      * apply stored_table_after_remove. by apply int_nonneg.
      * apply stored_table_after_add.
  - intros Hday.
    pose proof (day_key_invalid _ _ _ Hkey Hday) as Hinvalid.
    rewrite Hpress. f_equal. unfold update_points.
    by rewrite Heff, Hinvalid.
Qed.

Lemma modifier_press_changes_square_witness :
  let st := type_points "3" fresh_tracker in
  let old := type_points "3" year_999_tracker in
  let event := mk_event 130 10 1 1 in
  let amount := int (points_entry st) in
  let total :=
    if ev_button event =? RightButton
    then Z.max 0 (stored "2024-01-03" (db st) - amount)
    else stored "2024-01-03" (db st) + amount in
  (exists box st',
     press event (Calendar.mk_datetime 738886 0) st = Some (box, st')
     /\ day_key (heatmap_calendar st') 2 = Some "2024-01-03"
     /\ forall date,
          points_on (heatmap_calendar st') date
          = if decide (date = "2024-01-03") then total
            else stored date (db st))
  /\ press (mk_event 50 10 1 1) (Calendar.mk_datetime 738886 0) old
     = Some (ErrorInvalidDate, old).
Proof.
  split.
  - apply (modifier_press_changes_square (type_points "3" fresh_tracker)
             (mk_event 130 10 1 1) (Calendar.mk_datetime 738886 0) 2
             "2024-01-03");
      [apply NoDup_nil_2|lia
      |vm_compute; repeat split; first [discriminate | reflexivity]
      |discriminate|reflexivity|reflexivity
      |vm_compute; discriminate].
  - apply (modifier_press_changes_square (type_points "3" year_999_tracker)
             (mk_event 50 10 1 1) (Calendar.mk_datetime 738886 0) 0
             "999-12-30");
      [apply NoDup_nil_2|lia
      |vm_compute; repeat split; first [discriminate | reflexivity]
      |discriminate|reflexivity|reflexivity
      |vm_compute; reflexivity].
Defined.

(** X15: a press without a modifier key inside the square of day [i]
    writes the date of that day into the date entry and changes nothing
    else; a button pressed after it then does to the table, and says,
    what the press with a modifier key does at once. *)
Theorem plain_press_then_button st event now i key operation :
  0 <= i < 7 ->
  rect_contains (square_rect (heatmap_calendar st) i) (ev_x event) (ev_y event) ->
  ev_modifiers event = 0 ->
  day_key (heatmap_calendar st) i = Some key ->
  exists st',
    press event now st = Some (NoMessage, st')
    /\ st' = type_date key st
    /\ (update_points operation None st').1
       = (update_points operation (Some key) st).1
    /\ db (update_points operation None st').2
       = db (update_points operation (Some key) st).2.
Proof.
  intros Hi Hrect Hmod Hkey.
  pose proof (square_rect_hit _ _ _ _ Hi Hrect) as Hhit.
  pose proof (day_key_not_empty _ _ _ Hkey) as Hne.
  assert (Hset : set_date (Some key) now st = type_date key st).
  { unfold set_date, type_date. destruct key; [done|reflexivity]. }
  exists (type_date key st). split; [|split; [done|]].
  - unfold press, mousePressEvent. rewrite Hhit, Hkey. simpl.
    rewrite Hmod. simpl. by rewrite Hset.
  - assert (Heff : effective_date (Some key) st = key)
      by (by apply effective_date_Some).
    unfold update_points. rewrite Heff.
    change (effective_date None (type_date key st)) with key.
    change (points_entry (type_date key st)) with (points_entry st).
    change (db (type_date key st)) with (db st).
    destruct (is_valid_date key); simpl negb; cbv iota; [|done].
    destruct (isdigit (points_entry st)); [|done].
    by destruct (match Db.select_points key (db st) with
                 | Some _ => _ | None => _ end) as [box t].
Qed.

Lemma plain_press_then_button_witness :
  let st := type_points "3" fresh_tracker in
  exists st',
    press (mk_event 130 10 0 1) (Calendar.mk_datetime 738886 0) st
    = Some (NoMessage, st')
    /\ st' = type_date "2024-01-03" st
    /\ (update_points 1 None st').1
       = (update_points 1 (Some "2024-01-03") st).1
    /\ db (update_points 1 None st').2
       = db (update_points 1 (Some "2024-01-03") st).2.
Proof.
  apply (plain_press_then_button (type_points "3" fresh_tracker)
           (mk_event 130 10 0 1) (Calendar.mk_datetime 738886 0) 2
           "2024-01-03" 1);
    [lia|vm_compute; repeat split; first [discriminate | reflexivity]|reflexivity|reflexivity].
Defined.

End Presses.

(** ** The row of squares in the widget *)

Section Layout.

(** X16: in a widget of at least its minimum size of 350 by 40, the
    seven squares that [paintEvent] draws always lie inside the height
    of the widget, and they lie inside its width exactly when [7 *
    (height - 5) + 30 <= width]: in a higher widget the width sets the
    size of the squares, [width // 6], and seven of them with their gaps
    are wider than the widget. *)
Theorem squares_inside_widget h :
  350 <= width h -> 40 <= height h ->
  (forall i, 0 <= i < 7 ->
     0 < rect_height (square_rect h i)
     /\ 0 <= rect_y (square_rect h i)
     /\ rect_y (square_rect h i) + rect_height (square_rect h i) <= height h)
  /\ ((forall i, 0 <= i < 7 ->
         0 <= rect_x (square_rect h i)
         /\ rect_x (square_rect h i) + rect_width (square_rect h i) <= width h)
      <-> 7 * (height h - 5) + 30 <= width h).
Proof.
  intros Hw Hh. unfold square_rect. simpl.
  unfold band_y, start_x, spacing.
  assert (Hsize : square_size h = Z.min (width h / 6) (height h - 5)) by done.
  set (size := square_size h) in *.
  assert (Hw6 : 6 * (width h / 6) <= width h < 6 * (width h / 6) + 6)
    by (Z.div_mod_to_equations; lia).
  split.
  - intros i Hi.
    assert (1 <= (height h - size) / 4) by (apply Z.div_le_lower_bound; lia).
    assert ((height h - size) / 4 <= height h - size)
      by (Z.div_mod_to_equations; lia).
    lia.
  - split.
    + intros Hall. destruct (Hall 0 ltac:(lia)) as [H0 _].
      assert (size * 7 + 5 * 6 <= width h) by (Z.div_mod_to_equations; lia).
      lia.
    + intros Hfit i Hi.
      assert (Hs : size = height h - 5) by lia.
      assert (H2 : 2 * ((width h - (size * 7 + 5 * 6)) / 2)
                   <= width h - (size * 7 + 5 * 6)
                   < 2 * ((width h - (size * 7 + 5 * 6)) / 2) + 2)
        by (Z.div_mod_to_equations; lia).
      split.
      * assert (0 <= (width h - (size * 7 + 5 * 6)) / 2)
          by (apply Z.div_pos; lia).
        nia.
      * nia.
Qed.

Lemma squares_inside_widget_witness :
  (forall i, 0 <= i < 7 ->
     0 < rect_height (square_rect (heatmap_calendar fresh_tracker) i)
     /\ 0 <= rect_y (square_rect (heatmap_calendar fresh_tracker) i)
     /\ rect_y (square_rect (heatmap_calendar fresh_tracker) i)
        + rect_height (square_rect (heatmap_calendar fresh_tracker) i)
        <= height (heatmap_calendar fresh_tracker))
  /\ ((forall i, 0 <= i < 7 ->
         0 <= rect_x (square_rect (heatmap_calendar fresh_tracker) i)
         /\ rect_x (square_rect (heatmap_calendar fresh_tracker) i)
            + rect_width (square_rect (heatmap_calendar fresh_tracker) i)
            <= width (heatmap_calendar fresh_tracker))
      <-> 7 * (height (heatmap_calendar fresh_tracker) - 5) + 30
          <= width (heatmap_calendar fresh_tracker)).
Proof.
  apply (squares_inside_widget (heatmap_calendar fresh_tracker));
    simpl; lia.
Defined.

End Layout.

(** ** The colour of a square and the goal *)

Section ColourAndGoal.

(** The colour value is a colour channel: it lies between 0 and 155. *)
Lemma color_value_in_range points goal :
  0 < points < 2 ^ 52 -> goal < 2 ^ 42 ->
  exists v, color_value points goal = Some v /\ 0 <= v <= 155.
Proof.
  intros Hp Hg. destruct (Z_lt_le_dec 0 goal) as [Hpos|Hle].
  - destruct (color_value_near points goal Hp (conj Hpos Hg))
      as (v & Hv & [->|(Hlt & Hmod & ->)]).
    + exists (Z.min 155 (155 * points / goal)). split; [done|].
      assert (0 <= 155 * points / goal) by (apply Z.div_pos; lia). lia.
    + exists (155 * points / goal - 1). split; [done|].
      assert (H1 : 1 <= 155 * points / goal).
      { apply Z.div_le_lower_bound; [lia|].
        assert (goal <= 155 * points); [|lia].
        apply Z.mod_divide in Hmod; [|lia].
        destruct Hmod as [k Hk].
        assert (0 < k) by nia. nia. }
      assert (H2 : 155 * points / goal < 155)
        by (apply Z.div_lt_upper_bound; lia).
      lia.
  - exists 0. split; [|lia]. unfold color_value.
    destruct (0 <? goal) eqn:E; [apply Z.ltb_lt in E; lia|done].
Qed.

(** X17: a square is drawn at the full value of 155 exactly when the
    points of its day reach the goal. *)
Theorem color_value_full_iff_goal points goal :
  0 < points < 2 ^ 52 -> 0 < goal < 2 ^ 42 ->
  color_value points goal = Some 155 <-> goal <= points.
Proof.
  intros Hp Hg.
  destruct (color_value_near points goal Hp Hg) as (v & Hv & Hcases).
  rewrite Hv. split.
  - intros [= ->]. destruct Hcases as [Hmin|(Hlt & Hmod & Hone)].
    + destruct (Z_le_gt_dec goal points) as [|Hgt]; [done|].
      assert (155 * points / goal < 155)
        by (apply Z.div_lt_upper_bound; lia).
      lia.
    + assert (155 * points / goal < 155)
        by (apply Z.div_lt_upper_bound; lia).
      lia.
  - intros Hge. destruct Hcases as [->|(Hlt & _ & _)]; [|lia].
    assert (155 <= 155 * points / goal)
      by (apply Z.div_le_lower_bound; lia).
    f_equal. lia.
Qed.

Lemma color_value_full_iff_goal_witness :
  color_value 12 10 = Some 155 <-> 10 <= 12.
Proof. apply (color_value_full_iff_goal 12 10); lia. Defined.

(** X18: more points never give a paler square: for one goal the colour
    value grows with the points, although the product is rounded and
    cut. *)
Theorem color_value_monotone points1 points2 goal :
  0 < points1 <= points2 -> points2 < 2 ^ 52 -> 0 < goal < 2 ^ 42 ->
  exists v1 v2,
    color_value points1 goal = Some v1
    /\ color_value points2 goal = Some v2
    /\ v1 <= v2.
Proof.
  intros Hp1 Hp2 Hg.
  destruct (color_value_near points1 goal ltac:(lia) Hg) as (v1 & Hv1 & H1).
  destruct (color_value_near points2 goal ltac:(lia) Hg) as (v2 & Hv2 & H2).
  exists v1, v2. split; [done|]. split; [done|].
  destruct (Z.eq_dec points1 points2) as [<-|Hne].
  { rewrite Hv1 in Hv2. injection Hv2 as <-. lia. }
  assert (Hlt : points1 < points2) by lia.
  assert (Hdiv : 155 * points1 / goal <= 155 * points2 / goal)
    by (apply Z.div_le_mono; lia).
  assert (Hv1le : v1 <= 155 * points1 / goal)
    by (destruct H1 as [->|(_ & _ & ->)]; lia).
  assert (Hv1155 : v1 <= 155).
  { destruct H1 as [->|(Hl & _ & ->)]; [lia|].
    assert (155 * points1 / goal < 155)
      by (apply Z.div_lt_upper_bound; lia).
    lia. }
  destruct H2 as [->|(Hl2 & Hmod2 & ->)]; [lia|].
  (* the product for [points2] is a whole number, and the one for
     [points1] lies strictly below it *)
  apply Z.mod_divide in Hmod2; [|lia]. destruct Hmod2 as [k Hk].
  assert (Hq2 : 155 * points2 / goal = k)
    by (rewrite Hk; apply Z.div_mul; lia).
  assert (Hq1 : 155 * points1 / goal < k).
  { apply Z.div_lt_upper_bound; [lia|].
    replace (goal * k) with (155 * points2) by lia. lia. }
  lia.
Qed.

Lemma color_value_monotone_witness :
  exists v1 v2,
    color_value 20 31 = Some v1 /\ color_value 21 31 = Some v2 /\ v1 <= v2.
Proof. apply (color_value_monotone 20 21 31); lia. Defined.

(** X19: a day with points is drawn with colour value 0, that is like a
    day without points, when its points are less than the 155th part of
    the goal; with more than that part the value is at least 1. *)
Theorem color_value_needs_goal_share points goal :
  0 < points < 2 ^ 52 -> 0 < goal < 2 ^ 42 ->
  (155 * points < goal -> color_value points goal = Some 0)
  /\ (goal < 155 * points ->
      exists v, color_value points goal = Some v /\ 1 <= v).
Proof.
  intros Hp Hg.
  destruct (color_value_near points goal Hp Hg) as (v & Hv & Hcases).
  rewrite Hv. split.
  - intros Hsmall.
    assert (Hq : 155 * points / goal = 0) by (apply Z.div_small; lia).
    destruct Hcases as [->|(_ & Hmod & _)]; [f_equal; lia|].
    rewrite Z.mod_small in Hmod by lia. lia.
  - intros Hbig. exists v. split; [done|].
    assert (Hq : 1 <= 155 * points / goal)
      by (apply Z.div_le_lower_bound; lia).
    destruct Hcases as [->|(_ & Hmod & ->)]; [lia|].
    apply Z.mod_divide in Hmod; [|lia]. destruct Hmod as [k Hk].
    assert (Hqk : 155 * points / goal = k)
      by (rewrite Hk; apply Z.div_mul; lia).
    assert (2 <= k); [|lia].
    destruct (Z_le_gt_dec 2 k) as [|Hk1]; [done|].
    assert (k = 1) by lia. subst k. lia.
Qed.

Lemma color_value_needs_goal_share_witness :
  (155 * 1 < 200 -> color_value 1 200 = Some 0)
  /\ (200 < 155 * 1 -> exists v, color_value 1 200 = Some v /\ 1 <= v).
Proof. apply (color_value_needs_goal_share 1 200); lia. Defined.

End ColourAndGoal.

(** ** Painting the week *)

Section Painting.

Lemma paint_cell_in_range h i :
  0 < Calendar.toordinal (current_week_start h) + i <= Calendar.MAXORDINAL ->
  target_points_per_day h < 2 ^ 42 ->
  (forall date, points_on h date < 2 ^ 52) ->
  exists c,
    paint_cell h i = Some c
    /\ day_key h i = Some (cell_date c)
    /\ cell_points c = points_on h (cell_date c)
    /\ match cell_color c with
       | Some v => 0 < cell_points c /\ 0 <= v <= 155
       | None => cell_points c <= 0
       end.
Proof.
  intros Hi Hg Hp. unfold paint_cell.
  destruct (day_key_in_range h i Hi) as [date Hkey]. rewrite Hkey. simpl.
  destruct (0 <? points_on h date) eqn:E.
  - apply Z.ltb_lt in E.
    destruct (color_value_in_range (points_on h date) (target_points_per_day h))
      as (v & Hv & Hr); [split; [done|apply Hp]|done|].
    rewrite Hv. simpl. eexists. split; [reflexivity|]. simpl. done.
  - apply Z.ltb_ge in E. eexists. split; [reflexivity|]. simpl. done.
Qed.

(** X20: for a week that lies in the calendar, [paintEvent] draws seven
    squares, one for each day from the anchor on and in that order, each
    with the points that the heatmap holds for its date; a square with
    points gets a colour value between 0 and 155, which [QColor] takes
    as green and as alpha, and a square without points none. (Points
    below [2^52] and a goal below [2^42].) *)
Theorem paintEvent_draws_week h :
  0 < Calendar.toordinal (current_week_start h) ->
  Calendar.toordinal (current_week_start h) + 6 <= Calendar.MAXORDINAL ->
  target_points_per_day h < 2 ^ 42 ->
  (forall date, points_on h date < 2 ^ 52) ->
  exists cells,
    paintEvent h = Some cells
    /\ length cells = 7%nat
    /\ forall i c,
         cells !! i = Some c ->
         day_key h (Z.of_nat i) = Some (cell_date c)
         /\ cell_points c = points_on h (cell_date c)
         /\ match cell_color c with
            | Some v => 0 < cell_points c /\ 0 <= v <= 155
            | None => cell_points c <= 0
            end.
Proof.
  intros H0 H6 Hg Hp.
  destruct (paint_cell_in_range h 0 ltac:(lia) Hg Hp) as (c0 & E0 & P0).
  destruct (paint_cell_in_range h 1 ltac:(lia) Hg Hp) as (c1 & E1 & P1).
  destruct (paint_cell_in_range h 2 ltac:(lia) Hg Hp) as (c2 & E2 & P2).
  destruct (paint_cell_in_range h 3 ltac:(lia) Hg Hp) as (c3 & E3 & P3).
  destruct (paint_cell_in_range h 4 ltac:(lia) Hg Hp) as (c4 & E4 & P4).
  destruct (paint_cell_in_range h 5 ltac:(lia) Hg Hp) as (c5 & E5 & P5).
  destruct (paint_cell_in_range h 6 ltac:(lia) Hg Hp) as (c6 & E6 & P6).
  exists [c0; c1; c2; c3; c4; c5; c6].
  split; [|split; [done|]].
  - apply mapM_Some. repeat constructor; done.
  - intros i c Hc.
    do 7 (destruct i as [|i]; [injection Hc as <-; done|]).
    done.
Qed.

Lemma paintEvent_draws_week_witness :
  exists cells,
    paintEvent (heatmap_calendar fresh_tracker) = Some cells
    /\ length cells = 7%nat
    /\ forall i c,
         cells !! i = Some c ->
         day_key (heatmap_calendar fresh_tracker) (Z.of_nat i)
         = Some (cell_date c)
         /\ cell_points c
            = points_on (heatmap_calendar fresh_tracker) (cell_date c)
         /\ match cell_color c with
            | Some v => 0 < cell_points c /\ 0 <= v <= 155
            | None => cell_points c <= 0
            end.
Proof.
  apply (paintEvent_draws_week (heatmap_calendar fresh_tracker));
    [reflexivity|vm_compute; discriminate|reflexivity|intros date; reflexivity].
Defined.

Lemma day_key_out_of_range h i :
  Calendar.MAXORDINAL < Calendar.toordinal (current_week_start h) + i ->
  day_key h i = None.
Proof. intros H. unfold day_key. by rewrite add_days_out_of_range. Qed.

(** X21: in a week that reaches past 9999-12-31, the last day of
    [datetime], the date of a square beyond that day raises
    [OverflowError]: [paintEvent] fails on every repaint, and a move or
    a press on such a square fails as well. [show_next_week] leads into
    such a week from each of the six days before 9999-12-25. *)
Theorem handlers_fail_past_calendar :
  (forall h,
     Calendar.MAXORDINAL < Calendar.toordinal (current_week_start h) + 6 ->
     paintEvent h = None)
  /\ (forall h event i,
        square_index_at h (ev_x event) (ev_y event) = Some i ->
        Calendar.MAXORDINAL < Calendar.toordinal (current_week_start h) + i ->
        mouseMoveEvent h event = None /\ mousePressEvent h event = None)
  /\ (forall st,
        Calendar.MAXORDINAL - 13 < Calendar.toordinal (week_anchor st)
        <= Calendar.MAXORDINAL - 7 ->
        exists st',
          show_next_week st = Some st'
          /\ paintEvent (heatmap_calendar st') = None).
Proof.
  assert (Hpaint : forall h,
    Calendar.MAXORDINAL < Calendar.toordinal (current_week_start h) + 6 ->
    paintEvent h = None).
  { intros h H. unfold paintEvent. apply mapM_None.
    apply Exists_exists. exists 6. split; [set_solver|].
    unfold paint_cell. by rewrite day_key_out_of_range. }
  split; [exact Hpaint|]. split.
  - intros h event i Hhit Hout.
    unfold mouseMoveEvent, mousePressEvent.
    by rewrite Hhit, day_key_out_of_range.
  - intros st Hst. unfold show_next_week. fold (week_anchor st).
    unfold Calendar.MAXORDINAL in *.
    rewrite add_days_in_range
      by (unfold Calendar.weeks, Calendar.MAXORDINAL; lia).
    simpl. eexists. split; [reflexivity|].
    apply Hpaint. simpl. unfold Calendar.weeks, Calendar.MAXORDINAL. lia.
Qed.

Lemma handlers_fail_past_calendar_witness :
  paintEvent (heatmap_calendar last_week_tracker) = None
  /\ (mouseMoveEvent (heatmap_calendar last_week_tracker) (mk_event 260 10 0 1)
      = None
      /\ mousePressEvent (heatmap_calendar last_week_tracker)
           (mk_event 260 10 0 1) = None)
  /\ exists st',
       show_next_week
         (with_heatmap
            (set_week_start (Calendar.mk_datetime 3652048 0)
               (heatmap_calendar fresh_tracker))
            fresh_tracker)
       = Some st'
       /\ paintEvent (heatmap_calendar st') = None.
Proof.
  destruct handlers_fail_past_calendar as (H1 & H2 & H3).
  split; [apply H1; vm_compute; reflexivity|].
  split; [apply (H2 _ _ 5); [reflexivity|vm_compute; reflexivity]|].
  apply H3. vm_compute. split; [reflexivity|discriminate].
Defined.

End Painting.

(** ** The highlight under the pointer *)

Section Highlight.

Lemma iter_fade_in_S n h :
  Nat.iter (S n) fade_in h = fade_in (Nat.iter n fade_in h).
Proof. reflexivity. Qed.

(** X22: [n] ticks of the timer raise the opacity of the highlight by 30
    each, up to 255 and not beyond, and leave the hovered square as it
    is: from 0 the highlight is at its full opacity after nine ticks. *)
Theorem fade_in_ticks n h :
  highlight_opacity h <= 255 ->
  highlight_opacity (Nat.iter n fade_in h)
  = Z.min 255 (highlight_opacity h + 30 * Z.of_nat n)
  /\ hovered_square (Nat.iter n fade_in h) = hovered_square h
  /\ set_hover (hovered_square h) (highlight_opacity h) (Nat.iter n fade_in h)
     = h.
Proof.
  intros Ho. induction n as [|n (IH1 & IH2 & IH3)].
  - simpl. split; [lia|]. split; [done|]. by destruct h.
  - rewrite iter_fade_in_S.
    set (g := Nat.iter n fade_in h) in *. clearbody g.
    unfold fade_in. simpl. rewrite IH1. split; [|split; [done|]].
    + destruct (255 <? _) eqn:E; [apply Z.ltb_lt in E|apply Z.ltb_ge in E]; lia.
    + by rewrite <- IH3.
Qed.

Lemma fade_in_ticks_witness :
  let h := set_hover 2 0 (heatmap_calendar fresh_tracker) in
  highlight_opacity (Nat.iter 9 fade_in h)
  = Z.min 255 (highlight_opacity h + 30 * Z.of_nat 9)
  /\ hovered_square (Nat.iter 9 fade_in h) = hovered_square h
  /\ set_hover (hovered_square h) (highlight_opacity h) (Nat.iter 9 fade_in h)
     = h.
Proof.
  apply (fade_in_ticks 9 (set_hover 2 0 (heatmap_calendar fresh_tracker))).
  simpl. lia.
Defined.

(** X23: after a move of the pointer, the square that [paintEvent]
    highlights is the square that a press at the same place acts on:
    with no square hovered the press does nothing, and otherwise it
    passes the date of the hovered square to its parent. *)
Theorem hovered_square_is_pressed h move h' press :
  mouseMoveEvent h move = Some h' ->
  ev_x press = ev_x move -> ev_y press = ev_y move ->
  (hovered_square h' = -1 /\ mousePressEvent h' press = Some PressNothing)
  \/ (0 <= hovered_square h' < 7
      /\ exists date,
           day_key h' (hovered_square h') = Some date
           /\ (mousePressEvent h' press = Some (PressSetDate date)
               \/ exists operation,
                    mousePressEvent h' press
                    = Some (PressUpdatePoints operation date))).
Proof.
  intros Hmove Hx Hy.
  assert (Hgeo : forall s o, square_index_at (set_hover s o h) (ev_x press) (ev_y press)
                             = square_index_at h (ev_x move) (ev_y move))
    by (intros; by rewrite Hx, Hy).
  unfold mouseMoveEvent in Hmove.
  destruct (square_index_at h (ev_x move) (ev_y move)) as [i|] eqn:Ehit.
  - destruct (day_key h i) as [date|] eqn:Ekey; simpl in Hmove; [|done].
    assert (Hi : 0 <= i < 7).
    { unfold square_index_at in Ehit.
      destruct (_ && _ && _); [|done].
      destruct ((0 <=? _) && (_ <? 7)) eqn:E'; [|done].
      injection Ehit as <-. apply andb_true_iff in E' as [E1 E2].
      apply Z.leb_le in E1. apply Z.ltb_lt in E2. lia. }
    assert (Hh' : hovered_square h' = i
                  /\ square_index_at h' (ev_x press) (ev_y press) = Some i
                  /\ day_key h' i = Some date).
    { destruct (hovered_square h =? i) eqn:E; injection Hmove as <-.
      - apply Z.eqb_eq in E. by rewrite Hx, Hy.
      - split; [done|]. split; [by rewrite Hgeo|done]. }
    destruct Hh' as (Hhov & Hhit' & Hkey').
    right. rewrite Hhov. split; [done|]. exists date. split; [done|].
    unfold mousePressEvent. rewrite Hhit', Hkey'. simpl.
    destruct (negb _); [right|by left].
    destruct (ev_button press =? RightButton); by eexists.
  - injection Hmove as <-. left. split; [done|].
    unfold mousePressEvent. by rewrite Hgeo.
Qed.

Lemma hovered_square_is_pressed_witness :
  let h' := set_hover 2 0 (heatmap_calendar fresh_tracker) in
  (hovered_square h' = -1
   /\ mousePressEvent h' (mk_event 130 10 0 1) = Some PressNothing)
  \/ (0 <= hovered_square h' < 7
      /\ exists date,
           day_key h' (hovered_square h') = Some date
           /\ (mousePressEvent h' (mk_event 130 10 0 1)
               = Some (PressSetDate date)
               \/ exists operation,
                    mousePressEvent h' (mk_event 130 10 0 1)
                    = Some (PressUpdatePoints operation date))).
Proof.
  apply (hovered_square_is_pressed (heatmap_calendar fresh_tracker)
           (mk_event 130 10 0 0)); reflexivity.
Defined.

End Highlight.

(** ** Moving through the weeks *)

Section Weeks.

Lemma show_week_anchor move st st' :
  show_week move st = Some st' ->
  week_anchor st'
  = Calendar.mk_datetime
      (Calendar.toordinal (week_anchor st) + 7 * week_shift [move])
      (Calendar.time_of_day (week_anchor st))
  /\ db st' = db st.
Proof.
  destruct move; simpl; unfold show_previous_week, show_next_week;
    fold (week_anchor st); unfold Calendar.add_days;
    (destruct (_ && _); simpl; [|done]); intros [= <-];
    (split; [|done]); rewrite week_anchor_update_points_display;
    unfold week_anchor; simpl; unfold Calendar.weeks; f_equal; lia.
Qed.

Lemma show_week_in_range move st :
  7 < Calendar.toordinal (week_anchor st) <= Calendar.MAXORDINAL - 7 ->
  is_Some (show_week move st).
Proof.
  intros H. destruct move; simpl; unfold show_previous_week, show_next_week;
    fold (week_anchor st);
    rewrite add_days_in_range by (unfold Calendar.weeks; lia);
    by eexists.
Qed.

(** X24: pressing the week buttons any number of times moves the week
    anchor by seven days for each [>] and back by seven days for each
    [<], keeps its time of day and leaves the table alone: as many [<]
    as [>], in any order, lead back to the week they started from. The
    presses all go through when the anchor is further than that many
    weeks from both ends of the calendar. *)
Theorem show_weeks_anchor moves st :
  (forall st',
     show_weeks moves st = Some st' ->
     week_anchor st'
     = Calendar.mk_datetime
         (Calendar.toordinal (week_anchor st) + 7 * week_shift moves)
         (Calendar.time_of_day (week_anchor st))
     /\ db st' = db st)
  /\ (7 * Z.of_nat (length moves) < Calendar.toordinal (week_anchor st)
      <= Calendar.MAXORDINAL - 7 * Z.of_nat (length moves) ->
      is_Some (show_weeks moves st)).
Proof.
  revert st. induction moves as [|move moves IH]; intros st.
  - split.
    + intros st' [= <-]. split; [|done]. simpl.
      rewrite Z.add_0_r. by destruct (week_anchor st).
    + intros _. by eexists.
  - split.
    + intros st'. simpl.
      destruct (show_week move st) as [st1|] eqn:E1; simpl; [|done].
      intros Hrest.
      apply show_week_anchor in E1 as [Ha1 Hdb1].
      destruct (IH st1) as [IH1 _].
      destruct (IH1 st' Hrest) as [Ha Hdb].
      split; [|congruence].
      rewrite Ha, Ha1. simpl. f_equal.
      destruct move; lia.
    + intros Hr. simpl.
      change (Z.of_nat (length (move :: moves)))
        with (Z.of_nat (S (length moves))) in Hr.
      rewrite Nat2Z.inj_succ in Hr.
      destruct (show_week_in_range move st ltac:(lia)) as [st1 E1].
      rewrite E1. simpl.
      apply show_week_anchor in E1 as [Ha1 _].
      destruct (IH st1) as [_ IH2]. apply IH2.
      rewrite Ha1. simpl. destruct move; lia.
Qed.

Lemma show_weeks_anchor_witness :
  (forall st',
     show_weeks [NextWeek; PreviousWeek; PreviousWeek; NextWeek] fresh_tracker
     = Some st' ->
     week_anchor st'
     = Calendar.mk_datetime
         (Calendar.toordinal (week_anchor fresh_tracker)
          + 7 * week_shift [NextWeek; PreviousWeek; PreviousWeek; NextWeek])
         (Calendar.time_of_day (week_anchor fresh_tracker))
     /\ db st' = db fresh_tracker)
  /\ is_Some
       (show_weeks [NextWeek; PreviousWeek; PreviousWeek; NextWeek]
          fresh_tracker).
Proof.
  destruct (show_weeks_anchor [NextWeek; PreviousWeek; PreviousWeek; NextWeek]
              fresh_tracker) as [H1 H2].
  split; [exact H1|]. apply H2. vm_compute. split; [reflexivity|discriminate].
Defined.

End Weeks.

(** ** The goal of the preferences *)

Section Goal.

Import PyStr.


End Goal.

(** ** The window as it starts *)

Section Startup.

(** X26: taking the readings of the clock at the start as one reading
    [now], the heatmap starts on the Monday of the current week, and
    today is one of its seven squares, the one at the index of today's
    day of the week; the text that [set_date()] puts into the date entry
    is the date of that square, so that points added right away appear
    in the week shown. From the seventh day of the calendar on the
    Monday exists. *)
Theorem startup_shows_today now a h st :
  Calendar.toordinal now <= Calendar.MAXORDINAL ->
  initial_week_start now = Some a ->
  current_week_start h = a ->
  Calendar.weekday a = 0
  /\ 0 <= Calendar.weekday now < 7
  /\ day_key h (Calendar.weekday now) = Some (Calendar.strftime_ymd now)
  /\ day_key h (Calendar.weekday now)
     = Some (date_entry (set_date None now st))
  /\ (7 <= Calendar.toordinal now -> is_Some (initial_week_start now)).
Proof.
  intros Hmax Ha Hh.
  split; [by apply (initial_week_start_monday now)|].
  assert (Hwd : 0 <= Calendar.weekday now < 7)
    by (unfold Calendar.weekday; apply Z.mod_pos_bound; lia).
  split; [done|].
  assert (Hkey : day_key h (Calendar.weekday now)
                 = Some (Calendar.strftime_ymd now)).
  { unfold initial_week_start in Ha.
    apply add_days_Some in Ha as Hr. destruct Hr as [Ho Hr].
    unfold Calendar.add_days in Ha. destruct (_ && _); [|done].
    injection Ha as Ha.
    unfold day_key. rewrite Hh.
    rewrite add_days_in_range by lia.
    simpl. do 2 f_equal. rewrite <- Ha. simpl.
    replace (Calendar.toordinal now + - Calendar.weekday now
             + Calendar.weekday now)
      with (Calendar.toordinal now) by lia.
    by destruct now. }
  split; [done|]. split; [done|].
  intros H7. unfold initial_week_start.
  rewrite add_days_in_range by lia. by eexists.
Qed.

Lemma startup_shows_today_witness :
  let now := Calendar.mk_datetime 738890 3600000000 in
  let a := Calendar.mk_datetime 738886 3600000000 in
  let h := set_week_start a (heatmap_calendar fresh_tracker) in
  Calendar.weekday a = 0
  /\ 0 <= Calendar.weekday now < 7
  /\ day_key h (Calendar.weekday now) = Some (Calendar.strftime_ymd now)
  /\ day_key h (Calendar.weekday now)
     = Some (date_entry (set_date None now fresh_tracker))
  /\ (7 <= Calendar.toordinal now -> is_Some (initial_week_start now)).
Proof.
  apply (startup_shows_today (Calendar.mk_datetime 738890 3600000000)
           (Calendar.mk_datetime 738886 3600000000)
           (set_week_start (Calendar.mk_datetime 738886 3600000000)
              (heatmap_calendar fresh_tracker))
           fresh_tracker);
    [vm_compute; discriminate|reflexivity|reflexivity].
Defined.

End Startup.
